(** * iot_ADS: the MQTT system service of the ESP32 firmware

    A shallow embedding of [src/services/mqtt_system.c]: the file-level
    globals become one record that is threaded through every function, the
    calls to the ESP-IDF collaborators (WiFi driver, MQTT client, FreeRTOS)
    are appended to a log kept in that record, and what the collaborators
    answer is an input of the model.  Logging (ESP_LOGx) has no effect on
    the globals and is left out. *)

From Stdlib Require Import ZArith List String Ascii Bool Lia.
Import ListNotations.
Open Scope string_scope.
Open Scope list_scope.
Open Scope Z_scope.

(** ** Machine integers *)

Definition to_uint32 (x : Z) : Z := x mod 4294967296.
Definition to_uint64 (x : Z) : Z := x mod 18446744073709551616.
Definition INT_MAX : Z := 2147483647.
Definition INT_MIN : Z := -2147483648.

(** ** C strings *)

(** The bytes of a buffer up to its first NUL: what [strncpy] followed by a
    terminating NUL leaves, and what [strcmp], [strlen] and [atoi] read. *)
Fixpoint c_str (s : string) : string :=
  match s with
  | EmptyString => EmptyString
  | String c r => if Ascii.eqb c zero then EmptyString else String c (c_str r)
  end.

Definition strlen (s : string) : Z := Z.of_nat (String.length (c_str s)).

(** [strcmp(a, b) == 0] *)
Definition strcmp_eq0 (a b : string) : bool := String.eqb (c_str a) (c_str b).

Definition isspace (c : ascii) : bool :=
  let n := nat_of_ascii c in
  (Nat.eqb n 32 || (Nat.leb 9 n && Nat.leb n 13))%bool.

Definition digit_of (c : ascii) : option Z :=
  let n := nat_of_ascii c in
  if (Nat.leb 48 n && Nat.leb n 57)%bool then Some (Z.of_nat n - 48) else None.

Fixpoint atoi_digits (s : string) (acc : Z) : Z :=
  match s with
  | EmptyString => acc
  | String c r =>
      match digit_of c with
      | Some d => atoi_digits r (acc * 10 + d)
      | None => acc
      end
  end.

Fixpoint atoi_skip (s : string) : string :=
  match s with
  | EmptyString => EmptyString
  | String c r => if isspace c then atoi_skip r else s
  end.

(** [atoi] of the C library, as [(int) strtol(s, NULL, 10)]: leading white
    space, an optional sign, then decimal digits up to the first other
    character; no digit gives 0, and a value out of range is clamped. *)
Definition atoi (s : string) : Z :=
  let v :=
    match atoi_skip (c_str s) with
    | String "-" r => - atoi_digits r 0
    | String "+" r => atoi_digits r 0
    | t => atoi_digits t 0
    end in
  Z.max INT_MIN (Z.min INT_MAX v).

(** ** Types of mqtt_system.h and of the collaborators *)

Record mqtt_statistics_t := mk_stats {
  total_publicadas : Z;
  total_recebidas : Z;
  falhas_publicacao : Z;
  desconexoes : Z;
  tempo_desconectado_ms : Z;
  ultima_mensagem_ts : Z
}.

(** [memset(&s_stats, 0, sizeof(mqtt_statistics_t))] *)
Definition stats_zero : mqtt_statistics_t := mk_stats 0 0 0 0 0 0.

Inductive esp_err_t :=
| ESP_OK
| ESP_FAIL
| ESP_ERR_INVALID_ARG
| ESP_ERR_INVALID_STATE
| ESP_ERR_TIMEOUT
| ESP_ERR_NVS_NO_FREE_PAGES
| ESP_ERR_NVS_NEW_VERSION_FOUND
| ESP_ERR_OTHER (code : Z).

Definition is_ESP_OK (e : esp_err_t) : bool :=
  match e with ESP_OK => true | _ => false end.

(** A non-NULL [esp_mqtt_client_handle_t]; NULL is [None]. *)
Definition handle := Z.

Inductive gpio_num_t := GPIO_NUM_18 | GPIO_NUM_19.

(** [gpio_mode_t] of the GPIO driver, as far as the program meets it:
    [GPIO_MODE_DISABLE] is what [gpio_reset_pin] leaves, [GPIO_MODE_OUTPUT]
    what [init_gpio] selects; [GPIO_MODE_INPUT_OUTPUT], which the program
    never selects, is the mode in which a pin reads its own output. *)
Inductive gpio_mode_t :=
| GPIO_MODE_DISABLE
| GPIO_MODE_OUTPUT
| GPIO_MODE_INPUT_OUTPUT.

Inductive esp_mqtt_event_id_t :=
| MQTT_EVENT_ANY
| MQTT_EVENT_ERROR
| MQTT_EVENT_CONNECTED
| MQTT_EVENT_DISCONNECTED
| MQTT_EVENT_SUBSCRIBED
| MQTT_EVENT_UNSUBSCRIBED
| MQTT_EVENT_PUBLISHED
| MQTT_EVENT_DATA
| MQTT_EVENT_BEFORE_CONNECT
| MQTT_EVENT_DELETED
| MQTT_USER_EVENT.

(** The part of [esp_mqtt_event_t] the handler reads: [topic] holds the
    [topic_len] bytes at [event->topic], [data] the [data_len] bytes at
    [event->data]. *)
Record esp_mqtt_event_t := mk_event {
  topic : string;
  data : string
}.

(** The (event_base, event_id) pairs [wifi_event_handler] tells apart; it is
    registered for every WIFI_EVENT id, the last constructor is any other. *)
Inductive wifi_event_t :=
| WIFI_EVENT_STA_START
| WIFI_EVENT_STA_DISCONNECTED
| IP_EVENT_STA_GOT_IP
| WIFI_EVENT_OTHER.

(** Calls made to the collaborators, in the order they are made. *)
Inductive call :=
| Call_esp_wifi_connect
| Call_esp_mqtt_client_publish
    (client : handle) (tp : string) (payload : string) (len qos retain : Z)
| Call_esp_mqtt_client_subscribe (client : handle) (tp : string) (qos : Z)
| Call_esp_mqtt_client_unsubscribe (client : handle) (tp : string)
| Call_nvs_flash_init
| Call_nvs_flash_erase
| Call_esp_netif_init
| Call_esp_event_loop_create_default
| Call_wifi_setup
| Call_esp_mqtt_client_init
| Call_esp_mqtt_client_register_event (client : handle)
| Call_esp_mqtt_client_start (client : handle)
| Call_esp_mqtt_client_destroy (client : handle)
| Call_xTaskCreate (name : string)
| Call_vTaskDelete (name : string)
| Call_esp_mqtt_client_stop (client : handle).

(** The MQTT client library: the message id each request returns, which may
    depend on everything that was asked before. *)
Class mqtt_client_lib := {
  esp_mqtt_client_publish :
    list call -> handle -> string -> string -> Z -> Z -> Z -> Z;
  esp_mqtt_client_subscribe : list call -> handle -> string -> Z -> Z;
  esp_mqtt_client_unsubscribe : list call -> handle -> string -> Z
}.

(** ** The globals of mqtt_system.c, the two output pins and the clock *)

Record sys := mk_sys {
  s_stats : mqtt_statistics_t;
  s_mqtt_client : option handle;
  s_mqtt_connected : bool;
  s_wifi_retry_num : Z;
  s_temp_low_start_time_ms : Z;
  s_task_telemetry : bool;
  s_task_health : bool;
  s_task_wifi_watchdog : bool;
  s_task_ac_monitor : bool;
  s_system_initialized : bool;
  gpio_18 : Z;
  gpio_19 : Z;
  time_us : Z;
  calls : list call;
  gpio_18_mode : gpio_mode_t;
  gpio_19_mode : gpio_mode_t
}.

(** The static initialisers; both pins low and not yet configured, the
    clock at boot. *)
Definition boot_state : sys :=
  mk_sys stats_zero None false 0 0 false false false false false 0 0 0 []
    GPIO_MODE_DISABLE GPIO_MODE_DISABLE.

Definition set_s_stats (v : mqtt_statistics_t) (st : sys) : sys :=
  mk_sys v (s_mqtt_client st) (s_mqtt_connected st) (s_wifi_retry_num st)
    (s_temp_low_start_time_ms st) (s_task_telemetry st) (s_task_health st)
    (s_task_wifi_watchdog st) (s_task_ac_monitor st) (s_system_initialized st)
    (gpio_18 st) (gpio_19 st) (time_us st) (calls st)
    (gpio_18_mode st) (gpio_19_mode st).

Definition set_s_mqtt_client (v : option handle) (st : sys) : sys :=
  mk_sys (s_stats st) v (s_mqtt_connected st) (s_wifi_retry_num st)
    (s_temp_low_start_time_ms st) (s_task_telemetry st) (s_task_health st)
    (s_task_wifi_watchdog st) (s_task_ac_monitor st) (s_system_initialized st)
    (gpio_18 st) (gpio_19 st) (time_us st) (calls st)
    (gpio_18_mode st) (gpio_19_mode st).

Definition set_s_mqtt_connected (v : bool) (st : sys) : sys :=
  mk_sys (s_stats st) (s_mqtt_client st) v (s_wifi_retry_num st)
    (s_temp_low_start_time_ms st) (s_task_telemetry st) (s_task_health st)
    (s_task_wifi_watchdog st) (s_task_ac_monitor st) (s_system_initialized st)
    (gpio_18 st) (gpio_19 st) (time_us st) (calls st)
    (gpio_18_mode st) (gpio_19_mode st).

Definition set_s_wifi_retry_num (v : Z) (st : sys) : sys :=
  mk_sys (s_stats st) (s_mqtt_client st) (s_mqtt_connected st) v
    (s_temp_low_start_time_ms st) (s_task_telemetry st) (s_task_health st)
    (s_task_wifi_watchdog st) (s_task_ac_monitor st) (s_system_initialized st)
    (gpio_18 st) (gpio_19 st) (time_us st) (calls st)
    (gpio_18_mode st) (gpio_19_mode st).

Definition set_s_temp_low_start_time_ms (v : Z) (st : sys) : sys :=
  mk_sys (s_stats st) (s_mqtt_client st) (s_mqtt_connected st)
    (s_wifi_retry_num st) v (s_task_telemetry st) (s_task_health st)
    (s_task_wifi_watchdog st) (s_task_ac_monitor st) (s_system_initialized st)
    (gpio_18 st) (gpio_19 st) (time_us st) (calls st)
    (gpio_18_mode st) (gpio_19_mode st).

Definition set_s_task_telemetry (v : bool) (st : sys) : sys :=
  mk_sys (s_stats st) (s_mqtt_client st) (s_mqtt_connected st)
    (s_wifi_retry_num st) (s_temp_low_start_time_ms st) v (s_task_health st)
    (s_task_wifi_watchdog st) (s_task_ac_monitor st) (s_system_initialized st)
    (gpio_18 st) (gpio_19 st) (time_us st) (calls st)
    (gpio_18_mode st) (gpio_19_mode st).

Definition set_s_task_health (v : bool) (st : sys) : sys :=
  mk_sys (s_stats st) (s_mqtt_client st) (s_mqtt_connected st)
    (s_wifi_retry_num st) (s_temp_low_start_time_ms st) (s_task_telemetry st) v
    (s_task_wifi_watchdog st) (s_task_ac_monitor st) (s_system_initialized st)
    (gpio_18 st) (gpio_19 st) (time_us st) (calls st)
    (gpio_18_mode st) (gpio_19_mode st).

Definition set_s_task_wifi_watchdog (v : bool) (st : sys) : sys :=
  mk_sys (s_stats st) (s_mqtt_client st) (s_mqtt_connected st)
    (s_wifi_retry_num st) (s_temp_low_start_time_ms st) (s_task_telemetry st)
    (s_task_health st) v (s_task_ac_monitor st) (s_system_initialized st)
    (gpio_18 st) (gpio_19 st) (time_us st) (calls st)
    (gpio_18_mode st) (gpio_19_mode st).

Definition set_s_task_ac_monitor (v : bool) (st : sys) : sys :=
  mk_sys (s_stats st) (s_mqtt_client st) (s_mqtt_connected st)
    (s_wifi_retry_num st) (s_temp_low_start_time_ms st) (s_task_telemetry st)
    (s_task_health st) (s_task_wifi_watchdog st) v (s_system_initialized st)
    (gpio_18 st) (gpio_19 st) (time_us st) (calls st)
    (gpio_18_mode st) (gpio_19_mode st).

Definition set_s_system_initialized (v : bool) (st : sys) : sys :=
  mk_sys (s_stats st) (s_mqtt_client st) (s_mqtt_connected st)
    (s_wifi_retry_num st) (s_temp_low_start_time_ms st) (s_task_telemetry st)
    (s_task_health st) (s_task_wifi_watchdog st) (s_task_ac_monitor st) v
    (gpio_18 st) (gpio_19 st) (time_us st) (calls st)
    (gpio_18_mode st) (gpio_19_mode st).

Definition set_gpio_18 (v : Z) (st : sys) : sys :=
  mk_sys (s_stats st) (s_mqtt_client st) (s_mqtt_connected st)
    (s_wifi_retry_num st) (s_temp_low_start_time_ms st) (s_task_telemetry st)
    (s_task_health st) (s_task_wifi_watchdog st) (s_task_ac_monitor st)
    (s_system_initialized st) v (gpio_19 st) (time_us st) (calls st)
    (gpio_18_mode st) (gpio_19_mode st).

Definition set_gpio_19 (v : Z) (st : sys) : sys :=
  mk_sys (s_stats st) (s_mqtt_client st) (s_mqtt_connected st)
    (s_wifi_retry_num st) (s_temp_low_start_time_ms st) (s_task_telemetry st)
    (s_task_health st) (s_task_wifi_watchdog st) (s_task_ac_monitor st)
    (s_system_initialized st) (gpio_18 st) v (time_us st) (calls st)
    (gpio_18_mode st) (gpio_19_mode st).

Definition set_time_us (v : Z) (st : sys) : sys :=
  mk_sys (s_stats st) (s_mqtt_client st) (s_mqtt_connected st)
    (s_wifi_retry_num st) (s_temp_low_start_time_ms st) (s_task_telemetry st)
    (s_task_health st) (s_task_wifi_watchdog st) (s_task_ac_monitor st)
    (s_system_initialized st) (gpio_18 st) (gpio_19 st) v (calls st)
    (gpio_18_mode st) (gpio_19_mode st).

Definition set_calls (v : list call) (st : sys) : sys :=
  mk_sys (s_stats st) (s_mqtt_client st) (s_mqtt_connected st)
    (s_wifi_retry_num st) (s_temp_low_start_time_ms st) (s_task_telemetry st)
    (s_task_health st) (s_task_wifi_watchdog st) (s_task_ac_monitor st)
    (s_system_initialized st) (gpio_18 st) (gpio_19 st) (time_us st) v
    (gpio_18_mode st) (gpio_19_mode st).

Definition set_gpio_18_mode (v : gpio_mode_t) (st : sys) : sys :=
  mk_sys (s_stats st) (s_mqtt_client st) (s_mqtt_connected st)
    (s_wifi_retry_num st) (s_temp_low_start_time_ms st) (s_task_telemetry st)
    (s_task_health st) (s_task_wifi_watchdog st) (s_task_ac_monitor st)
    (s_system_initialized st) (gpio_18 st) (gpio_19 st) (time_us st) (calls st)
    v (gpio_19_mode st).

Definition set_gpio_19_mode (v : gpio_mode_t) (st : sys) : sys :=
  mk_sys (s_stats st) (s_mqtt_client st) (s_mqtt_connected st)
    (s_wifi_retry_num st) (s_temp_low_start_time_ms st) (s_task_telemetry st)
    (s_task_health st) (s_task_wifi_watchdog st) (s_task_ac_monitor st)
    (s_system_initialized st) (gpio_18 st) (gpio_19 st) (time_us st) (calls st)
    (gpio_18_mode st) v.

(** A collaborator is called: the call joins the log. *)
Definition record_call (c : call) (st : sys) : sys :=
  set_calls (calls st ++ [c]) st.

(** ** Collaborators that live in the model *)

(** [esp_timer_get_time()]: microseconds since boot, an int64_t. *)
Definition esp_timer_get_time (st : sys) : Z := time_us st.

(** [esp_timer_get_time() / 1000ULL]: the operand is converted to
    unsigned 64 bits before the division. *)
Definition now_ms (st : sys) : Z := to_uint64 (esp_timer_get_time st) / 1000.

(** [vTaskDelay(pdMS_TO_TICKS(ms))] seen from the clock. *)
Definition vTaskDelay (ms : Z) (st : sys) : sys :=
  set_time_us (time_us st + ms * 1000) st.

(** The GPIO driver.  [gpio_18] and [gpio_19] hold the level last written
    with [gpio_set_level], which is the level the pad is driven at once its
    output is enabled. *)
Definition gpio_set_level (pin : gpio_num_t) (level : Z) (st : sys) : sys :=
  let l := if level =? 0 then 0 else 1 in
  match pin with
  | GPIO_NUM_18 => set_gpio_18 l st
  | GPIO_NUM_19 => set_gpio_19 l st
  end.

(** [gpio_reset_pin] disables the input and the output of the pad. *)
Definition gpio_reset_pin (pin : gpio_num_t) (st : sys) : sys :=
  match pin with
  | GPIO_NUM_18 => set_gpio_18_mode GPIO_MODE_DISABLE st
  | GPIO_NUM_19 => set_gpio_19_mode GPIO_MODE_DISABLE st
  end.

Definition gpio_set_direction (pin : gpio_num_t) (mode : gpio_mode_t)
  (st : sys) : sys :=
  match pin with
  | GPIO_NUM_18 => set_gpio_18_mode mode st
  | GPIO_NUM_19 => set_gpio_19_mode mode st
  end.

(** [gpio_get_level]: the driver returns 0 for a pad that is not configured
    for input (or input and output); a pad whose input and output are both
    enabled reads the level it is driven at. *)
Definition gpio_get_level (pin : gpio_num_t) (st : sys) : Z :=
  let (mode, level) :=
    match pin with
    | GPIO_NUM_18 => (gpio_18_mode st, gpio_18 st)
    | GPIO_NUM_19 => (gpio_19_mode st, gpio_19 st)
    end in
  match mode with
  | GPIO_MODE_INPUT_OUTPUT => level
  | GPIO_MODE_DISABLE | GPIO_MODE_OUTPUT => 0
  end.

Definition esp_wifi_connect (st : sys) : sys :=
  record_call Call_esp_wifi_connect st.

(** ** Constants of mqtt_system.h *)

Definition MQTT_TOPIC_BASE : string := "demo/central".
Definition MQTT_TOPIC_STATUS : string := (MQTT_TOPIC_BASE ++ "/status")%string.
Definition MQTT_TOPIC_COMMANDS : string :=
  (MQTT_TOPIC_BASE ++ "/comandos")%string.
Definition MQTT_TOPIC_BOOT : string := (MQTT_TOPIC_BASE ++ "/boot")%string.
Definition WIFI_MAX_RETRY : Z := 5.

(** ** Statistics *)

(** [s_stats.total_publicadas++] *)
Definition inc_total_publicadas (st : sys) : sys :=
  let s := s_stats st in
  set_s_stats
    (mk_stats (to_uint32 (total_publicadas s + 1)) (total_recebidas s)
       (falhas_publicacao s) (desconexoes s) (tempo_desconectado_ms s)
       (ultima_mensagem_ts s)) st.

(** [s_stats.falhas_publicacao++] *)
Definition inc_falhas_publicacao (st : sys) : sys :=
  let s := s_stats st in
  set_s_stats
    (mk_stats (total_publicadas s) (total_recebidas s)
       (to_uint32 (falhas_publicacao s + 1)) (desconexoes s)
       (tempo_desconectado_ms s) (ultima_mensagem_ts s)) st.

(** [s_stats.desconexoes++] *)
Definition inc_desconexoes (st : sys) : sys :=
  let s := s_stats st in
  set_s_stats
    (mk_stats (total_publicadas s) (total_recebidas s) (falhas_publicacao s)
       (to_uint32 (desconexoes s + 1)) (tempo_desconectado_ms s)
       (ultima_mensagem_ts s)) st.

(** [s_stats.total_recebidas++; s_stats.ultima_mensagem_ts = ts;] with the
    64-bit [ts] stored in the 32-bit field. *)
Definition record_recebida (ts : Z) (st : sys) : sys :=
  let s := s_stats st in
  set_s_stats
    (mk_stats (total_publicadas s) (to_uint32 (total_recebidas s + 1))
       (falhas_publicacao s) (desconexoes s) (tempo_desconectado_ms s)
       (to_uint32 ts)) st.

Definition set_desconexoes (v : Z) (s : mqtt_statistics_t)
  : mqtt_statistics_t :=
  mk_stats (total_publicadas s) (total_recebidas s) (falhas_publicacao s) v
    (tempo_desconectado_ms s) (ultima_mensagem_ts s).

Definition set_tempo_desconectado_ms (v : Z) (s : mqtt_statistics_t)
  : mqtt_statistics_t :=
  mk_stats (total_publicadas s) (total_recebidas s) (falhas_publicacao s)
    (desconexoes s) v (ultima_mensagem_ts s).

Definition mqtt_reset_statistics (st : sys) : sys :=
  let saved_desconexoes := desconexoes (s_stats st) in
  let saved_tempo_desconectado := tempo_desconectado_ms (s_stats st) in
  let st := set_s_stats stats_zero st in
  let st := set_s_stats (set_desconexoes saved_desconexoes (s_stats st)) st in
  set_s_stats
    (set_tempo_desconectado_ms saved_tempo_desconectado (s_stats st)) st.

(** [mqtt_get_statistics]: [None] is the NULL output pointer. *)
Definition mqtt_get_statistics (stats : option mqtt_statistics_t) (st : sys)
  : esp_err_t * option mqtt_statistics_t :=
  match stats with
  | None => (ESP_ERR_INVALID_ARG, None)
  | Some _ => (ESP_OK, Some (s_stats st))
  end.

Definition mqtt_system_is_connected (st : sys) : bool := s_mqtt_connected st.

(** ** Publish and subscribe *)

Section Facade.
Context `{client_lib : mqtt_client_lib}.

Definition mqtt_publish_data (topic data : string) (len qos : Z)
  (retain : bool) (st : sys) : Z * sys :=
  match s_mqtt_client st with
  | None => (-1, inc_falhas_publicacao st)
  | Some client =>
      if negb (s_mqtt_connected st) then (-1, inc_falhas_publicacao st)
      else
        let len := if len =? 0 then strlen data else len in
        let retain := if retain then 1 else 0 in
        let msg_id :=
          esp_mqtt_client_publish (calls st) client topic data len qos retain in
        let st :=
          record_call
            (Call_esp_mqtt_client_publish client topic data len qos retain)
            st in
        if msg_id >=? 0 then (msg_id, inc_total_publicadas st)
        else (msg_id, inc_falhas_publicacao st)
  end.

Definition mqtt_publish_status (online : bool) (st : sys) : Z * sys :=
  let status := if online then "online" else "offline" in
  mqtt_publish_data MQTT_TOPIC_STATUS status 0 1 true st.

Definition mqtt_subscribe_topic (topic : string) (qos : Z) (st : sys)
  : Z * sys :=
  match s_mqtt_client st with
  | None => (-1, st)
  | Some client =>
      if negb (s_mqtt_connected st) then (-1, st)
      else
        let msg_id := esp_mqtt_client_subscribe (calls st) client topic qos in
        (msg_id,
         record_call (Call_esp_mqtt_client_subscribe client topic qos) st)
  end.

Definition mqtt_unsubscribe_topic (topic : string) (st : sys) : Z * sys :=
  match s_mqtt_client st with
  | None => (-1, st)
  | Some client =>
      if negb (s_mqtt_connected st) then (-1, st)
      else
        let msg_id := esp_mqtt_client_unsubscribe (calls st) client topic in
        (msg_id, record_call (Call_esp_mqtt_client_unsubscribe client topic) st)
  end.

(** ** Event handlers *)

Definition wifi_event_handler (ev : wifi_event_t) (st : sys) : sys :=
  match ev with
  | WIFI_EVENT_STA_START => esp_wifi_connect st
  | WIFI_EVENT_STA_DISCONNECTED =>
      if s_wifi_retry_num st <? WIFI_MAX_RETRY then
        let st := esp_wifi_connect st in
        set_s_wifi_retry_num (s_wifi_retry_num st + 1) st
      else st
  | IP_EVENT_STA_GOT_IP => set_s_wifi_retry_num 0 st
  | WIFI_EVENT_OTHER => st
  end.

Definition mqtt_event_handler (event_id : esp_mqtt_event_id_t)
  (event : esp_mqtt_event_t) (st : sys) : sys :=
  match event_id with
  | MQTT_EVENT_CONNECTED =>
      let st := set_s_mqtt_connected true st in
      let st := snd (mqtt_subscribe_topic "casa/externo/luminosidade" 1 st) in
      let st := snd (mqtt_subscribe_topic "casa/sala/temperatura" 1 st) in
      let st := snd (mqtt_subscribe_topic MQTT_TOPIC_COMMANDS 1 st) in
      snd (mqtt_subscribe_topic "demo/config/#" 0 st)
  | MQTT_EVENT_DISCONNECTED =>
      let st := set_s_mqtt_connected false st in
      inc_desconexoes st
  | MQTT_EVENT_DATA =>
      let st := record_recebida (now_ms st) st in
      let topic := c_str (topic event) in
      let data := c_str (data event) in
      let value := atoi data in
      if strcmp_eq0 topic "casa/externo/luminosidade" then
        if value <? 3 then gpio_set_level GPIO_NUM_18 1 st
        else gpio_set_level GPIO_NUM_18 0 st
      else if strcmp_eq0 topic "casa/sala/temperatura" then
        if value >? 23 then
          let st := gpio_set_level GPIO_NUM_19 1 st in
          set_s_temp_low_start_time_ms 0 st
        else if value <? 20 then
          if gpio_get_level GPIO_NUM_19 st =? 1 then
            if s_temp_low_start_time_ms st =? 0 then
              set_s_temp_low_start_time_ms (now_ms st) st
            else st
          else set_s_temp_low_start_time_ms 0 st
        else set_s_temp_low_start_time_ms 0 st
      else st
  | _ => st
  end.

End Facade.

(** ** Periodic tasks: the body of one turn of each loop, entered when the
    task wakes from its [vTaskDelay] *)

Definition TEN_MINUTES_MS : Z := 10 * 60 * 1000.

Definition ac_monitor_task_body (st : sys) : sys :=
  if gpio_get_level GPIO_NUM_19 st =? 1 then
    if s_temp_low_start_time_ms st >? 0 then
      let current_time_ms := now_ms st in
      let elapsed_time_ms :=
        to_uint64 (current_time_ms - s_temp_low_start_time_ms st) in
      if elapsed_time_ms >=? TEN_MINUTES_MS then
        let st := gpio_set_level GPIO_NUM_19 0 st in
        set_s_temp_low_start_time_ms 0 st
      else st
    else st
  else set_s_temp_low_start_time_ms 0 st.

(** [ap_info] is what [esp_wifi_sta_get_ap_info] returns on this turn. *)
Definition wifi_watchdog_task_body (ap_info : esp_err_t) (st : sys) : sys :=
  if negb (is_ESP_OK ap_info) then
    let st := set_s_wifi_retry_num 0 st in
    esp_wifi_connect st
  else st.

(** ** Initialisation *)

(** A call either returns, or stops the firmware in [ESP_ERROR_CHECK]. *)
Inductive outcome (A : Type) :=
| Returned (r : A) (st : sys)
| Aborted (st : sys).
Arguments Returned {A} r st.
Arguments Aborted {A} st.

Definition bind {A B : Type} (m : outcome A) (k : A -> sys -> outcome B)
  : outcome B :=
  match m with
  | Returned r st => k r st
  | Aborted st => Aborted st
  end.

Definition ESP_ERROR_CHECK (e : esp_err_t) (st : sys) : outcome unit :=
  if is_ESP_OK e then Returned tt st else Aborted st.

Notation "'do' x , st <- m ; k" := (bind m (fun x st => k))
  (at level 10, x name, st name, m at level 100, k at level 200).

(** What the collaborators answer during one run of [mqtt_system_init], and
    the events the event loop delivers while it sleeps in its two waits. *)
Record init_env := mk_init_env {
  CONFIG_QEMU_MODE : bool;
  env_nvs_flash_init : esp_err_t;
  env_nvs_flash_erase : esp_err_t;
  env_nvs_flash_init_again : esp_err_t;
  env_esp_netif_init : esp_err_t;
  env_esp_event_loop_create_default : esp_err_t;
  (** the first failure among esp_wifi_init, the two handler registrations,
      set_mode, set_config and esp_wifi_start, all under ESP_ERROR_CHECK *)
  env_wifi_setup : esp_err_t;
  (** [esp_wifi_sta_get_ap_info] on the k-th poll *)
  env_ap_info : nat -> esp_err_t;
  env_wifi_events : nat -> list wifi_event_t;
  env_esp_mqtt_client_init : option handle;
  env_esp_mqtt_client_register_event : esp_err_t;
  env_esp_mqtt_client_start : esp_err_t;
  env_mqtt_events : nat -> list (esp_mqtt_event_id_t * esp_mqtt_event_t);
  (** [xTaskCreate(...) == pdPASS] for the task of that name *)
  env_xTaskCreate : string -> bool;
  (** the buffer [snprintf] fills with the boot report *)
  env_boot_info : string
}.

Section Init.
Context `{client_lib : mqtt_client_lib}.
Variable env : init_env.

Definition init_gpio (st : sys) : esp_err_t * sys :=
  let st := gpio_reset_pin GPIO_NUM_18 st in
  let st := gpio_set_direction GPIO_NUM_18 GPIO_MODE_OUTPUT st in
  let st := gpio_set_level GPIO_NUM_18 0 st in
  let st := gpio_reset_pin GPIO_NUM_19 st in
  let st := gpio_set_direction GPIO_NUM_19 GPIO_MODE_OUTPUT st in
  let st := gpio_set_level GPIO_NUM_19 0 st in
  (ESP_OK, st).

Definition init_nvs (st : sys) : outcome esp_err_t :=
  let st := record_call Call_nvs_flash_init st in
  match env_nvs_flash_init env with
  | ESP_ERR_NVS_NO_FREE_PAGES | ESP_ERR_NVS_NEW_VERSION_FOUND =>
      let st := record_call Call_nvs_flash_erase st in
      do _, st <- ESP_ERROR_CHECK (env_nvs_flash_erase env) st;
      let st := record_call Call_nvs_flash_init st in
      Returned (env_nvs_flash_init_again env) st
  | ret => Returned ret st
  end.

Definition init_wifi (st : sys) : outcome esp_err_t :=
  let st := record_call Call_wifi_setup st in
  do _, st <- ESP_ERROR_CHECK (env_wifi_setup env) st;
  Returned ESP_OK st.

Fixpoint deliver_wifi (evs : list wifi_event_t) (st : sys) : sys :=
  match evs with
  | [] => st
  | ev :: evs => deliver_wifi evs (wifi_event_handler ev st)
  end.

Fixpoint deliver_mqtt (evs : list (esp_mqtt_event_id_t * esp_mqtt_event_t))
  (st : sys) : sys :=
  match evs with
  | [] => st
  | (id, ev) :: evs => deliver_mqtt evs (mqtt_event_handler id ev st)
  end.

(** [while (count < timeout_sec)], with [remaining = timeout_sec - count]. *)
Fixpoint wait_for_wifi_connection_loop (count remaining : nat) (st : sys)
  : esp_err_t * sys :=
  match remaining with
  | O => (ESP_ERR_TIMEOUT, st)
  | S remaining =>
      if is_ESP_OK (env_ap_info env count) then (ESP_OK, st)
      else
        let st := vTaskDelay 1000 st in
        let st := deliver_wifi (env_wifi_events env count) st in
        wait_for_wifi_connection_loop (S count) remaining st
  end.

Definition wait_for_wifi_connection (timeout_sec : nat) (st : sys)
  : esp_err_t * sys :=
  wait_for_wifi_connection_loop 0 timeout_sec st.

Definition init_mqtt (st : sys) : esp_err_t * sys :=
  let st := record_call Call_esp_mqtt_client_init st in
  let st := set_s_mqtt_client (env_esp_mqtt_client_init env) st in
  match s_mqtt_client st with
  | None => (ESP_FAIL, st)
  | Some client =>
      let st := record_call (Call_esp_mqtt_client_register_event client) st in
      let ret := env_esp_mqtt_client_register_event env in
      if negb (is_ESP_OK ret) then
        let st := record_call (Call_esp_mqtt_client_destroy client) st in
        (ret, set_s_mqtt_client None st)
      else
        let st := record_call (Call_esp_mqtt_client_start client) st in
        let ret := env_esp_mqtt_client_start env in
        if negb (is_ESP_OK ret) then
          let st := record_call (Call_esp_mqtt_client_destroy client) st in
          (ret, set_s_mqtt_client None st)
        else (ESP_OK, st)
  end.

(** [while (!s_mqtt_connected && count < timeout_sec)] *)
Fixpoint wait_for_mqtt_connection_loop (count remaining : nat) (st : sys)
  : sys :=
  match remaining with
  | O => st
  | S remaining =>
      if s_mqtt_connected st then st
      else
        let st := vTaskDelay 1000 st in
        let st := deliver_mqtt (env_mqtt_events env count) st in
        wait_for_mqtt_connection_loop (S count) remaining st
  end.

Definition wait_for_mqtt_connection (timeout_sec : nat) (st : sys)
  : esp_err_t * sys :=
  let st := wait_for_mqtt_connection_loop 0 timeout_sec st in
  if s_mqtt_connected st then (ESP_OK, st) else (ESP_ERR_TIMEOUT, st).

Definition create_tasks (st : sys) : esp_err_t * sys :=
  let st := record_call (Call_xTaskCreate "Telemetry") st in
  if negb (env_xTaskCreate env "Telemetry") then (ESP_FAIL, st)
  else
    let st := set_s_task_telemetry true st in
    let st := record_call (Call_xTaskCreate "HealthMon") st in
    if negb (env_xTaskCreate env "HealthMon") then (ESP_FAIL, st)
    else
      let st := set_s_task_health true st in
      let st := record_call (Call_xTaskCreate "ACMonitor") st in
      if negb (env_xTaskCreate env "ACMonitor") then (ESP_FAIL, st)
      else
        let st := set_s_task_ac_monitor true st in
        if CONFIG_QEMU_MODE env then (ESP_OK, st)
        else
          let st := record_call (Call_xTaskCreate "WiFiWatchdog") st in
          if negb (env_xTaskCreate env "WiFiWatchdog") then (ESP_FAIL, st)
          else (ESP_OK, set_s_task_wifi_watchdog true st).

(** Phase 2, compiled out under CONFIG_QEMU_MODE. *)
Definition init_phase_wifi (st : sys) : outcome esp_err_t :=
  if CONFIG_QEMU_MODE env then Returned ESP_OK st
  else
    do ret, st <- init_wifi st;
    if negb (is_ESP_OK ret) then Returned ret st
    else
      let (ret, st) := wait_for_wifi_connection 30 st in
      Returned ret st.

(** Phase 3, compiled out under CONFIG_QEMU_MODE; a time-out of the wait is
    only logged. *)
Definition init_phase_mqtt (st : sys) : esp_err_t * sys :=
  if CONFIG_QEMU_MODE env then (ESP_OK, st)
  else
    let (ret, st) := init_mqtt st in
    if negb (is_ESP_OK ret) then (ret, st)
    else
      let (_, st) := wait_for_mqtt_connection 20 st in
      (ESP_OK, st).

Definition mqtt_system_init (st : sys) : outcome esp_err_t :=
  if s_system_initialized st then Returned ESP_OK st
  else
    let (ret, st) := init_gpio st in
    if negb (is_ESP_OK ret) then Returned ret st
    else
      do ret, st <- init_nvs st;
      if negb (is_ESP_OK ret) then Returned ret st
      else
        let st := record_call Call_esp_netif_init st in
        do _, st <- ESP_ERROR_CHECK (env_esp_netif_init env) st;
        let st := record_call Call_esp_event_loop_create_default st in
        do _, st <- ESP_ERROR_CHECK (env_esp_event_loop_create_default env) st;
        let st := set_s_stats stats_zero st in
        do ret, st <- init_phase_wifi st;
        if negb (is_ESP_OK ret) then Returned ret st
        else
          let (ret, st) := init_phase_mqtt st in
          if negb (is_ESP_OK ret) then Returned ret st
          else
            let (ret, st) := create_tasks st in
            if negb (is_ESP_OK ret) then Returned ret st
            else
              let st :=
                if s_mqtt_connected st then
                  let st := snd (mqtt_publish_status true st) in
                  snd (mqtt_publish_data MQTT_TOPIC_BOOT (env_boot_info env)
                         0 1 false st)
                else st in
              Returned ESP_OK (set_s_system_initialized true st).

End Init.

(** ** Shutdown *)

Definition mqtt_system_shutdown `{client_lib : mqtt_client_lib} (st : sys)
  : esp_err_t * sys :=
  if negb (s_system_initialized st) then (ESP_ERR_INVALID_STATE, st)
  else
    let st :=
      if s_mqtt_connected st then
        let st := snd (mqtt_publish_status false st) in
        vTaskDelay 100 st
      else st in
    let st :=
      if s_task_telemetry st then
        let st := record_call (Call_vTaskDelete "Telemetry") st in
        set_s_task_telemetry false st
      else st in
    let st :=
      if s_task_health st then
        let st := record_call (Call_vTaskDelete "HealthMon") st in
        set_s_task_health false st
      else st in
    let st :=
      if s_task_wifi_watchdog st then
        let st := record_call (Call_vTaskDelete "WiFiWatchdog") st in
        set_s_task_wifi_watchdog false st
      else st in
    let st :=
      if s_task_ac_monitor st then
        let st := record_call (Call_vTaskDelete "ACMonitor") st in
        set_s_task_ac_monitor false st
      else st in
    let st :=
      match s_mqtt_client st with
      | Some client =>
          let st := record_call (Call_esp_mqtt_client_stop client) st in
          let st := record_call (Call_esp_mqtt_client_destroy client) st in
          set_s_mqtt_client None st
      | None => st
      end in
    let st := set_s_system_initialized false st in
    let st := set_s_mqtt_connected false st in
    (ESP_OK, st).

(** ** The system as a whole: one step per event *)

(** Time passing on the [esp_timer] clock. *)
Definition elapse (us : Z) (st : sys) : sys :=
  set_time_us (time_us st + us) st.

Inductive sys_event :=
| Ev_elapse (us : N)
| Ev_mqtt (event_id : esp_mqtt_event_id_t) (event : esp_mqtt_event_t)
| Ev_wifi (ev : wifi_event_t)
| Ev_ac_monitor
| Ev_wifi_watchdog (ap_info : esp_err_t)
| Ev_publish_data (tp payload : string) (len qos : Z) (retain : bool)
| Ev_subscribe_topic (tp : string) (qos : Z)
| Ev_unsubscribe_topic (tp : string)
| Ev_reset_statistics.

Definition sys_step `{client_lib : mqtt_client_lib} (ev : sys_event)
  (st : sys) : sys :=
  match ev with
  | Ev_elapse us => elapse (Z.of_N us) st
  | Ev_mqtt event_id event => mqtt_event_handler event_id event st
  | Ev_wifi ev => wifi_event_handler ev st
  | Ev_ac_monitor => ac_monitor_task_body st
  | Ev_wifi_watchdog ap_info => wifi_watchdog_task_body ap_info st
  | Ev_publish_data tp payload len qos retain =>
      snd (mqtt_publish_data tp payload len qos retain st)
  | Ev_subscribe_topic tp qos => snd (mqtt_subscribe_topic tp qos st)
  | Ev_unsubscribe_topic tp => snd (mqtt_unsubscribe_topic tp st)
  | Ev_reset_statistics => mqtt_reset_statistics st
  end.

Definition run `{client_lib : mqtt_client_lib} (evs : list sys_event)
  (st : sys) : sys :=
  fold_left (fun st ev => sys_step ev st) evs st.

(** The arguments of one [mqtt_publish_data] call. *)
Record publish_args := mk_publish_args {
  pa_topic : string;
  pa_data : string;
  pa_len : Z;
  pa_qos : Z;
  pa_retain : bool
}.

Definition publish_all `{client_lib : mqtt_client_lib}
  (reqs : list publish_args) (st : sys) : sys :=
  fold_left
    (fun st a =>
       snd (mqtt_publish_data (pa_topic a) (pa_data a) (pa_len a) (pa_qos a)
              (pa_retain a) st))
    reqs st.

(** The topics and QoS of the subscriptions in a call log. *)
Fixpoint subscriptions_in (l : list call) : list (string * Z) :=
  match l with
  | [] => []
  | Call_esp_mqtt_client_subscribe _ tp qos :: l =>
      (tp, qos) :: subscriptions_in l
  | _ :: l => subscriptions_in l
  end.

(** The number of [esp_wifi_connect] calls in a call log. *)
Fixpoint connects_in (l : list call) : nat :=
  match l with
  | [] => O
  | Call_esp_wifi_connect :: l => S (connects_in l)
  | _ :: l => connects_in l
  end.

(** [n] link-lost events in a row. *)
Fixpoint link_lost (n : nat) (st : sys) : sys :=
  match n with
  | O => st
  | S n => link_lost n (wifi_event_handler WIFI_EVENT_STA_DISCONNECTED st)
  end.

(** ** A simulated run of the temperature rule

    Simulated time advances second by second.  In second [s] (counted from
    the start of the run, 1, 2, ...) the clock moves on by one second, the
    payload [readings s], when there is one, arrives on the temperature
    topic, and the delayed-shutoff checker takes a turn when one is due:
    its first turn is in second [first_tick], the next ones follow every
    10 s. *)

Definition tick_due (first_tick s : nat) : bool :=
  (Nat.leb first_tick s && Nat.eqb ((s - first_tick) mod 10) 0)%bool.

Definition temperatura_event (payload : string) : esp_mqtt_event_t :=
  mk_event "casa/sala/temperatura" payload.

Definition luminosidade_event (payload : string) : esp_mqtt_event_t :=
  mk_event "casa/externo/luminosidade" payload.

Definition ac_second `{client_lib : mqtt_client_lib}
  (readings : nat -> option string) (first_tick s : nat) (st : sys) : sys :=
  let st := elapse 1000000 st in
  let st :=
    match readings s with
    | Some payload =>
        mqtt_event_handler MQTT_EVENT_DATA (temperatura_event payload) st
    | None => st
    end in
  if tick_due first_tick s then ac_monitor_task_body st else st.

Fixpoint ac_run `{client_lib : mqtt_client_lib}
  (readings : nat -> option string) (first_tick T : nat) (st : sys) : sys :=
  match T with
  | O => st
  | S T' => ac_second readings first_tick T (ac_run readings first_tick T' st)
  end.

(** The reading that opens a run. *)
Definition first_reading `{client_lib : mqtt_client_lib} (payload : string)
  (st : sys) : sys :=
  mqtt_event_handler MQTT_EVENT_DATA (temperatura_event payload) st.

(** Every payload of the run reads below 20. *)
Definition all_low (readings : nat -> option string) : Prop :=
  forall s payload, readings s = Some payload -> atoi payload < 20.

(** The actuator-rule invariant: an armed timer means the output is on, as
    the code tests it. *)
Definition ac_invariant (st : sys) : Prop :=
  s_temp_low_start_time_ms st <> 0 -> gpio_get_level GPIO_NUM_19 st = 1.

(** ** Collaborators used in the examples *)

(** A broker that accepts everything: the message id is the number of calls
    made so far. *)
Definition accepting_client : mqtt_client_lib :=
  {| esp_mqtt_client_publish :=
       fun log _ _ _ _ _ _ => Z.of_nat (List.length log);
     esp_mqtt_client_subscribe := fun log _ _ _ => Z.of_nat (List.length log);
     esp_mqtt_client_unsubscribe :=
       fun log _ _ => Z.of_nat (List.length log) |}.

(** A session that is up: client handle 1, connected. *)
Definition session_up_state : sys :=
  set_s_mqtt_connected true (set_s_mqtt_client (Some 1) boot_state).

(** An initialisation in which every collaborator succeeds and the broker
    session comes up during the first second of the wait. *)
Definition happy_env : init_env :=
  {| CONFIG_QEMU_MODE := false;
     env_nvs_flash_init := ESP_OK;
     env_nvs_flash_erase := ESP_OK;
     env_nvs_flash_init_again := ESP_OK;
     env_esp_netif_init := ESP_OK;
     env_esp_event_loop_create_default := ESP_OK;
     env_wifi_setup := ESP_OK;
     env_ap_info := fun k => if Nat.leb 2 k then ESP_OK else ESP_FAIL;
     env_wifi_events :=
       fun k =>
         match k with
         | O => [WIFI_EVENT_STA_START]
         | _ => [IP_EVENT_STA_GOT_IP]
         end;
     env_esp_mqtt_client_init := Some 1;
     env_esp_mqtt_client_register_event := ESP_OK;
     env_esp_mqtt_client_start := ESP_OK;
     env_mqtt_events :=
       fun k =>
         match k with
         | O => [(MQTT_EVENT_BEFORE_CONNECT, mk_event "" "");
                 (MQTT_EVENT_CONNECTED, mk_event "" "")]
         | _ => []
         end;
     env_xTaskCreate := fun _ => true;
     env_boot_info := "{}" |}.

(** The [mqtt_publish_status(true)] request. *)
Definition status_online : publish_args :=
  mk_publish_args MQTT_TOPIC_STATUS "online" 0 1 true.

(** The client has been created and started, the broker has not answered
    yet. *)
Definition client_started_state : sys :=
  set_s_mqtt_client (Some 1) boot_state.

(** An event of the system other than a session-established event and other
    than a direct call of the subscribe operation. *)
Definition not_a_subscription_trigger (ev : sys_event) : Prop :=
  match ev with
  | Ev_mqtt MQTT_EVENT_CONNECTED _ => False
  | Ev_subscribe_topic _ _ => False
  | _ => True
  end.

(** An initialisation in which the first collaborator already fails. *)
Definition broken_env : init_env :=
  {| CONFIG_QEMU_MODE := false;
     env_nvs_flash_init := ESP_FAIL;
     env_nvs_flash_erase := ESP_FAIL;
     env_nvs_flash_init_again := ESP_FAIL;
     env_esp_netif_init := ESP_FAIL;
     env_esp_event_loop_create_default := ESP_FAIL;
     env_wifi_setup := ESP_FAIL;
     env_ap_info := fun _ => ESP_FAIL;
     env_wifi_events := fun _ => [];
     env_esp_mqtt_client_init := None;
     env_esp_mqtt_client_register_event := ESP_FAIL;
     env_esp_mqtt_client_start := ESP_FAIL;
     env_mqtt_events := fun _ => [];
     env_xTaskCreate := fun _ => false;
     env_boot_info := "" |}.

(** The globals a call leaves behind. *)
Definition state_of {A : Type} (r : outcome A) : sys :=
  match r with
  | Returned _ st => st
  | Aborted st => st
  end.

(** The globals after the initialisation of [happy_env] from boot. *)
Definition initialized_state : sys :=
  state_of (@mqtt_system_init accepting_client happy_env boot_state).

(** A sensor that reports 19 in every second. *)
Definition steady_19 : nat -> option string := fun _ => Some "19".

(** The system initialised by [happy_env], then the air conditioner
    switched on by a reading of 25. *)
Definition ac_on_state : sys :=
  @first_reading accepting_client "25" initialized_state.

(** The air conditioner on and a start timestamp of 5000 ms in the timer. *)
Definition ac_armed_state : sys :=
  set_s_temp_low_start_time_ms 5000 ac_on_state.

(** The session is down, or there is no client handle. *)
Definition session_down (st : sys) : Prop :=
  s_mqtt_client st = None \/ s_mqtt_connected st = false.

(** ** Formatted payloads *)

Definition to_int32 (x : Z) : Z :=
  let u := to_uint32 x in
  if u <? 2147483648 then u else u - 4294967296.

Definition digit_char (d : Z) : ascii := ascii_of_nat (48 + Z.to_nat d).

(** The decimal digits of [n >= 0], most significant first: the last digit
    and up to [more] digits before it. *)
Fixpoint utoa (more : nat) (n : Z) : string :=
  match more with
  | O => String (digit_char (n mod 10)) EmptyString
  | S more =>
      if n <? 10 then String (digit_char n) EmptyString
      else (utoa more (n / 10)
            ++ String (digit_char (n mod 10)) EmptyString)%string
  end.

(** [%lu] and [%llu] of printf: an unsigned value of at most 64 bits has at
    most 20 digits. *)
Definition format_u (n : Z) : string := utoa 19 n.

(** [%d] of printf. *)
Definition format_d (v : Z) : string :=
  if v <? 0 then String "-" (utoa 19 (- v)) else utoa 19 v.

(** What [snprintf(buf, size, ...)] leaves in [buf] when the formatted text
    is [s]: its first [size - 1] bytes. *)
Definition snprintf (size : nat) (s : string) : string :=
  substring 0 (size - 1) s.

Definition QUOTE : string := String "034" EmptyString.

(** ["key":] inside a JSON format string. *)
Definition json_key (k : string) : string :=
  (QUOTE ++ k ++ QUOTE ++ ":")%string.

Definition MQTT_TOPIC_HEALTH : string := (MQTT_TOPIC_BASE ++ "/health")%string.
Definition CUSTOM_PUBLISH_TOPIC : string := "demo/central/custom".

(** ** Health report *)

Record health_status_t := mk_health {
  free_heap : Z;
  min_free_heap : Z;
  wifi_rssi : Z;
  uptime_sec : Z;
  mqtt_connected : bool
}.

(** What the system answers to one health query; [env_wifi_rssi] is what
    [health->wifi_rssi] holds once [esp_wifi_sta_get_rssi] has returned. *)
Record health_env := mk_health_env {
  henv_qemu : bool;
  env_free_heap_size : Z;
  env_minimum_free_heap_size : Z;
  env_wifi_rssi : Z
}.

(** [mqtt_get_health_status]: [None] is the NULL output pointer. *)
Definition mqtt_get_health_status (henv : health_env)
  (health : option health_status_t) (st : sys)
  : esp_err_t * option health_status_t :=
  match health with
  | None => (ESP_ERR_INVALID_ARG, None)
  | Some _ =>
      (ESP_OK,
       Some
         (mk_health (to_uint32 (env_free_heap_size henv))
            (to_uint32 (env_minimum_free_heap_size henv))
            (if henv_qemu henv then -127 else to_int32 (env_wifi_rssi henv))
            (to_uint64 (esp_timer_get_time st) / 1000000)
            (s_mqtt_connected st)))
  end.

(** The format string of [mqtt_publish_health_check], filled in. *)
Definition health_json (health : health_status_t) (s : mqtt_statistics_t)
  : string :=
  ("{"
   ++ json_key "free_heap" ++ format_u (free_heap health) ++ ","
   ++ json_key "min_free_heap" ++ format_u (min_free_heap health) ++ ","
   ++ json_key "wifi_rssi" ++ format_d (wifi_rssi health) ++ ","
   ++ json_key "uptime_sec" ++ format_u (uptime_sec health) ++ ","
   ++ json_key "mqtt_connected"
   ++ format_d (if mqtt_connected health then 1 else 0) ++ ","
   ++ json_key "msgs_sent" ++ format_u (total_publicadas s) ++ ","
   ++ json_key "msgs_received" ++ format_u (total_recebidas s) ++ ","
   ++ json_key "mqtt_failures" ++ format_u (falhas_publicacao s) ++ ","
   ++ json_key "disconnects" ++ format_u (desconexoes s)
   ++ "}")%string.

(** The local [health_status_t health] before it is filled in. *)
Definition health_local : health_status_t := mk_health 0 0 0 0 false.

Definition mqtt_publish_health_check `{client_lib : mqtt_client_lib}
  (henv : health_env) (st : sys) : Z * sys :=
  match mqtt_get_health_status henv (Some health_local) st with
  | (ESP_OK, Some health) =>
      let buffer := snprintf 512 (health_json health (s_stats st)) in
      mqtt_publish_data MQTT_TOPIC_HEALTH buffer 0 0 false st
  | _ => (-1, st)
  end.

(** One turn of [health_monitoring_task] after its delay; the second health
    query of the turn only feeds the log. *)
Definition health_monitoring_task_body `{client_lib : mqtt_client_lib}
  (henv : health_env) (st : sys) : sys :=
  if s_mqtt_connected st then snd (mqtt_publish_health_check henv st)
  else st.

(** ** custom_publish_task.c *)

(** The format string of the custom message, filled in. *)
Definition custom_json (publish_count : Z) : string :=
  ("{" ++ json_key "publish_count" ++ format_u publish_count ++ ","
   ++ json_key "status" ++ QUOTE ++ "operational" ++ QUOTE ++ "}")%string.

(** [int luminosidade = esp_random() % 11;] *)
Definition random_luminosidade (r : Z) : Z := to_int32 (to_uint32 r mod 11).

(** [int temperatura = (esp_random() % 49) - 3;], computed in unsigned
    32 bits and converted to int. *)
Definition random_temperatura (r : Z) : Z :=
  to_int32 (to_uint32 (to_uint32 r mod 49 - 3)).

(** One turn of [custom_publish_task] after its delay: [publish_count] is
    the local counter of the task, [r_lum] and [r_temp] are what the two
    calls of [esp_random] return. *)
Definition custom_publish_task_body `{client_lib : mqtt_client_lib}
  (r_lum r_temp : Z) (publish_count : Z) (st : sys) : Z * sys :=
  if mqtt_system_is_connected st then
    let publish_count := to_uint32 (publish_count + 1) in
    let luminosidade := random_luminosidade r_lum in
    let lum_str := snprintf 4 (format_d luminosidade) in
    let st :=
      snd (mqtt_publish_data "casa/externo/luminosidade" lum_str 0 1 false
             st) in
    let temperatura := random_temperatura r_temp in
    let temp_str := snprintf 4 (format_d temperatura) in
    let st :=
      snd (mqtt_publish_data "casa/sala/temperatura" temp_str 0 1 false st) in
    let custom_msg := snprintf 128 (custom_json publish_count) in
    let st :=
      snd (mqtt_publish_data CUSTOM_PUBLISH_TOPIC custom_msg 0 0 false st) in
    (publish_count, st)
  else (publish_count, st).

(** ** Observations used in the statements *)

(** The topics and payloads of the publishes in a call log. *)
Fixpoint publishes_in (l : list call) : list (string * string) :=
  match l with
  | [] => []
  | Call_esp_mqtt_client_publish _ tp payload _ _ _ :: l =>
      (tp, payload) :: publishes_in l
  | _ :: l => publishes_in l
  end.

(** The number of data events and of session-lost events in a delivery. *)
Fixpoint count_data (evs : list (esp_mqtt_event_id_t * esp_mqtt_event_t))
  : nat :=
  match evs with
  | [] => O
  | (MQTT_EVENT_DATA, _) :: evs => S (count_data evs)
  | _ :: evs => count_data evs
  end.

Fixpoint count_disconnected
  (evs : list (esp_mqtt_event_id_t * esp_mqtt_event_t)) : nat :=
  match evs with
  | [] => O
  | (MQTT_EVENT_DISCONNECTED, _) :: evs => S (count_disconnected evs)
  | _ :: evs => count_disconnected evs
  end.

(** The retry counter is within its bound. *)
Definition retry_in_range (st : sys) : Prop :=
  0 <= s_wifi_retry_num st <= WIFI_MAX_RETRY.

(** A health query on a device with 150000 bytes free and -61 dBm. *)
Definition sample_health_env : health_env :=
  mk_health_env false 150000 120000 (-61).

(** [b] has the initialised flag of [a] and has published what [a] has. *)
Definition same_flag_and_publishes (a b : sys) : Prop :=
  s_system_initialized b = s_system_initialized a
  /\ publishes_in (calls b) = publishes_in (calls a).

(** Both pins are configured in [b] as they are in [a]. *)
Definition same_modes (a b : sys) : Prop :=
  gpio_18_mode b = gpio_18_mode a /\ gpio_19_mode b = gpio_19_mode a.

(** The calls [init_nvs] makes when the first [nvs_flash_init] returns
    [e] and the erase succeeds. *)
Definition nvs_calls (e : esp_err_t) : list call :=
  match e with
  | ESP_ERR_NVS_NO_FREE_PAGES | ESP_ERR_NVS_NEW_VERSION_FOUND =>
      [Call_nvs_flash_init; Call_nvs_flash_erase; Call_nvs_flash_init]
  | _ => [Call_nvs_flash_init]
  end.

(** The error codes on which [init_nvs] erases the partition. *)
Definition asks_for_erase (e : esp_err_t) : Prop :=
  e = ESP_ERR_NVS_NO_FREE_PAGES \/ e = ESP_ERR_NVS_NEW_VERSION_FOUND.

(** The initialisation of [happy_env] built with CONFIG_QEMU_MODE. *)
Definition qemu_env : init_env :=
  {| CONFIG_QEMU_MODE := true;
     env_nvs_flash_init := ESP_ERR_NVS_NO_FREE_PAGES;
     env_nvs_flash_erase := ESP_OK;
     env_nvs_flash_init_again := ESP_OK;
     env_esp_netif_init := ESP_OK;
     env_esp_event_loop_create_default := ESP_OK;
     env_wifi_setup := ESP_FAIL;
     env_ap_info := fun _ => ESP_FAIL;
     env_wifi_events := fun _ => [];
     env_esp_mqtt_client_init := None;
     env_esp_mqtt_client_register_event := ESP_FAIL;
     env_esp_mqtt_client_start := ESP_FAIL;
     env_mqtt_events := fun _ => [];
     env_xTaskCreate := fun _ => true;
     env_boot_info := "{}" |}.

(** An initialisation in which the MQTT client is created and registered
    but does not start. *)
Definition start_fails_env : init_env :=
  {| CONFIG_QEMU_MODE := false;
     env_nvs_flash_init := ESP_OK;
     env_nvs_flash_erase := ESP_OK;
     env_nvs_flash_init_again := ESP_OK;
     env_esp_netif_init := ESP_OK;
     env_esp_event_loop_create_default := ESP_OK;
     env_wifi_setup := ESP_OK;
     env_ap_info := fun _ => ESP_OK;
     env_wifi_events := fun _ => [];
     env_esp_mqtt_client_init := Some 7;
     env_esp_mqtt_client_register_event := ESP_OK;
     env_esp_mqtt_client_start := ESP_FAIL;
     env_mqtt_events := fun _ => [];
     env_xTaskCreate := fun _ => true;
     env_boot_info := "{}" |}.

(** Three messages and a session loss, as the broker may deliver them. *)
Definition sample_delivery : list (esp_mqtt_event_id_t * esp_mqtt_event_t) :=
  [(MQTT_EVENT_DATA, temperatura_event "25");
   (MQTT_EVENT_DATA, mk_event "demo/central/comandos" "reboot");
   (MQTT_EVENT_DISCONNECTED, mk_event "" "");
   (MQTT_EVENT_DATA, luminosidade_event "2")].

(** * Properties *)

(** ** Machine integers and strings *)

Lemma to_uint32_idemp_l (a b : Z) :
  to_uint32 (to_uint32 a + b) = to_uint32 (a + b).
Proof. unfold to_uint32. apply Zplus_mod_idemp_l. Qed.

Lemma to_uint32_small (a : Z) : 0 <= a < 4294967296 -> to_uint32 a = a.
Proof. intros H. unfold to_uint32. apply Z.mod_small. exact H. Qed.

Lemma to_uint64_small (a : Z) :
  0 <= a < 18446744073709551616 -> to_uint64 a = a.
Proof. intros H. unfold to_uint64. apply Z.mod_small. exact H. Qed.

Lemma c_str_idem (s : string) : c_str (c_str s) = c_str s.
Proof.
  induction s as [|c r IH]; simpl; [reflexivity|].
  destruct (Ascii.eqb c zero) eqn:E; simpl; [reflexivity|].
  rewrite E, IH. reflexivity.
Qed.

Lemma atoi_c_str (s : string) : atoi (c_str s) = atoi s.
Proof. unfold atoi. rewrite c_str_idem. reflexivity. Qed.

Lemma strcmp_eq0_c_str (a b : string) :
  strcmp_eq0 (c_str a) b = strcmp_eq0 a b.
Proof. unfold strcmp_eq0. rewrite c_str_idem. reflexivity. Qed.

(** ** Statistics *)

(** C9: the statistics reset leaves [desconexoes] and
    [tempo_desconectado_ms] as they were before the call and sets the four
    other fields of the record (published, received, publish failures,
    last-message timestamp) to 0; nothing outside the record changes. *)
Theorem mqtt_reset_statistics_frame (st : sys) :
  desconexoes (s_stats (mqtt_reset_statistics st)) = desconexoes (s_stats st)
  /\ tempo_desconectado_ms (s_stats (mqtt_reset_statistics st))
     = tempo_desconectado_ms (s_stats st)
  /\ total_publicadas (s_stats (mqtt_reset_statistics st)) = 0
  /\ total_recebidas (s_stats (mqtt_reset_statistics st)) = 0
  /\ falhas_publicacao (s_stats (mqtt_reset_statistics st)) = 0
  /\ ultima_mensagem_ts (s_stats (mqtt_reset_statistics st)) = 0
  /\ mqtt_reset_statistics st
     = set_s_stats (s_stats (mqtt_reset_statistics st)) st.
Proof. destruct st as [s ? ? ? ? ? ? ? ? ? ? ? ? ? ? ?]. cbn. repeat split. Qed.

(** ** Publish and subscribe while the session is down *)

Section FacadeFacts.
Context `{client_lib : mqtt_client_lib}.

Lemma publish_refused (topic data : string) (len qos : Z) (retain : bool)
  (st : sys) :
  session_down st ->
  mqtt_publish_data topic data len qos retain st
  = (-1, inc_falhas_publicacao st).
Proof.
  intros [H | H]; unfold mqtt_publish_data; rewrite H; [reflexivity|].
  destruct (s_mqtt_client st); reflexivity.
Qed.

Lemma subscribe_refused (topic : string) (qos : Z) (st : sys) :
  session_down st -> mqtt_subscribe_topic topic qos st = (-1, st).
Proof.
  intros [H | H]; unfold mqtt_subscribe_topic; rewrite H; [reflexivity|].
  destruct (s_mqtt_client st); reflexivity.
Qed.

(** One publish attempt moves exactly one of the two counters. *)
Lemma publish_one_counter (topic data : string) (len qos : Z) (retain : bool)
  (st : sys) :
  let r := mqtt_publish_data topic data len qos retain st in
  (0 <= fst r
   /\ total_publicadas (s_stats (snd r))
      = to_uint32 (total_publicadas (s_stats st) + 1)
   /\ falhas_publicacao (s_stats (snd r)) = falhas_publicacao (s_stats st))
  \/ (fst r < 0
      /\ total_publicadas (s_stats (snd r)) = total_publicadas (s_stats st)
      /\ falhas_publicacao (s_stats (snd r))
         = to_uint32 (falhas_publicacao (s_stats st) + 1)).
Proof.
  unfold mqtt_publish_data.
  destruct (s_mqtt_client st) as [client|]; [|right; cbn; lia].
  destruct (s_mqtt_connected st); cbn [negb]; [|right; cbn; lia].
  match goal with
  | |- context [esp_mqtt_client_publish ?a ?b ?c ?d ?e ?f ?g >=? 0] =>
      destruct (Z.geb_spec (esp_mqtt_client_publish a b c d e f g) 0)
  end; [left | right]; cbn; repeat split; lia.
Qed.

(** C1, as the code has it: a publish or a subscribe invoked while the
    session is down ([s_mqtt_connected] false) or the client handle is
    absent returns -1 and makes no call to the messaging client, for every
    topic, payload, length, QoS and retain flag.  The refused publish
    increments [falhas_publicacao] (a 32-bit counter) and changes nothing
    else; the refused subscribe changes nothing at all, the counter
    included. *)
Theorem session_not_ready (topic data : string) (len qos : Z) (retain : bool)
  (st : sys) :
  session_down st ->
  (fst (mqtt_publish_data topic data len qos retain st) = -1
   /\ calls (snd (mqtt_publish_data topic data len qos retain st)) = calls st
   /\ falhas_publicacao
        (s_stats (snd (mqtt_publish_data topic data len qos retain st)))
      = to_uint32 (falhas_publicacao (s_stats st) + 1)
   /\ snd (mqtt_publish_data topic data len qos retain st)
      = inc_falhas_publicacao st)
  /\ mqtt_subscribe_topic topic qos st = (-1, st).
Proof.
  intros H. rewrite (publish_refused _ _ _ _ _ _ H).
  rewrite (subscribe_refused _ _ _ H).
  destruct st; cbn. repeat split.
Qed.

Lemma publish_all_cons (a : publish_args) (reqs : list publish_args)
  (st : sys) :
  publish_all (a :: reqs) st
  = publish_all reqs
      (snd (mqtt_publish_data (pa_topic a) (pa_data a) (pa_len a) (pa_qos a)
              (pa_retain a) st)).
Proof. reflexivity. Qed.

(** The sum of the two counters follows the number of attempts, in 32-bit
    arithmetic. *)
Lemma publish_all_sum (reqs : list publish_args) (st : sys) :
  to_uint32
    (total_publicadas (s_stats (publish_all reqs st))
     + falhas_publicacao (s_stats (publish_all reqs st)))
  = to_uint32
      (total_publicadas (s_stats st) + falhas_publicacao (s_stats st)
       + Z.of_nat (List.length reqs)).
Proof.
  revert st. induction reqs as [|a reqs IH]; intros st.
  - cbn [publish_all fold_left List.length Z.of_nat]. f_equal. lia.
  - rewrite publish_all_cons, IH.
    destruct (publish_one_counter (pa_topic a) (pa_data a) (pa_len a)
                (pa_qos a) (pa_retain a) st) as [(_ & Hp & Hf) | (_ & Hp & Hf)];
      rewrite Hp, Hf; cbn [List.length]; rewrite Nat2Z.inj_succ.
    + rewrite <- Z.add_assoc, to_uint32_idemp_l. f_equal. lia.
    + rewrite (Z.add_comm (total_publicadas (s_stats st))), <- Z.add_assoc,
        to_uint32_idemp_l.
      f_equal. lia.
Qed.

(** Each counter holds, modulo 2^32, its start value plus the number of
    attempts that went its way. *)
Lemma publish_all_split (reqs : list publish_args) (st : sys) :
  0 <= total_publicadas (s_stats st) < 4294967296 ->
  0 <= falhas_publicacao (s_stats st) < 4294967296 ->
  exists ok ko : Z,
    0 <= ok /\ 0 <= ko /\ ok + ko = Z.of_nat (List.length reqs)
    /\ total_publicadas (s_stats (publish_all reqs st))
       = to_uint32 (total_publicadas (s_stats st) + ok)
    /\ falhas_publicacao (s_stats (publish_all reqs st))
       = to_uint32 (falhas_publicacao (s_stats st) + ko).
Proof.
  revert st. induction reqs as [|a reqs IH]; intros st Hp0 Hf0.
  - exists 0, 0. cbn [publish_all fold_left List.length Z.of_nat].
    rewrite !Z.add_0_r, !to_uint32_small by assumption. lia.
  - rewrite publish_all_cons.
    set (st1 := snd (mqtt_publish_data (pa_topic a) (pa_data a) (pa_len a)
                       (pa_qos a) (pa_retain a) st)).
    assert (Hrange : forall x, 0 <= to_uint32 x < 4294967296)
      by (intros x; unfold to_uint32; apply Z.mod_pos_bound; lia).
    destruct (publish_one_counter (pa_topic a) (pa_data a) (pa_len a)
                (pa_qos a) (pa_retain a) st) as [(_ & Hp & Hf) | (_ & Hp & Hf)];
      fold st1 in Hp, Hf.
    + destruct (IH st1) as (ok & ko & Hok & Hko & Hsum & Hp' & Hf').
      { rewrite Hp. apply Hrange. }
      { rewrite Hf. exact Hf0. }
      exists (ok + 1), ko. cbn [List.length]. rewrite Nat2Z.inj_succ.
      rewrite Hp', Hf', Hp, Hf, to_uint32_idemp_l.
      repeat split; try lia. f_equal. lia.
    + destruct (IH st1) as (ok & ko & Hok & Hko & Hsum & Hp' & Hf').
      { rewrite Hp. exact Hp0. }
      { rewrite Hf. apply Hrange. }
      exists ok, (ko + 1). cbn [List.length]. rewrite Nat2Z.inj_succ.
      rewrite Hp', Hf', Hp, Hf, to_uint32_idemp_l.
      repeat split; try lia. f_equal. lia.
Qed.

(** C8, as the code has it: every [mqtt_publish_data] call increments
    exactly one of the two 32-bit counters, [total_publicadas] when the
    client returned a message id >= 0 and [falhas_publicacao] otherwise; so
    after n attempts the sum of the two counters has grown by n modulo 2^32,
    and starting from zeroed counters it equals n whenever n < 2^32. *)
Theorem publish_attempts_counted (reqs : list publish_args) (st : sys) :
  (forall a : publish_args,
     let r := mqtt_publish_data (pa_topic a) (pa_data a) (pa_len a) (pa_qos a)
                (pa_retain a) st in
     (0 <= fst r
      /\ total_publicadas (s_stats (snd r))
         = to_uint32 (total_publicadas (s_stats st) + 1)
      /\ falhas_publicacao (s_stats (snd r)) = falhas_publicacao (s_stats st))
     \/ (fst r < 0
         /\ total_publicadas (s_stats (snd r)) = total_publicadas (s_stats st)
         /\ falhas_publicacao (s_stats (snd r))
            = to_uint32 (falhas_publicacao (s_stats st) + 1)))
  /\ to_uint32
       (total_publicadas (s_stats (publish_all reqs st))
        + falhas_publicacao (s_stats (publish_all reqs st)))
     = to_uint32
         (total_publicadas (s_stats st) + falhas_publicacao (s_stats st)
          + Z.of_nat (List.length reqs))
  /\ (total_publicadas (s_stats st) = 0 ->
      falhas_publicacao (s_stats st) = 0 ->
      Z.of_nat (List.length reqs) < 4294967296 ->
      total_publicadas (s_stats (publish_all reqs st))
      + falhas_publicacao (s_stats (publish_all reqs st))
      = Z.of_nat (List.length reqs)).
Proof.
  split; [|split].
  - intros a. apply publish_one_counter.
  - apply publish_all_sum.
  - intros Hp0 Hf0 Hn.
    destruct (publish_all_split reqs st)
      as (ok & ko & Hok & Hko & Hsum & Hp & Hf);
      [lia | lia |].
    rewrite Hp, Hf, Hp0, Hf0, !Z.add_0_l, !to_uint32_small by lia.
    exact Hsum.
Qed.

(** While the client handle is absent every attempt is refused. *)
Lemma publish_all_refused (n : nat) (a : publish_args) (st : sys) :
  s_mqtt_client st = None ->
  0 <= falhas_publicacao (s_stats st) < 4294967296 ->
  total_publicadas (s_stats (publish_all (repeat a n) st))
  = total_publicadas (s_stats st)
  /\ falhas_publicacao (s_stats (publish_all (repeat a n) st))
     = to_uint32 (falhas_publicacao (s_stats st) + Z.of_nat n).
Proof.
  revert st. induction n as [|n IH]; intros st Hc Hf.
  - cbn [repeat publish_all fold_left Z.of_nat].
    rewrite Z.add_0_r, to_uint32_small by assumption. split; reflexivity.
  - cbn [repeat]. rewrite publish_all_cons, publish_refused by (left; exact Hc).
    cbn [snd].
    destruct (IH (inc_falhas_publicacao st)) as [Hp' Hf'].
    + destruct st; exact Hc.
    + destruct st; cbn. unfold to_uint32. apply Z.mod_pos_bound. lia.
    + rewrite Hp', Hf'. split; [destruct st; reflexivity|].
      replace (falhas_publicacao (s_stats (inc_falhas_publicacao st)))
        with (to_uint32 (falhas_publicacao (s_stats st) + 1))
        by (destruct st; reflexivity).
      rewrite to_uint32_idemp_l, Nat2Z.inj_succ. f_equal. lia.
Qed.

End FacadeFacts.

(** ** The subscription batch *)

Ltac break_if :=
  match goal with
  | |- context [if ?b then _ else _] => destruct b eqn:?
  end.

Lemma subscriptions_in_app (a b : list call) :
  subscriptions_in (a ++ b) = subscriptions_in a ++ subscriptions_in b.
Proof.
  induction a as [|c a IH]; [reflexivity|].
  destruct c; cbn; rewrite ?IH; reflexivity.
Qed.

Lemma connects_in_app (a b : list call) :
  connects_in (a ++ b) = (connects_in a + connects_in b)%nat.
Proof.
  induction a as [|c a IH]; [reflexivity|].
  destruct c; cbn; rewrite ?IH; reflexivity.
Qed.

Section BatchFacts.
Context `{client_lib : mqtt_client_lib}.

Lemma data_event_calls (event : esp_mqtt_event_t) (st : sys) :
  calls (mqtt_event_handler MQTT_EVENT_DATA event st) = calls st.
Proof.
  unfold mqtt_event_handler. cbv zeta.
  repeat break_if; destruct st; reflexivity.
Qed.

Lemma connected_event_calls (event : esp_mqtt_event_t) (st : sys)
  (client : handle) :
  s_mqtt_client st = Some client ->
  calls (mqtt_event_handler MQTT_EVENT_CONNECTED event st)
  = calls st
    ++ [Call_esp_mqtt_client_subscribe client "casa/externo/luminosidade" 1;
        Call_esp_mqtt_client_subscribe client "casa/sala/temperatura" 1;
        Call_esp_mqtt_client_subscribe client "demo/central/comandos" 1;
        Call_esp_mqtt_client_subscribe client "demo/config/#" 0].
Proof.
  intros H. destruct st as [s c ? ? ? ? ? ? ? ? ? ? ? l ? ?]. cbn in H. subst c.
  cbn. rewrite <- !app_assoc. reflexivity.
Qed.

Lemma quiet_step (ev : sys_event) (st : sys) :
  not_a_subscription_trigger ev ->
  subscriptions_in (calls (sys_step ev st)) = subscriptions_in (calls st).
Proof.
  intros H. destruct ev as [us|id e|w| |ap|tp pl len qos rt|tp qos|tp| ];
    cbn [sys_step].
  - destruct st; reflexivity.
  - destruct id; try (destruct st; reflexivity); try contradiction.
    rewrite data_event_calls. reflexivity.
  - destruct w; unfold wifi_event_handler; repeat break_if; destruct st; cbn;
      rewrite ?subscriptions_in_app, ?app_nil_r; reflexivity.
  - unfold ac_monitor_task_body. cbv zeta. repeat break_if; destruct st;
      reflexivity.
  - unfold wifi_watchdog_task_body. break_if; destruct st; cbn;
      rewrite ?subscriptions_in_app, ?app_nil_r; reflexivity.
  - unfold mqtt_publish_data. cbv zeta.
    destruct (s_mqtt_client st); [|destruct st; reflexivity].
    repeat break_if; destruct st; cbn;
      rewrite ?subscriptions_in_app, ?app_nil_r; reflexivity.
  - contradiction.
  - unfold mqtt_unsubscribe_topic. cbv zeta.
    destruct (s_mqtt_client st); [|reflexivity].
    repeat break_if; destruct st; cbn;
      rewrite ?subscriptions_in_app, ?app_nil_r; reflexivity.
  - destruct st; reflexivity.
Qed.

(** C2, as the code has it: with the client handle in place, the
    session-established event (MQTT_EVENT_CONNECTED) issues the fixed
    subscription batch exactly once and in this order, and the batch has 4
    topics: casa/externo/luminosidade, casa/sala/temperatura and
    demo/central/comandos at QoS 1, demo/config/# at QoS 0.  No other MQTT
    event, no WiFi event, no turn of a periodic task, no publish, unsubscribe
    or statistics reset issues any subscription. *)
Theorem subscription_batch_once (event : esp_mqtt_event_t) (st : sys)
  (client : handle) :
  s_mqtt_client st = Some client ->
  calls (mqtt_event_handler MQTT_EVENT_CONNECTED event st)
  = calls st
    ++ [Call_esp_mqtt_client_subscribe client "casa/externo/luminosidade" 1;
        Call_esp_mqtt_client_subscribe client "casa/sala/temperatura" 1;
        Call_esp_mqtt_client_subscribe client "demo/central/comandos" 1;
        Call_esp_mqtt_client_subscribe client "demo/config/#" 0]
  /\ subscriptions_in (calls (sys_step (Ev_mqtt MQTT_EVENT_CONNECTED event) st))
     = subscriptions_in (calls st)
       ++ [("casa/externo/luminosidade", 1); ("casa/sala/temperatura", 1);
           ("demo/central/comandos", 1); ("demo/config/#", 0)]
  /\ (forall (ev : sys_event) (st' : sys),
        not_a_subscription_trigger ev ->
        subscriptions_in (calls (sys_step ev st'))
        = subscriptions_in (calls st')).
Proof.
  intros H. split; [|split].
  - apply connected_event_calls. exact H.
  - cbn [sys_step]. rewrite (connected_event_calls event st client H).
    rewrite subscriptions_in_app. reflexivity.
  - intros ev st' Hev. apply quiet_step. exact Hev.
Qed.

End BatchFacts.

(** ** WiFi link retries *)

Lemma link_lost_below_max (st : sys) :
  s_wifi_retry_num st < WIFI_MAX_RETRY ->
  wifi_event_handler WIFI_EVENT_STA_DISCONNECTED st
  = set_s_wifi_retry_num (s_wifi_retry_num st + 1)
      (record_call Call_esp_wifi_connect st).
Proof.
  intros H. unfold wifi_event_handler.
  destruct (Z.ltb_spec (s_wifi_retry_num st) WIFI_MAX_RETRY); [|lia].
  destruct st; reflexivity.
Qed.

Lemma link_lost_at_max (st : sys) :
  WIFI_MAX_RETRY <= s_wifi_retry_num st ->
  wifi_event_handler WIFI_EVENT_STA_DISCONNECTED st = st.
Proof.
  intros H. unfold wifi_event_handler.
  destruct (Z.ltb_spec (s_wifi_retry_num st) WIFI_MAX_RETRY); [lia|].
  reflexivity.
Qed.

Lemma link_lost_burst (n : nat) (st : sys) :
  0 <= s_wifi_retry_num st <= WIFI_MAX_RETRY ->
  s_wifi_retry_num (link_lost n st)
  = Z.min (s_wifi_retry_num st + Z.of_nat n) WIFI_MAX_RETRY
  /\ calls (link_lost n st)
     = calls st
       ++ repeat Call_esp_wifi_connect
            (Z.to_nat (Z.min (Z.of_nat n)
                         (WIFI_MAX_RETRY - s_wifi_retry_num st))).
Proof.
  revert st. induction n as [|n IH]; intros st H.
  - cbn [link_lost Z.of_nat].
    replace (Z.min 0 (WIFI_MAX_RETRY - s_wifi_retry_num st)) with 0 by lia.
    cbn [Z.to_nat repeat]. rewrite app_nil_r. split; [lia | reflexivity].
  - cbn [link_lost].
    destruct (Z.lt_ge_cases (s_wifi_retry_num st) WIFI_MAX_RETRY)
      as [Hlt | Hge].
    + rewrite link_lost_below_max by exact Hlt.
      set (st1 := set_s_wifi_retry_num (s_wifi_retry_num st + 1)
                    (record_call Call_esp_wifi_connect st)).
      assert (Hr1 : s_wifi_retry_num st1 = s_wifi_retry_num st + 1)
        by (destruct st; reflexivity).
      assert (Hc1 : calls st1 = calls st ++ [Call_esp_wifi_connect])
        by (destruct st; reflexivity).
      destruct (IH st1) as [Hr Hc]; [rewrite Hr1; lia|].
      rewrite Hr, Hc, Hr1, Hc1. split; [lia|].
      rewrite <- app_assoc. f_equal. cbn [app].
      replace (Z.to_nat (Z.min (Z.of_nat (S n))
                           (WIFI_MAX_RETRY - s_wifi_retry_num st)))
        with (S (Z.to_nat (Z.min (Z.of_nat n)
                             (WIFI_MAX_RETRY - (s_wifi_retry_num st + 1)))))
        by lia.
      reflexivity.
    + rewrite link_lost_at_max by exact Hge.
      destruct (IH st H) as [Hr Hc]. rewrite Hr, Hc.
      split; [lia|]. f_equal. f_equal. lia.
Qed.

(** C4, as the code has it: a link-lost event with
    [s_wifi_retry_num < WIFI_MAX_RETRY] (5) issues one [esp_wifi_connect]
    and increments the counter; with the counter at the maximum the event
    handler issues nothing and changes nothing, so [n] link-lost events in a
    row issue min(n, 5 - retry) attempts; the got-IP event resets the counter
    to 0.  The handler is not the only caller: each turn of the WiFi
    watchdog that finds the link down resets the counter to 0 and issues a
    connect attempt of its own, whatever the counter was. *)
Theorem link_retry_bounded (st : sys) :
  (s_wifi_retry_num st < WIFI_MAX_RETRY ->
   s_wifi_retry_num (wifi_event_handler WIFI_EVENT_STA_DISCONNECTED st)
   = s_wifi_retry_num st + 1
   /\ calls (wifi_event_handler WIFI_EVENT_STA_DISCONNECTED st)
      = calls st ++ [Call_esp_wifi_connect])
  /\ (WIFI_MAX_RETRY <= s_wifi_retry_num st ->
      wifi_event_handler WIFI_EVENT_STA_DISCONNECTED st = st)
  /\ (forall n : nat,
        0 <= s_wifi_retry_num st <= WIFI_MAX_RETRY ->
        s_wifi_retry_num (link_lost n st)
        = Z.min (s_wifi_retry_num st + Z.of_nat n) WIFI_MAX_RETRY
        /\ calls (link_lost n st)
           = calls st
             ++ repeat Call_esp_wifi_connect
                  (Z.to_nat (Z.min (Z.of_nat n)
                               (WIFI_MAX_RETRY - s_wifi_retry_num st))))
  /\ (s_wifi_retry_num (wifi_event_handler IP_EVENT_STA_GOT_IP st) = 0
      /\ calls (wifi_event_handler IP_EVENT_STA_GOT_IP st) = calls st)
  /\ (forall ap_info : esp_err_t,
        ap_info <> ESP_OK ->
        s_wifi_retry_num (wifi_watchdog_task_body ap_info st) = 0
        /\ calls (wifi_watchdog_task_body ap_info st)
           = calls st ++ [Call_esp_wifi_connect]).
Proof.
  split; [|split; [|split; [|split]]].
  - intros H. rewrite link_lost_below_max by exact H.
    destruct st; split; reflexivity.
  - apply link_lost_at_max.
  - intros n H. apply link_lost_burst. exact H.
  - destruct st; split; reflexivity.
  - intros ap_info H.
    destruct ap_info; try congruence; destruct st; split; reflexivity.
Qed.

(** ** Actuator rules *)

Ltac break_cmp :=
  repeat match goal with
    | |- context [?a <? ?b] => destruct (Z.ltb_spec a b)
    | |- context [?a >? ?b] => destruct (Z.gtb_spec a b)
    | |- context [?a >=? ?b] => destruct (Z.geb_spec a b)
    | |- context [?a =? ?b] => destruct (Z.eqb_spec a b)
    end.

Lemma temperatura_is_not_luminosidade (t : string) :
  strcmp_eq0 t "casa/sala/temperatura" = true ->
  strcmp_eq0 t "casa/externo/luminosidade" = false.
Proof.
  unfold strcmp_eq0. intros H. apply String.eqb_eq in H. rewrite H.
  reflexivity.
Qed.

Section RuleFacts.
Context `{client_lib : mqtt_client_lib}.

(** What a data event on the illumination topic does. *)
Lemma data_luminosidade (event : esp_mqtt_event_t) (st : sys) :
  strcmp_eq0 (topic event) "casa/externo/luminosidade" = true ->
  mqtt_event_handler MQTT_EVENT_DATA event st
  = gpio_set_level GPIO_NUM_18 (if atoi (data event) <? 3 then 1 else 0)
      (record_recebida (now_ms st) st).
Proof.
  intros H. unfold mqtt_event_handler. cbv zeta.
  rewrite strcmp_eq0_c_str, H, atoi_c_str.
  destruct (atoi (data event) <? 3); reflexivity.
Qed.

(** What [gpio_get_level] reads on GPIO 19. *)
Lemma gpio_get_level_19 (st : sys) :
  gpio_get_level GPIO_NUM_19 st
  = match gpio_19_mode st with
    | GPIO_MODE_INPUT_OUTPUT => gpio_19 st
    | GPIO_MODE_DISABLE | GPIO_MODE_OUTPUT => 0
    end.
Proof. reflexivity. Qed.

(** A pin that reads 1 is driven at 1. *)
Lemma read_on_is_driven (st : sys) :
  gpio_get_level GPIO_NUM_19 st = 1 -> gpio_19 st = 1.
Proof.
  rewrite gpio_get_level_19.
  destruct (gpio_19_mode st); intros H;
    [discriminate H | discriminate H | exact H].
Qed.

(** A pin configured as [init_gpio] configures it reads 0, whatever it is
    driven at. *)
Lemma output_only_reads_low (st : sys) :
  gpio_19_mode st = GPIO_MODE_OUTPUT -> gpio_get_level GPIO_NUM_19 st = 0.
Proof. intros H. rewrite gpio_get_level_19, H. reflexivity. Qed.

(** The invariant in terms of the level the pin is driven at. *)
Lemma ac_invariant_driven (st : sys) :
  ac_invariant st -> s_temp_low_start_time_ms st <> 0 -> gpio_19 st = 1.
Proof. intros Hinv Hs. apply read_on_is_driven, Hinv, Hs. Qed.

Lemma same_pin_same_read (st st' : sys) :
  gpio_19_mode st' = gpio_19_mode st ->
  gpio_19 st' = gpio_19 st ->
  gpio_get_level GPIO_NUM_19 st' = gpio_get_level GPIO_NUM_19 st.
Proof. intros Hm Hg. rewrite !gpio_get_level_19, Hm, Hg. reflexivity. Qed.

(** The event handler does not configure pins. *)
Lemma mqtt_event_modes (event_id : esp_mqtt_event_id_t)
  (event : esp_mqtt_event_t) (st : sys) :
  gpio_18_mode (mqtt_event_handler event_id event st) = gpio_18_mode st
  /\ gpio_19_mode (mqtt_event_handler event_id event st) = gpio_19_mode st.
Proof.
  destruct event_id;
    try (destruct st as [s [c|] k r t t1 t2 t3 t4 i g18 g19 clk l m18 m19];
         cbn; auto; fail).
  unfold mqtt_event_handler. cbv zeta.
  repeat break_if; destruct st; cbn; auto.
Qed.

(** Neither does the delayed-shutoff checker. *)
Lemma ac_monitor_modes (st : sys) :
  gpio_18_mode (ac_monitor_task_body st) = gpio_18_mode st
  /\ gpio_19_mode (ac_monitor_task_body st) = gpio_19_mode st.
Proof.
  unfold ac_monitor_task_body. cbv zeta.
  repeat break_if; destruct st; cbn; auto.
Qed.

(** What a data event on the temperature topic does to the output pin, the
    timer and the clock. *)
Lemma data_temperatura (event : esp_mqtt_event_t) (st : sys) :
  strcmp_eq0 (topic event) "casa/sala/temperatura" = true ->
  gpio_19 (mqtt_event_handler MQTT_EVENT_DATA event st)
  = (if atoi (data event) >? 23 then 1 else gpio_19 st)
  /\ s_temp_low_start_time_ms (mqtt_event_handler MQTT_EVENT_DATA event st)
     = (if atoi (data event) >? 23 then 0
        else if atoi (data event) <? 20 then
          if gpio_get_level GPIO_NUM_19 st =? 1 then
            if s_temp_low_start_time_ms st =? 0 then now_ms st
            else s_temp_low_start_time_ms st
          else 0
        else 0)
  /\ time_us (mqtt_event_handler MQTT_EVENT_DATA event st) = time_us st.
Proof.
  intros H. unfold mqtt_event_handler. cbv zeta.
  rewrite !strcmp_eq0_c_str, H, (temperatura_is_not_luminosidade _ H),
    atoi_c_str.
  assert (Hrec : forall ts,
             gpio_19 (record_recebida ts st) = gpio_19 st
             /\ s_temp_low_start_time_ms (record_recebida ts st)
                = s_temp_low_start_time_ms st
             /\ time_us (record_recebida ts st) = time_us st
             /\ now_ms (record_recebida ts st) = now_ms st
             /\ gpio_get_level GPIO_NUM_19 (record_recebida ts st)
                = gpio_get_level GPIO_NUM_19 st)
    by (intros ts; destruct st; cbn; auto).
  destruct (Hrec (now_ms st)) as (Hg & Hs & Ht & Hn & Hr).
  rewrite Hr, Hs, Hn.
  destruct (atoi (data event) >? 23);
    [destruct st; cbn; auto|].
  destruct (atoi (data event) <? 20); [|destruct st; cbn; auto].
  destruct (gpio_get_level GPIO_NUM_19 st =? 1); [|destruct st; cbn; auto].
  destruct (s_temp_low_start_time_ms st =? 0); [destruct st; cbn; auto|].
  auto.
Qed.

(** What a turn of the delayed-shutoff checker does to the same three. *)
Lemma ac_monitor_obs (st : sys) :
  gpio_19 (ac_monitor_task_body st)
  = (if gpio_get_level GPIO_NUM_19 st =? 1 then
       if s_temp_low_start_time_ms st >? 0 then
         if to_uint64 (now_ms st - s_temp_low_start_time_ms st)
            >=? TEN_MINUTES_MS
         then 0 else gpio_19 st
       else gpio_19 st
     else gpio_19 st)
  /\ s_temp_low_start_time_ms (ac_monitor_task_body st)
     = (if gpio_get_level GPIO_NUM_19 st =? 1 then
          if s_temp_low_start_time_ms st >? 0 then
            if to_uint64 (now_ms st - s_temp_low_start_time_ms st)
               >=? TEN_MINUTES_MS
            then 0 else s_temp_low_start_time_ms st
          else s_temp_low_start_time_ms st
        else 0)
  /\ time_us (ac_monitor_task_body st) = time_us st.
Proof.
  unfold ac_monitor_task_body. cbv zeta.
  destruct (gpio_get_level GPIO_NUM_19 st =? 1); [|destruct st; cbn; auto].
  destruct (s_temp_low_start_time_ms st >? 0); [|auto].
  destruct (to_uint64 (now_ms st - s_temp_low_start_time_ms st)
            >=? TEN_MINUTES_MS); [destruct st; cbn; auto | auto].
Qed.

(** What the pin reads after a turn of the checker. *)
Lemma ac_monitor_read (st : sys) :
  gpio_get_level GPIO_NUM_19 (ac_monitor_task_body st)
  = (if gpio_get_level GPIO_NUM_19 st =? 1 then
       if s_temp_low_start_time_ms st >? 0 then
         if to_uint64 (now_ms st - s_temp_low_start_time_ms st)
            >=? TEN_MINUTES_MS
         then 0 else gpio_get_level GPIO_NUM_19 st
       else gpio_get_level GPIO_NUM_19 st
     else gpio_get_level GPIO_NUM_19 st).
Proof.
  destruct (ac_monitor_obs st) as (Hg & _ & _).
  destruct (ac_monitor_modes st) as [_ Hm].
  rewrite (gpio_get_level_19 (ac_monitor_task_body st)), Hm, Hg.
  repeat break_if; try reflexivity;
    rewrite ?gpio_get_level_19; destruct (gpio_19_mode st); reflexivity.
Qed.

(** Events other than data events leave the pins and the timer alone. *)
Lemma other_event_pins (event_id : esp_mqtt_event_id_t)
  (event : esp_mqtt_event_t) (st : sys) :
  event_id <> MQTT_EVENT_DATA ->
  gpio_18 (mqtt_event_handler event_id event st) = gpio_18 st
  /\ gpio_19 (mqtt_event_handler event_id event st) = gpio_19 st
  /\ s_temp_low_start_time_ms (mqtt_event_handler event_id event st)
     = s_temp_low_start_time_ms st.
Proof.
  intros H. destruct event_id; try congruence;
    destruct st as [s [c|] k r t t1 t2 t3 t4 i
        g18 g19 clk l m18 m19]; cbn; auto.
Qed.

(** A data event on any topic but the temperature topic leaves the air
    conditioner and its timer alone. *)
Lemma data_other_topic (event : esp_mqtt_event_t) (st : sys) :
  strcmp_eq0 (topic event) "casa/sala/temperatura" = false ->
  gpio_19 (mqtt_event_handler MQTT_EVENT_DATA event st) = gpio_19 st
  /\ s_temp_low_start_time_ms (mqtt_event_handler MQTT_EVENT_DATA event st)
     = s_temp_low_start_time_ms st.
Proof.
  intros H. unfold mqtt_event_handler. cbv zeta.
  rewrite !strcmp_eq0_c_str, H.
  repeat break_if; destruct st; cbn; auto.
Qed.

(** C5: the actuator-rule invariant, timer armed
    ([s_temp_low_start_time_ms <> 0]) implies output on (GPIO 19 reads 1,
    and so is driven at 1),
    holds in the initial state (output off, timer 0) and is preserved by
    every step of both writers: the MQTT event handler, for every event and
    so for every temperature reading, and every turn of the periodic
    delayed-shutoff checker. *)
Theorem ac_invariant_holds :
  ac_invariant boot_state
  /\ (forall (event_id : esp_mqtt_event_id_t) (event : esp_mqtt_event_t)
        (st : sys),
        ac_invariant st ->
        ac_invariant (mqtt_event_handler event_id event st))
  /\ (forall st : sys,
        ac_invariant st -> ac_invariant (ac_monitor_task_body st)).
Proof.
  unfold ac_invariant. split; [|split].
  - cbn. congruence.
  - intros event_id event st Hinv.
    destruct (mqtt_event_modes event_id event st) as [_ Hm].
    assert (Hdata : event_id = MQTT_EVENT_DATA \/ event_id <> MQTT_EVENT_DATA)
      by (destruct event_id; (left; reflexivity) || (right; discriminate)).
    destruct Hdata as [-> | Hother].
    + destruct (strcmp_eq0 (topic event) "casa/sala/temperatura") eqn:Ht.
      * destruct (data_temperatura event st Ht) as (Hg & Hs & _).
        rewrite Hs.
        destruct (atoi (data event) >? 23); [congruence|].
        rewrite (same_pin_same_read st _ Hm Hg).
        revert Hinv. break_cmp; intros; try lia; auto.
      * destruct (data_other_topic event st Ht) as (Hg & Hs).
        rewrite Hs, (same_pin_same_read st _ Hm Hg). exact Hinv.
    + destruct (other_event_pins event_id event st Hother) as (_ & Hg & Hs).
      rewrite Hs, (same_pin_same_read st _ Hm Hg). exact Hinv.
  - intros st Hinv. destruct (ac_monitor_obs st) as (Hg & Hs & _).
    destruct (ac_monitor_modes st) as [_ Hm].
    rewrite Hs.
    destruct (gpio_get_level GPIO_NUM_19 st =? 1) eqn:Er; [|congruence].
    destruct (s_temp_low_start_time_ms st >? 0) eqn:Es.
    + destruct (to_uint64 (now_ms st - s_temp_low_start_time_ms st)
                >=? TEN_MINUTES_MS) eqn:Ee; [congruence|].
      rewrite ?Er, ?Es, ?Ee in Hg.
      rewrite (same_pin_same_read st _ Hm Hg). exact Hinv.
    + rewrite ?Er, ?Es in Hg.
      rewrite (same_pin_same_read st _ Hm Hg). exact Hinv.
Qed.

Lemma run_cons (ev : sys_event) (evs : list sys_event) (st : sys) :
  run (ev :: evs) st = run evs (sys_step ev st).
Proof. reflexivity. Qed.

(** C6: the arming of the temperature rule is lost on the pin as
    [init_gpio] configures it.  GPIO 19 is set to GPIO_MODE_OUTPUT, for
    which [gpio_get_level] returns 0, so the test "output on" of the
    low-reading branch fails whatever the pin is driven at: every reading
    below 20 sets [s_temp_low_start_time_ms] to 0.  With the output on and
    the timer holding a start timestamp the reading erases the timestamp
    instead of leaving it, and with the timer unarmed the first low reading
    does not set one.  The output and the mode of the pin are as before. *)
Theorem low_reading_never_arms (event : esp_mqtt_event_t) (st : sys) :
  gpio_19_mode st = GPIO_MODE_OUTPUT ->
  strcmp_eq0 (topic event) "casa/sala/temperatura" = true ->
  atoi (data event) < 20 ->
  s_temp_low_start_time_ms (mqtt_event_handler MQTT_EVENT_DATA event st) = 0
  /\ gpio_19 (mqtt_event_handler MQTT_EVENT_DATA event st) = gpio_19 st
  /\ gpio_19_mode (mqtt_event_handler MQTT_EVENT_DATA event st)
     = GPIO_MODE_OUTPUT.
Proof.
  intros Hm Ht Hv.
  destruct (data_temperatura event st Ht) as (Hg & Hs & _).
  destruct (mqtt_event_modes MQTT_EVENT_DATA event st) as [_ Hm'].
  rewrite Hg, Hs, Hm', (output_only_reads_low st Hm).
  repeat split; [break_cmp; lia | break_cmp; lia | exact Hm].
Qed.

(** C7: on the illumination topic every reading [v] below 3 sets the output
    (GPIO 18) on and every reading [v >= 3] sets it off; the resulting
    output is a function of the latest sample alone, the same whatever the
    state the sample arrives in. *)
Theorem luminosidade_rule (event : esp_mqtt_event_t) (st : sys) :
  strcmp_eq0 (topic event) "casa/externo/luminosidade" = true ->
  (atoi (data event) < 3 ->
   gpio_18 (mqtt_event_handler MQTT_EVENT_DATA event st) = 1)
  /\ (3 <= atoi (data event) ->
      gpio_18 (mqtt_event_handler MQTT_EVENT_DATA event st) = 0)
  /\ (forall st' : sys,
        gpio_18 (mqtt_event_handler MQTT_EVENT_DATA event st')
        = gpio_18 (mqtt_event_handler MQTT_EVENT_DATA event st)).
Proof.
  intros Ht.
  assert (Hout : forall s : sys,
             gpio_18 (mqtt_event_handler MQTT_EVENT_DATA event s)
             = (if atoi (data event) <? 3 then 1 else 0)).
  { intros s. rewrite (data_luminosidade event s Ht).
    destruct (atoi (data event) <? 3); destruct s; reflexivity. }
  split; [|split].
  - intros Hv. rewrite Hout. break_cmp; lia.
  - intros Hv. rewrite Hout. break_cmp; lia.
  - intros st'. rewrite !Hout. reflexivity.
Qed.

End RuleFacts.

(** ** The delayed shutoff *)

Section ShutoffFacts.
Context `{client_lib : mqtt_client_lib}.

(** One simulated second on a pin in GPIO_MODE_OUTPUT: the output is not
    switched off and the timer is not armed. *)
Lemma ac_second_output_only (readings : nat -> option string) (p s : nat)
  (st : sys) :
  gpio_19_mode st = GPIO_MODE_OUTPUT ->
  gpio_19 st = 1 ->
  s_temp_low_start_time_ms st = 0 ->
  gpio_19_mode (ac_second readings p s st) = GPIO_MODE_OUTPUT
  /\ gpio_19 (ac_second readings p s st) = 1
  /\ s_temp_low_start_time_ms (ac_second readings p s st) = 0.
Proof.
  intros Hm Hg Hs. unfold ac_second. cbv zeta.
  set (st1 := elapse 1000000 st).
  assert (H1 : gpio_19_mode st1 = GPIO_MODE_OUTPUT /\ gpio_19 st1 = 1
               /\ s_temp_low_start_time_ms st1 = 0)
    by (unfold st1; destruct st; cbn in *; auto).
  clearbody st1. destruct H1 as (Hm1 & Hg1 & Hs1).
  set (st2 := match readings s with
              | Some payload =>
                  mqtt_event_handler MQTT_EVENT_DATA
                    (temperatura_event payload) st1
              | None => st1
              end).
  assert (H2 : gpio_19_mode st2 = GPIO_MODE_OUTPUT /\ gpio_19 st2 = 1
               /\ s_temp_low_start_time_ms st2 = 0).
  { unfold st2. destruct (readings s) as [payload|]; [|auto].
    destruct (data_temperatura (temperatura_event payload) st1 eq_refl)
      as (Hg2 & Hs2 & _).
    destruct (mqtt_event_modes MQTT_EVENT_DATA (temperatura_event payload)
                st1) as [_ Hm2].
    rewrite Hg2, Hs2, Hm2, (output_only_reads_low st1 Hm1).
    repeat split; [exact Hm1 | break_cmp; lia | break_cmp; lia]. }
  clearbody st2. destruct H2 as (Hm2 & Hg2 & Hs2).
  destruct (tick_due p s); [|auto].
  destruct (ac_monitor_obs st2) as (Hg3 & Hs3 & _).
  destruct (ac_monitor_modes st2) as [_ Hm3].
  rewrite Hg3, Hs3, Hm3, (output_only_reads_low st2 Hm2).
  cbn. auto.
Qed.

(** C3: the delayed shutoff never fires on the pin as [init_gpio]
    configures it.  GPIO 19 is set to GPIO_MODE_OUTPUT, for which
    [gpio_get_level] returns 0, so neither the low-reading branch of the
    event handler nor the periodic checker ever finds the output on.
    Starting with the output on and the timer unarmed, after [T] simulated
    seconds of readings, all below 20 or not, with the checker taking a
    turn every 10 s from second [first_tick], the output is still on and
    the timer still unarmed: for every [T], also for [T >= 600]. *)
Theorem shutoff_never_fires (readings : nat -> option string)
  (first_tick T : nat) (st0 : sys) :
  gpio_19_mode st0 = GPIO_MODE_OUTPUT ->
  gpio_19 st0 = 1 ->
  s_temp_low_start_time_ms st0 = 0 ->
  gpio_19 (ac_run readings first_tick T st0) = 1
  /\ s_temp_low_start_time_ms (ac_run readings first_tick T st0) = 0
  /\ gpio_get_level GPIO_NUM_19 (ac_run readings first_tick T st0) = 0.
Proof.
  intros Hm Hg Hs.
  assert (H : gpio_19_mode (ac_run readings first_tick T st0)
              = GPIO_MODE_OUTPUT
              /\ gpio_19 (ac_run readings first_tick T st0) = 1
              /\ s_temp_low_start_time_ms (ac_run readings first_tick T st0)
                 = 0).
  { induction T as [|T IH]; [cbn [ac_run]; auto|].
    cbn [ac_run]. destruct IH as (IHm & IHg & IHs).
    apply ac_second_output_only; assumption. }
  destruct H as (HmT & HgT & HsT).
  split; [exact HgT|]. split; [exact HsT|].
  apply output_only_reads_low. exact HmT.
Qed.

End ShutoffFacts.

(** ** Initialisation *)

Section InitFacts.
Context `{client_lib : mqtt_client_lib}.

Lemma init_guard (env : init_env) (st : sys) :
  s_system_initialized st = true ->
  mqtt_system_init env st = Returned ESP_OK st.
Proof. intros H. unfold mqtt_system_init. rewrite H. reflexivity. Qed.

Lemma not_ok_returned (ret : esp_err_t) (st st1 : sys) :
  negb (is_ESP_OK ret) = true -> Returned ret st <> Returned ESP_OK st1.
Proof. intros H E. inversion E; subst. discriminate H. Qed.

(** A run of the initialisation that returns ESP_OK leaves the flag set. *)
Lemma init_success_sets_flag (env : init_env) (st st1 : sys) :
  mqtt_system_init env st = Returned ESP_OK st1 ->
  s_system_initialized st1 = true.
Proof.
  unfold mqtt_system_init.
  destruct (s_system_initialized st) eqn:Hinit.
  { intros E. inversion E; subst. exact Hinit. }
  destruct (init_gpio st) as [ret0 stg].
  destruct (negb (is_ESP_OK ret0)) eqn:E0;
    [intros E; destruct (not_ok_returned _ _ _ E0 E)|].
  destruct (init_nvs env stg) as [ret1 st2|st2]; cbn [bind]; [|discriminate].
  destruct (negb (is_ESP_OK ret1)) eqn:E1;
    [intros E; destruct (not_ok_returned _ _ _ E1 E)|].
  unfold ESP_ERROR_CHECK.
  destruct (is_ESP_OK (env_esp_netif_init env)); cbn [bind]; [|discriminate].
  destruct (is_ESP_OK (env_esp_event_loop_create_default env)); cbn [bind];
    [|discriminate].
  match goal with
  | |- context [init_phase_wifi env ?s] =>
      destruct (init_phase_wifi env s) as [ret2 st3|st3]
  end; cbn [bind]; [|discriminate].
  destruct (negb (is_ESP_OK ret2)) eqn:E2;
    [intros E; destruct (not_ok_returned _ _ _ E2 E)|].
  destruct (init_phase_mqtt env st3) as [ret3 st4].
  destruct (negb (is_ESP_OK ret3)) eqn:E3;
    [intros E; destruct (not_ok_returned _ _ _ E3 E)|].
  destruct (create_tasks env st4) as [ret4 st5].
  destruct (negb (is_ESP_OK ret4)) eqn:E4;
    [intros E; destruct (not_ok_returned _ _ _ E4 E)|].
  intros E. inversion E; subst.
  match goal with
  | |- s_system_initialized (set_s_system_initialized true ?s) = true =>
      destruct s; reflexivity
  end.
Qed.

Lemma sys_step_initialized (ev : sys_event) (st : sys) :
  s_system_initialized (sys_step ev st) = s_system_initialized st.
Proof.
  destruct ev as [us|id e|w| |ap|tp pl len qos rt|tp qos|tp| ];
    cbn [sys_step].
  - destruct st; reflexivity.
  - destruct id; try reflexivity.
    + destruct st as [s [c|] k r t t1 t2 t3 t4 i
        g18 g19 clk l m18 m19]; reflexivity.
    + unfold mqtt_event_handler. cbv zeta. repeat break_if; destruct st;
        reflexivity.
  - destruct w; unfold wifi_event_handler; repeat break_if; destruct st;
      reflexivity.
  - unfold ac_monitor_task_body. cbv zeta. repeat break_if; destruct st;
      reflexivity.
  - unfold wifi_watchdog_task_body. break_if; destruct st; reflexivity.
  - unfold mqtt_publish_data. cbv zeta.
    destruct (s_mqtt_client st); [|destruct st; reflexivity].
    repeat break_if; destruct st; reflexivity.
  - unfold mqtt_subscribe_topic. cbv zeta.
    destruct (s_mqtt_client st); [|reflexivity].
    repeat break_if; destruct st; reflexivity.
  - unfold mqtt_unsubscribe_topic. cbv zeta.
    destruct (s_mqtt_client st); [|reflexivity].
    repeat break_if; destruct st; reflexivity.
  - destruct st; reflexivity.
Qed.

Lemma run_initialized (evs : list sys_event) (st : sys) :
  s_system_initialized (run evs st) = s_system_initialized st.
Proof.
  revert st. induction evs as [|ev evs IH]; intros st; [reflexivity|].
  rewrite run_cons, IH. apply sys_step_initialized.
Qed.

(** Only [mqtt_system_shutdown] takes the flag down again. *)
Lemma shutdown_clears_flag (st : sys) :
  s_system_initialized st = true ->
  fst (mqtt_system_shutdown st) = ESP_OK
  /\ s_system_initialized (snd (mqtt_system_shutdown st)) = false.
Proof.
  intros H. unfold mqtt_system_shutdown. rewrite H. split; reflexivity.
Qed.

(** C10: [mqtt_system_init] is idempotent at the public interface.  After a
    call that returned ESP_OK, a second call returns ESP_OK at once and
    leaves the whole state, call log included, as it is: no phase runs
    again and no collaborator is called, whatever the collaborators would
    answer.  The same holds for any later call, after any events,
    publishes, subscribes and task turns of the running system (a shutdown
    is not among them). *)
Theorem init_idempotent (env env' : init_env) (evs : list sys_event)
  (st st1 : sys) :
  mqtt_system_init env st = Returned ESP_OK st1 ->
  mqtt_system_init env' st1 = Returned ESP_OK st1
  /\ mqtt_system_init env' (run evs st1) = Returned ESP_OK (run evs st1).
Proof.
  intros H. apply init_success_sets_flag in H.
  split; apply init_guard; [exact H|].
  rewrite run_initialized. exact H.
Qed.

End InitFacts.

(** * Further properties of the service *)

(** ** Shutdown *)

Section ShutdownFacts.
Context `{client_lib : mqtt_client_lib}.

Lemma shutdown_uninitialized (st : sys) :
  s_system_initialized st = false ->
  mqtt_system_shutdown st = (ESP_ERR_INVALID_STATE, st).
Proof. intros H. unfold mqtt_system_shutdown. rewrite H. reflexivity. Qed.

(** X1: a shutdown is effective once.  Whatever the state, a second
    [mqtt_system_shutdown] right after a first one returns
    ESP_ERR_INVALID_STATE and changes nothing, the call log included. *)
Theorem shutdown_twice (st : sys) :
  mqtt_system_shutdown (snd (mqtt_system_shutdown st))
  = (ESP_ERR_INVALID_STATE, snd (mqtt_system_shutdown st)).
Proof.
  apply shutdown_uninitialized.
  destruct (s_system_initialized st) eqn:H.
  - apply shutdown_clears_flag. exact H.
  - rewrite (shutdown_uninitialized st H). exact H.
Qed.

Lemma shutdown_fields (st : sys) :
  s_system_initialized st = true ->
  s_mqtt_client (snd (mqtt_system_shutdown st)) = None
  /\ s_mqtt_connected (snd (mqtt_system_shutdown st)) = false
  /\ s_task_telemetry (snd (mqtt_system_shutdown st)) = false
  /\ s_task_health (snd (mqtt_system_shutdown st)) = false
  /\ s_task_wifi_watchdog (snd (mqtt_system_shutdown st)) = false
  /\ s_task_ac_monitor (snd (mqtt_system_shutdown st)) = false.
Proof.
  intros H. unfold mqtt_system_shutdown. rewrite H. cbn [negb]. cbv zeta.
  set (st1 := if s_mqtt_connected st
              then vTaskDelay 100 (snd (mqtt_publish_status false st))
              else st).
  assert (H1 : s_task_telemetry st1 = s_task_telemetry st
               /\ s_task_health st1 = s_task_health st
               /\ s_task_wifi_watchdog st1 = s_task_wifi_watchdog st
               /\ s_task_ac_monitor st1 = s_task_ac_monitor st).
  { unfold st1, mqtt_publish_status, mqtt_publish_data. cbv zeta.
    destruct (s_mqtt_connected st); [|auto].
    destruct (s_mqtt_client st); [|destruct st; cbn; auto].
    cbn [negb]. break_if; destruct st; cbn; auto. }
  clearbody st1.
  destruct st1 as [s c k r t t1 t2 t3 t4 i g18 g19 clk l m18 m19].
  destruct t1, t2, t3, t4, c; cbn; auto 10.
Qed.

(** X2: on an initialised system [mqtt_system_shutdown] returns ESP_OK and
    leaves no client handle, no session, no task handle and the
    initialised flag down; every publish and subscribe that follows is
    refused with -1. *)
Theorem shutdown_teardown (st : sys) :
  s_system_initialized st = true ->
  fst (mqtt_system_shutdown st) = ESP_OK
  /\ s_system_initialized (snd (mqtt_system_shutdown st)) = false
  /\ s_mqtt_client (snd (mqtt_system_shutdown st)) = None
  /\ s_mqtt_connected (snd (mqtt_system_shutdown st)) = false
  /\ s_task_telemetry (snd (mqtt_system_shutdown st)) = false
  /\ s_task_health (snd (mqtt_system_shutdown st)) = false
  /\ s_task_wifi_watchdog (snd (mqtt_system_shutdown st)) = false
  /\ s_task_ac_monitor (snd (mqtt_system_shutdown st)) = false
  /\ (forall (topic data : string) (len qos : Z) (retain : bool),
        fst (mqtt_publish_data topic data len qos retain
               (snd (mqtt_system_shutdown st))) = -1)
  /\ (forall (topic : string) (qos : Z),
        mqtt_subscribe_topic topic qos (snd (mqtt_system_shutdown st))
        = (-1, snd (mqtt_system_shutdown st))).
Proof.
  intros H.
  destruct (shutdown_clears_flag st H) as [Hr Hi].
  destruct (shutdown_fields st H) as (Hc & Hk & H1 & H2 & H3 & H4).
  assert (Hd : session_down (snd (mqtt_system_shutdown st)))
    by (left; exact Hc).
  repeat (split; [assumption|]). split.
  - intros. rewrite publish_refused by exact Hd. reflexivity.
  - intros. apply subscribe_refused. exact Hd.
Qed.

(** X3: when the session is up, the shutdown says goodbye before it tears
    the session down: the retained "offline" status (QoS 1) is handed to
    the client first, then the existing tasks are deleted in the order
    telemetry, health, watchdog, monitor, and only then the client is
    stopped and destroyed; no other call is made to the client or to the
    task API (the 100 ms sleep after the publish only moves the clock). *)
Theorem shutdown_offline_first (st : sys) (client : handle) :
  s_system_initialized st = true ->
  s_mqtt_client st = Some client ->
  s_mqtt_connected st = true ->
  calls (snd (mqtt_system_shutdown st))
  = calls st
    ++ [Call_esp_mqtt_client_publish client "demo/central/status" "offline"
          7 1 1]
    ++ (if s_task_telemetry st then [Call_vTaskDelete "Telemetry"] else [])
    ++ (if s_task_health st then [Call_vTaskDelete "HealthMon"] else [])
    ++ (if s_task_wifi_watchdog st then [Call_vTaskDelete "WiFiWatchdog"]
        else [])
    ++ (if s_task_ac_monitor st then [Call_vTaskDelete "ACMonitor"] else [])
    ++ [Call_esp_mqtt_client_stop client;
        Call_esp_mqtt_client_destroy client].
Proof.
  intros Hi Hc Hk.
  destruct st as [s c k r t t1 t2 t3 t4 i g18 g19 clk l m18 m19].
  cbn in Hi, Hc, Hk. subst i c k.
  unfold mqtt_system_shutdown, mqtt_publish_status, mqtt_publish_data.
  cbn [s_system_initialized s_mqtt_connected s_mqtt_client negb]. cbv zeta.
  change (strlen "offline") with 7. cbn [Z.eqb].
  match goal with
  | |- context [?x >=? 0] => destruct (x >=? 0)
  end; destruct t1, t2, t3, t4; cbn; rewrite <- ?app_assoc; reflexivity.
Qed.

End ShutdownFacts.

(** ** Who switches the air conditioner *)

(** X4: a turn of the delayed-shutoff checker establishes the actuator
    invariant from any state whatever: when the pin does not read 1 it
    forces the timer to 0, so a timer left armed by an out-of-band
    switch-off (such as [init_gpio] on a second initialisation) does not
    survive the turn. *)
Theorem checker_restores_invariant (st : sys) :
  ac_invariant (ac_monitor_task_body st)
  /\ (gpio_get_level GPIO_NUM_19 st <> 1 ->
      s_temp_low_start_time_ms (ac_monitor_task_body st) = 0
      /\ gpio_get_level GPIO_NUM_19 (ac_monitor_task_body st)
         = gpio_get_level GPIO_NUM_19 st).
Proof.
  unfold ac_invariant.
  destruct (ac_monitor_obs st) as (_ & Hs & _).
  rewrite (ac_monitor_read st), Hs.
  split; [|intros Hoff]; break_cmp; try lia; auto.
Qed.

Section SwitchFacts.
Context `{client_lib : mqtt_client_lib}.

(** X5: the two writers of GPIO 19 have disjoint roles.  The MQTT event
    handler only ever switches the output on, and only for a data event on
    the temperature topic that reads above 23; the checker only ever
    switches it off, and only when the output is on, the timer is armed and
    at least 600000 ms have elapsed since the start timestamp. *)
Theorem ac_switching_roles (st : sys) :
  (forall (event_id : esp_mqtt_event_id_t) (event : esp_mqtt_event_t),
     gpio_19 (mqtt_event_handler event_id event st) <> gpio_19 st ->
     event_id = MQTT_EVENT_DATA
     /\ strcmp_eq0 (topic event) "casa/sala/temperatura" = true
     /\ 23 < atoi (data event)
     /\ gpio_19 (mqtt_event_handler event_id event st) = 1
     /\ s_temp_low_start_time_ms (mqtt_event_handler event_id event st) = 0)
  /\ (gpio_19 (ac_monitor_task_body st) <> gpio_19 st ->
      gpio_19 st = 1
      /\ gpio_19 (ac_monitor_task_body st) = 0
      /\ s_temp_low_start_time_ms (ac_monitor_task_body st) = 0
      /\ 0 < s_temp_low_start_time_ms st
      /\ TEN_MINUTES_MS
         <= to_uint64 (now_ms st - s_temp_low_start_time_ms st)).
Proof.
  split.
  - intros event_id event Hch.
    assert (Hdata : event_id = MQTT_EVENT_DATA \/ event_id <> MQTT_EVENT_DATA)
      by (destruct event_id; (left; reflexivity) || (right; discriminate)).
    destruct Hdata as [-> | Hother].
    + destruct (strcmp_eq0 (topic event) "casa/sala/temperatura") eqn:Ht.
      * destruct (data_temperatura event st Ht) as (Hg & Hs & _).
        rewrite Hg, Hs in *. revert Hch.
        break_cmp; intros; try lia; try congruence; auto.
      * destruct (data_other_topic event st Ht) as (Hg & _). congruence.
    + destruct (other_event_pins event_id event st Hother) as (_ & Hg & _).
      congruence.
  - destruct (ac_monitor_obs st) as (Hg & Hs & _). rewrite Hg, Hs.
    pose proof (read_on_is_driven st) as Hrd.
    break_cmp; intros; try lia; try congruence; repeat split; auto; lia.
Qed.

(** What a data event leaves alone, whatever its topic. *)
Lemma data_event_frame (event : esp_mqtt_event_t) (st : sys) :
  s_mqtt_client (mqtt_event_handler MQTT_EVENT_DATA event st)
  = s_mqtt_client st
  /\ s_mqtt_connected (mqtt_event_handler MQTT_EVENT_DATA event st)
     = s_mqtt_connected st
  /\ s_wifi_retry_num (mqtt_event_handler MQTT_EVENT_DATA event st)
     = s_wifi_retry_num st
  /\ time_us (mqtt_event_handler MQTT_EVENT_DATA event st) = time_us st
  /\ total_publicadas (s_stats (mqtt_event_handler MQTT_EVENT_DATA event st))
     = total_publicadas (s_stats st)
  /\ falhas_publicacao (s_stats (mqtt_event_handler MQTT_EVENT_DATA event st))
     = falhas_publicacao (s_stats st)
  /\ desconexoes (s_stats (mqtt_event_handler MQTT_EVENT_DATA event st))
     = desconexoes (s_stats st)
  /\ total_recebidas (s_stats (mqtt_event_handler MQTT_EVENT_DATA event st))
     = to_uint32 (total_recebidas (s_stats st) + 1)
  /\ ultima_mensagem_ts (s_stats (mqtt_event_handler MQTT_EVENT_DATA event st))
     = to_uint32 (now_ms st).
Proof.
  unfold mqtt_event_handler. cbv zeta.
  repeat break_if; destruct st; cbn; auto 10.
Qed.

(** X6: the two actuator rules do not interfere, and a data event touches
    nothing but its own actuator.  A message on the illumination topic
    leaves GPIO 19 and the shutoff timer as they are, a message on the
    temperature topic leaves GPIO 18 as it is, a message on any other topic
    changes no pin and not the timer; in every case the session flag, the
    client handle, the retry counter, the clock and the call log are
    unchanged. *)
Theorem data_event_touches_own_actuator (event : esp_mqtt_event_t)
  (st : sys) :
  (strcmp_eq0 (topic event) "casa/externo/luminosidade" = true ->
   gpio_19 (mqtt_event_handler MQTT_EVENT_DATA event st) = gpio_19 st
   /\ s_temp_low_start_time_ms (mqtt_event_handler MQTT_EVENT_DATA event st)
      = s_temp_low_start_time_ms st)
  /\ (strcmp_eq0 (topic event) "casa/sala/temperatura" = true ->
      gpio_18 (mqtt_event_handler MQTT_EVENT_DATA event st) = gpio_18 st)
  /\ (strcmp_eq0 (topic event) "casa/externo/luminosidade" = false ->
      strcmp_eq0 (topic event) "casa/sala/temperatura" = false ->
      gpio_18 (mqtt_event_handler MQTT_EVENT_DATA event st) = gpio_18 st
      /\ gpio_19 (mqtt_event_handler MQTT_EVENT_DATA event st) = gpio_19 st
      /\ s_temp_low_start_time_ms
           (mqtt_event_handler MQTT_EVENT_DATA event st)
         = s_temp_low_start_time_ms st)
  /\ s_mqtt_client (mqtt_event_handler MQTT_EVENT_DATA event st)
     = s_mqtt_client st
  /\ s_mqtt_connected (mqtt_event_handler MQTT_EVENT_DATA event st)
     = s_mqtt_connected st
  /\ s_wifi_retry_num (mqtt_event_handler MQTT_EVENT_DATA event st)
     = s_wifi_retry_num st
  /\ time_us (mqtt_event_handler MQTT_EVENT_DATA event st) = time_us st
  /\ calls (mqtt_event_handler MQTT_EVENT_DATA event st) = calls st.
Proof.
  destruct (data_event_frame event st) as (Hc & Hk & Hr & Ht & _).
  split; [|split; [|split]].
  - intros Hl. rewrite (data_luminosidade event st Hl).
    destruct st; cbn; auto.
  - intros Htp. unfold mqtt_event_handler. cbv zeta.
    rewrite !strcmp_eq0_c_str, Htp, (temperatura_is_not_luminosidade _ Htp).
    repeat break_if; destruct st; cbn; auto.
  - intros Hl Htp. unfold mqtt_event_handler. cbv zeta.
    rewrite !strcmp_eq0_c_str, Hl, Htp. destruct st; cbn; auto.
  - rewrite data_event_calls. auto.
Qed.

End SwitchFacts.

(** ** Counters and the session flag *)

Section SessionFacts.
Context `{client_lib : mqtt_client_lib}.

Lemma deliver_mqtt_cons (id : esp_mqtt_event_id_t) (ev : esp_mqtt_event_t)
  (evs : list (esp_mqtt_event_id_t * esp_mqtt_event_t)) (st : sys) :
  deliver_mqtt ((id, ev) :: evs) st
  = deliver_mqtt evs (mqtt_event_handler id ev st).
Proof. reflexivity. Qed.

(** What one MQTT event does to the statistics. *)
Lemma event_stats (event_id : esp_mqtt_event_id_t) (event : esp_mqtt_event_t)
  (st : sys) :
  total_publicadas (s_stats (mqtt_event_handler event_id event st))
  = total_publicadas (s_stats st)
  /\ falhas_publicacao (s_stats (mqtt_event_handler event_id event st))
     = falhas_publicacao (s_stats st)
  /\ total_recebidas (s_stats (mqtt_event_handler event_id event st))
     = match event_id with
       | MQTT_EVENT_DATA => to_uint32 (total_recebidas (s_stats st) + 1)
       | _ => total_recebidas (s_stats st)
       end
  /\ desconexoes (s_stats (mqtt_event_handler event_id event st))
     = match event_id with
       | MQTT_EVENT_DISCONNECTED => to_uint32 (desconexoes (s_stats st) + 1)
       | _ => desconexoes (s_stats st)
       end.
Proof.
  destruct event_id; try (repeat split; reflexivity).
  - destruct st as [s [c|] k r t t1 t2 t3 t4 i g18 g19 clk l m18 m19];
      repeat split; reflexivity.
  - destruct (data_event_frame event st) as (_ & _ & _ & _ & Hp & Hf & Hd & Hr & _).
    auto.
Qed.

Lemma to_uint32_range (x : Z) : 0 <= to_uint32 x < 4294967296.
Proof. unfold to_uint32. apply Z.mod_pos_bound. lia. Qed.

(** X7: the event handler counts what it receives.  Over any delivery of
    MQTT events, [total_recebidas] grows by the number of data events,
    whatever their topic and payload, and [desconexoes] by the number of
    session-lost events, both modulo 2^32; the two publish counters are
    never touched by an event. *)
Theorem events_counted
  (evs : list (esp_mqtt_event_id_t * esp_mqtt_event_t)) (st : sys) :
  0 <= total_recebidas (s_stats st) < 4294967296 ->
  0 <= desconexoes (s_stats st) < 4294967296 ->
  total_recebidas (s_stats (deliver_mqtt evs st))
  = to_uint32 (total_recebidas (s_stats st) + Z.of_nat (count_data evs))
  /\ desconexoes (s_stats (deliver_mqtt evs st))
     = to_uint32 (desconexoes (s_stats st)
                  + Z.of_nat (count_disconnected evs))
  /\ total_publicadas (s_stats (deliver_mqtt evs st))
     = total_publicadas (s_stats st)
  /\ falhas_publicacao (s_stats (deliver_mqtt evs st))
     = falhas_publicacao (s_stats st).
Proof.
  revert st. induction evs as [|[id ev] evs IH]; intros st Hr Hd.
  - cbn [deliver_mqtt count_data count_disconnected Z.of_nat].
    rewrite !Z.add_0_r, !to_uint32_small by assumption. auto.
  - rewrite deliver_mqtt_cons.
    destruct (event_stats id ev st) as (Hp1 & Hf1 & Hr1 & Hd1).
    destruct (IH (mqtt_event_handler id ev st)) as (Hr2 & Hd2 & Hp2 & Hf2).
    { rewrite Hr1. destruct id; try exact Hr. apply to_uint32_range. }
    { rewrite Hd1. destruct id; try exact Hd. apply to_uint32_range. }
    rewrite Hr2, Hd2, Hp2, Hf2, Hp1, Hf1, Hr1, Hd1.
    repeat split; destruct id; cbn [count_data count_disconnected];
      rewrite ?Nat2Z.inj_succ, ?to_uint32_idemp_l; try reflexivity;
      f_equal; lia.
Qed.

(** X8: the session events gate the Facade.  Right after a session-lost
    event every publish is refused with -1 without reaching the client;
    right after a session-established event, with the client handle in
    place, a publish is handed to the client with the arguments it was
    given ([len] 0 replaced by the length of the payload, [retain] as 0 or
    1) and returns what the client returns. *)
Theorem session_events_gate_publish (event : esp_mqtt_event_t)
  (topic data : string) (len qos : Z) (retain : bool) (st : sys) :
  (fst (mqtt_publish_data topic data len qos retain
          (mqtt_event_handler MQTT_EVENT_DISCONNECTED event st)) = -1
   /\ calls (snd (mqtt_publish_data topic data len qos retain
                    (mqtt_event_handler MQTT_EVENT_DISCONNECTED event st)))
      = calls st)
  /\ (forall client : handle,
        s_mqtt_client st = Some client ->
        fst (mqtt_publish_data topic data len qos retain
               (mqtt_event_handler MQTT_EVENT_CONNECTED event st))
        = esp_mqtt_client_publish
            (calls (mqtt_event_handler MQTT_EVENT_CONNECTED event st))
            client topic data (if len =? 0 then strlen data else len) qos
            (if retain then 1 else 0)
        /\ calls (snd (mqtt_publish_data topic data len qos retain
                         (mqtt_event_handler MQTT_EVENT_CONNECTED event st)))
           = calls (mqtt_event_handler MQTT_EVENT_CONNECTED event st)
             ++ [Call_esp_mqtt_client_publish client topic data
                   (if len =? 0 then strlen data else len) qos
                   (if retain then 1 else 0)]).
Proof.
  split.
  - rewrite publish_refused by (right; destruct st; reflexivity).
    destruct st; split; reflexivity.
  - intros client Hc.
    set (st' := mqtt_event_handler MQTT_EVENT_CONNECTED event st).
    assert (Hst' : s_mqtt_client st' = Some client
                   /\ s_mqtt_connected st' = true).
    { unfold st'. destruct st as [s c k r t t1 t2 t3 t4 i
        g18 g19 clk l m18 m19].
      cbn in Hc. subst c. split; reflexivity. }
    destruct Hst' as [Hc' Hk']. clearbody st'.
    unfold mqtt_publish_data. rewrite Hc', Hk'. cbn [negb]. cbv zeta.
    break_if; destruct st'; split; reflexivity.
Qed.

End SessionFacts.

(** ** The retry counter stays in range *)

Section RetryFacts.
Context `{client_lib : mqtt_client_lib}.

Lemma mqtt_event_retry (event_id : esp_mqtt_event_id_t)
  (event : esp_mqtt_event_t) (st : sys) :
  s_wifi_retry_num (mqtt_event_handler event_id event st)
  = s_wifi_retry_num st.
Proof.
  destruct event_id; try reflexivity.
  - destruct st as [s [c|] k r t t1 t2 t3 t4 i
      g18 g19 clk l m18 m19]; reflexivity.
  - apply data_event_frame.
Qed.

Lemma sys_step_retry (ev : sys_event) (st : sys) :
  retry_in_range st -> retry_in_range (sys_step ev st).
Proof.
  unfold retry_in_range. intros H.
  destruct ev as [us|id e|w| |ap|tp pl len qos rt|tp qos|tp| ];
    cbn [sys_step].
  - destruct st; exact H.
  - rewrite mqtt_event_retry. exact H.
  - destruct w.
    + destruct st; exact H.
    + destruct (Z.lt_ge_cases (s_wifi_retry_num st) WIFI_MAX_RETRY) as [L | G].
      * rewrite link_lost_below_max by exact L. destruct st; cbn in *. lia.
      * rewrite link_lost_at_max by exact G. exact H.
    + destruct st; cbn. unfold WIFI_MAX_RETRY. lia.
    + exact H.
  - unfold ac_monitor_task_body. cbv zeta. repeat break_if; destruct st;
      exact H.
  - unfold wifi_watchdog_task_body. break_if; [|exact H].
    destruct st; cbn. unfold WIFI_MAX_RETRY. lia.
  - unfold mqtt_publish_data. cbv zeta.
    destruct (s_mqtt_client st); [|destruct st; exact H].
    repeat break_if; destruct st; exact H.
  - unfold mqtt_subscribe_topic. cbv zeta.
    destruct (s_mqtt_client st); [|exact H].
    repeat break_if; destruct st; exact H.
  - unfold mqtt_unsubscribe_topic. cbv zeta.
    destruct (s_mqtt_client st); [|exact H].
    repeat break_if; destruct st; exact H.
  - destruct st; exact H.
Qed.

(** X9: the WiFi retry counter never leaves [0, WIFI_MAX_RETRY]: the bound
    holds at boot and is kept by every event, task turn and public
    operation of the running system, so the [int] counter cannot overflow
    however long the link stays down. *)
Theorem retry_counter_bounded (evs : list sys_event) (st : sys) :
  retry_in_range st -> retry_in_range (run evs st).
Proof.
  revert st. induction evs as [|ev evs IH]; intros st H; [exact H|].
  rewrite run_cons. apply IH. apply sys_step_retry. exact H.
Qed.

End RetryFacts.

(** ** The two waits of the initialisation *)

Lemma publishes_in_app (a b : list call) :
  publishes_in (a ++ b) = publishes_in a ++ publishes_in b.
Proof.
  induction a as [|c a IH]; [reflexivity|].
  destruct c; cbn; rewrite ?IH; reflexivity.
Qed.

Lemma is_ESP_OK_eq (r : esp_err_t) : is_ESP_OK r = true -> r = ESP_OK.
Proof. destruct r; try discriminate. reflexivity. Qed.

(** What a WiFi event leaves alone. *)
Lemma wifi_event_frame (ev : wifi_event_t) (st : sys) :
  time_us (wifi_event_handler ev st) = time_us st
  /\ s_system_initialized (wifi_event_handler ev st) = s_system_initialized st
  /\ s_mqtt_client (wifi_event_handler ev st) = s_mqtt_client st
  /\ s_mqtt_connected (wifi_event_handler ev st) = s_mqtt_connected st
  /\ publishes_in (calls (wifi_event_handler ev st)) = publishes_in (calls st).
Proof.
  destruct ev; unfold wifi_event_handler; repeat break_if; destruct st; cbn;
    rewrite ?publishes_in_app, ?app_nil_r; auto.
Qed.

Lemma deliver_wifi_frame (evs : list wifi_event_t) (st : sys) :
  time_us (deliver_wifi evs st) = time_us st
  /\ s_system_initialized (deliver_wifi evs st) = s_system_initialized st
  /\ s_mqtt_client (deliver_wifi evs st) = s_mqtt_client st
  /\ s_mqtt_connected (deliver_wifi evs st) = s_mqtt_connected st
  /\ publishes_in (calls (deliver_wifi evs st)) = publishes_in (calls st).
Proof.
  revert st. induction evs as [|ev evs IH]; intros st; [auto|].
  cbn [deliver_wifi].
  destruct (IH (wifi_event_handler ev st)) as (H1 & H2 & H3 & H4 & H5).
  destruct (wifi_event_frame ev st) as (G1 & G2 & G3 & G4 & G5).
  rewrite H1, H2, H3, H4, H5. auto.
Qed.

Section WaitFacts.
Context `{client_lib : mqtt_client_lib}.

(** What an MQTT event leaves alone. *)
Lemma mqtt_event_frame (event_id : esp_mqtt_event_id_t)
  (event : esp_mqtt_event_t) (st : sys) :
  time_us (mqtt_event_handler event_id event st) = time_us st
  /\ s_system_initialized (mqtt_event_handler event_id event st)
     = s_system_initialized st
  /\ s_mqtt_client (mqtt_event_handler event_id event st) = s_mqtt_client st
  /\ publishes_in (calls (mqtt_event_handler event_id event st))
     = publishes_in (calls st).
Proof.
  destruct event_id; try (repeat split; reflexivity).
  - destruct st as [s [c|] k r t t1 t2 t3 t4 i g18 g19 clk l m18 m19]; cbn;
      rewrite ?publishes_in_app, ?app_nil_r; auto.
  - destruct (data_event_frame event st) as (Hc & _ & _ & Ht & _).
    rewrite data_event_calls, Hc, Ht.
    rewrite (sys_step_initialized (Ev_mqtt MQTT_EVENT_DATA event) st). auto.
Qed.

Lemma deliver_mqtt_frame
  (evs : list (esp_mqtt_event_id_t * esp_mqtt_event_t)) (st : sys) :
  time_us (deliver_mqtt evs st) = time_us st
  /\ s_system_initialized (deliver_mqtt evs st) = s_system_initialized st
  /\ s_mqtt_client (deliver_mqtt evs st) = s_mqtt_client st
  /\ publishes_in (calls (deliver_mqtt evs st)) = publishes_in (calls st).
Proof.
  revert st. induction evs as [|[id ev] evs IH]; intros st; [auto|].
  rewrite deliver_mqtt_cons.
  destruct (IH (mqtt_event_handler id ev st)) as (H1 & H2 & H3 & H4).
  destruct (mqtt_event_frame id ev st) as (G1 & G2 & G3 & G4).
  rewrite H1, H2, H3, H4. auto.
Qed.

Lemma vTaskDelay_frame (ms : Z) (st : sys) :
  time_us (vTaskDelay ms st) = time_us st + ms * 1000
  /\ s_system_initialized (vTaskDelay ms st) = s_system_initialized st
  /\ s_mqtt_client (vTaskDelay ms st) = s_mqtt_client st
  /\ s_mqtt_connected (vTaskDelay ms st) = s_mqtt_connected st
  /\ calls (vTaskDelay ms st) = calls st.
Proof. destruct st; cbn; auto. Qed.

Lemma wait_mqtt_loop (env : init_env) (remaining count : nat) (st : sys) :
  time_us st
  <= time_us (wait_for_mqtt_connection_loop env count remaining st)
  <= time_us st + Z.of_nat remaining * 1000000
  /\ (s_mqtt_connected (wait_for_mqtt_connection_loop env count remaining st)
      = false ->
      time_us (wait_for_mqtt_connection_loop env count remaining st)
      = time_us st + Z.of_nat remaining * 1000000)
  /\ (s_mqtt_connected st = true ->
      wait_for_mqtt_connection_loop env count remaining st = st)
  /\ s_system_initialized (wait_for_mqtt_connection_loop env count remaining st)
     = s_system_initialized st
  /\ s_mqtt_client (wait_for_mqtt_connection_loop env count remaining st)
     = s_mqtt_client st
  /\ publishes_in
       (calls (wait_for_mqtt_connection_loop env count remaining st))
     = publishes_in (calls st).
Proof.
  revert count st. induction remaining as [|remaining IH]; intros count st.
  - cbn [wait_for_mqtt_connection_loop Z.of_nat]. repeat split; auto; lia.
  - cbn [wait_for_mqtt_connection_loop].
    destruct (s_mqtt_connected st) eqn:Hk.
    + repeat split; auto; try lia. congruence.
    + set (st1 := deliver_mqtt (env_mqtt_events env count)
                    (vTaskDelay 1000 st)).
      destruct (deliver_mqtt_frame (env_mqtt_events env count)
                  (vTaskDelay 1000 st)) as (Ht & Hi & Hc & Hp).
      destruct (vTaskDelay_frame 1000 st) as (Ht0 & Hi0 & Hc0 & _ & Hl0).
      fold st1 in Ht, Hi, Hc, Hp.
      destruct (IH (S count) st1) as (Hb & Hto & _ & Hi1 & Hc1 & Hp1).
      rewrite Hi1, Hc1, Hp1, Hi, Hc, Hp, Hi0, Hc0, Hl0.
      rewrite Ht, Ht0 in Hb, Hto. rewrite Nat2Z.inj_succ.
      split; [lia|]. split; [intros Hf; rewrite (Hto Hf); lia|].
      split; [discriminate|]. auto.
Qed.

(** X10: the wait for the broker is bounded and ends early.  If the session
    is already up [wait_for_mqtt_connection] returns ESP_OK at once and
    changes nothing; otherwise it returns ESP_OK as soon as an event
    delivered during one of its one-second sleeps has brought the session
    up, and ESP_ERR_TIMEOUT after exactly [timeout_sec] seconds when none
    has; it returns ESP_OK exactly when the session is up on return, and it
    never sleeps more than [timeout_sec] seconds. *)
Theorem mqtt_wait_bounded (env : init_env) (timeout_sec : nat) (st : sys) :
  (fst (wait_for_mqtt_connection env timeout_sec st) = ESP_OK
   /\ s_mqtt_connected (snd (wait_for_mqtt_connection env timeout_sec st))
      = true
   \/ fst (wait_for_mqtt_connection env timeout_sec st) = ESP_ERR_TIMEOUT
      /\ s_mqtt_connected (snd (wait_for_mqtt_connection env timeout_sec st))
         = false
      /\ time_us (snd (wait_for_mqtt_connection env timeout_sec st))
         = time_us st + Z.of_nat timeout_sec * 1000000)
  /\ time_us st
     <= time_us (snd (wait_for_mqtt_connection env timeout_sec st))
     <= time_us st + Z.of_nat timeout_sec * 1000000
  /\ (s_mqtt_connected st = true ->
      wait_for_mqtt_connection env timeout_sec st = (ESP_OK, st)).
Proof.
  unfold wait_for_mqtt_connection. cbv zeta.
  destruct (wait_mqtt_loop env timeout_sec 0 st) as (Hb & Hto & Hid & _).
  split; [|split].
  - destruct (s_mqtt_connected
                (wait_for_mqtt_connection_loop env 0 timeout_sec st)) eqn:Hk;
      cbn [fst snd]; [left | right]; auto.
  - destruct (s_mqtt_connected
                (wait_for_mqtt_connection_loop env 0 timeout_sec st));
      exact Hb.
  - intros Hk. rewrite (Hid Hk), Hk. reflexivity.
Qed.

End WaitFacts.

Lemma wait_wifi_frame (env : init_env) (remaining count : nat) (st : sys) :
  s_system_initialized
    (snd (wait_for_wifi_connection_loop env count remaining st))
  = s_system_initialized st
  /\ s_mqtt_client (snd (wait_for_wifi_connection_loop env count remaining st))
     = s_mqtt_client st
  /\ s_mqtt_connected
       (snd (wait_for_wifi_connection_loop env count remaining st))
     = s_mqtt_connected st
  /\ publishes_in
       (calls (snd (wait_for_wifi_connection_loop env count remaining st)))
     = publishes_in (calls st).
Proof.
  revert count st. induction remaining as [|remaining IH]; intros count st.
  - cbn. auto.
  - cbn [wait_for_wifi_connection_loop].
    destruct (is_ESP_OK (env_ap_info env count)); [cbn; auto|].
    destruct (IH (S count)
                (deliver_wifi (env_wifi_events env count)
                   (vTaskDelay 1000 st))) as (H1 & H2 & H3 & H4).
    destruct (deliver_wifi_frame (env_wifi_events env count)
                (vTaskDelay 1000 st)) as (_ & G1 & G2 & G3 & G4).
    destruct (vTaskDelay_frame 1000 st) as (_ & F1 & F2 & F3 & F4).
    rewrite H1, H2, H3, H4, G1, G2, G3, G4, F1, F2, F3, F4. auto.
Qed.

Lemma wait_wifi_timeout (env : init_env) (remaining count : nat) (st : sys) :
  (forall j : nat,
     (count <= j < count + remaining)%nat ->
     is_ESP_OK (env_ap_info env j) = false) ->
  fst (wait_for_wifi_connection_loop env count remaining st) = ESP_ERR_TIMEOUT
  /\ time_us (snd (wait_for_wifi_connection_loop env count remaining st))
     = time_us st + Z.of_nat remaining * 1000000.
Proof.
  revert count st. induction remaining as [|remaining IH]; intros count st H.
  - cbn. split; [reflexivity | lia].
  - cbn [wait_for_wifi_connection_loop]. rewrite (H count) by lia.
    destruct (IH (S count)
                (deliver_wifi (env_wifi_events env count)
                   (vTaskDelay 1000 st))) as [Hr Ht].
    { intros j Hj. apply H. lia. }
    rewrite Hr, Ht.
    destruct (deliver_wifi_frame (env_wifi_events env count)
                (vTaskDelay 1000 st)) as (G & _).
    destruct (vTaskDelay_frame 1000 st) as (F & _).
    rewrite G, F, Nat2Z.inj_succ. split; [reflexivity | lia].
Qed.

Lemma wait_wifi_found (env : init_env) (k remaining count : nat) (st : sys) :
  (k < remaining)%nat ->
  is_ESP_OK (env_ap_info env (count + k)) = true ->
  (forall j : nat, (j < k)%nat ->
                   is_ESP_OK (env_ap_info env (count + j)) = false) ->
  fst (wait_for_wifi_connection_loop env count remaining st) = ESP_OK
  /\ time_us (snd (wait_for_wifi_connection_loop env count remaining st))
     = time_us st + Z.of_nat k * 1000000.
Proof.
  revert remaining count st.
  induction k as [|k IH]; intros remaining count st Hk Hok Hbefore.
  - destruct remaining as [|remaining]; [lia|].
    cbn [wait_for_wifi_connection_loop].
    rewrite Nat.add_0_r in Hok. rewrite Hok. cbn. split; [reflexivity | lia].
  - destruct remaining as [|remaining]; [lia|].
    cbn [wait_for_wifi_connection_loop].
    pose proof (Hbefore 0%nat ltac:(lia)) as H0.
    rewrite Nat.add_0_r in H0. rewrite H0.
    destruct (IH remaining (S count)
                (deliver_wifi (env_wifi_events env count)
                   (vTaskDelay 1000 st))) as [Hr Ht].
    { lia. }
    { replace (S count + k)%nat with (count + S k)%nat by lia. exact Hok. }
    { intros j Hj. replace (S count + j)%nat with (count + S j)%nat by lia.
      apply Hbefore. lia. }
    rewrite Hr, Ht.
    destruct (deliver_wifi_frame (env_wifi_events env count)
                (vTaskDelay 1000 st)) as (G & _).
    destruct (vTaskDelay_frame 1000 st) as (F & _).
    rewrite G, F, Nat2Z.inj_succ. split; [reflexivity | lia].
Qed.

(** X11: the wait for the WiFi link polls once per second.  If the
    [k]-th poll (from 0) is the first to find the station associated and
    [k < timeout_sec], [wait_for_wifi_connection] returns ESP_OK after [k]
    seconds; if none of the [timeout_sec] polls does, it returns
    ESP_ERR_TIMEOUT after [timeout_sec] seconds.  A link that comes up only
    after the last poll is not seen. *)
Theorem wifi_wait_first_poll (env : init_env) (timeout_sec : nat) (st : sys) :
  (forall k : nat,
     (k < timeout_sec)%nat ->
     is_ESP_OK (env_ap_info env k) = true ->
     (forall j : nat, (j < k)%nat -> is_ESP_OK (env_ap_info env j) = false) ->
     fst (wait_for_wifi_connection env timeout_sec st) = ESP_OK
     /\ time_us (snd (wait_for_wifi_connection env timeout_sec st))
        = time_us st + Z.of_nat k * 1000000)
  /\ ((forall j : nat,
         (j < timeout_sec)%nat -> is_ESP_OK (env_ap_info env j) = false) ->
      fst (wait_for_wifi_connection env timeout_sec st) = ESP_ERR_TIMEOUT
      /\ time_us (snd (wait_for_wifi_connection env timeout_sec st))
         = time_us st + Z.of_nat timeout_sec * 1000000).
Proof.
  unfold wait_for_wifi_connection. split.
  - intros k Hk Hok Hbefore. apply wait_wifi_found; assumption.
  - intros Hnone. apply wait_wifi_timeout. intros j Hj. apply Hnone. lia.
Qed.

(** ** Initialisation, phase by phase *)

Lemma same_fp_refl (a : sys) : same_flag_and_publishes a a.
Proof. split; reflexivity. Qed.

Lemma same_fp_trans (a b c : sys) :
  same_flag_and_publishes a b -> same_flag_and_publishes b c ->
  same_flag_and_publishes a c.
Proof. intros [H1 H2] [H3 H4]. split; congruence. Qed.

Lemma same_fp_record_call (c : call) (st : sys) :
  publishes_in [c] = [] -> same_flag_and_publishes st (record_call c st).
Proof.
  intros H. destruct st; split; cbn; [reflexivity|].
  rewrite publishes_in_app, H, app_nil_r. reflexivity.
Qed.

Lemma init_gpio_frame (st : sys) :
  fst (init_gpio st) = ESP_OK
  /\ same_flag_and_publishes st (snd (init_gpio st))
  /\ gpio_18 (snd (init_gpio st)) = 0
  /\ gpio_19 (snd (init_gpio st)) = 0
  /\ calls (snd (init_gpio st)) = calls st.
Proof. destruct st; cbn. repeat split. Qed.

Lemma init_nvs_frame (env : init_env) (st : sys) :
  same_flag_and_publishes st (state_of (init_nvs env st)).
Proof.
  unfold init_nvs, ESP_ERROR_CHECK. cbv zeta.
  destruct (env_nvs_flash_init env); cbn [state_of bind];
    try (apply same_fp_record_call; reflexivity);
    destruct (is_ESP_OK (env_nvs_flash_erase env)); cbn [state_of bind];
    destruct st; split; cbn; rewrite ?publishes_in_app, ?app_nil_r;
    reflexivity.
Qed.

Lemma init_phase_wifi_frame (env : init_env) (st : sys) :
  same_flag_and_publishes st (state_of (init_phase_wifi env st))
  /\ s_mqtt_connected (state_of (init_phase_wifi env st))
     = s_mqtt_connected st
  /\ s_mqtt_client (state_of (init_phase_wifi env st)) = s_mqtt_client st.
Proof.
  unfold init_phase_wifi, init_wifi, ESP_ERROR_CHECK, same_flag_and_publishes.
  cbv zeta.
  destruct (CONFIG_QEMU_MODE env); [repeat split; reflexivity|].
  destruct (is_ESP_OK (env_wifi_setup env)); cbn [bind state_of negb is_ESP_OK].
  - unfold wait_for_wifi_connection.
    destruct (wait_wifi_frame env 30 0 (record_call Call_wifi_setup st))
      as (H1 & H2 & H3 & H4).
    destruct (wait_for_wifi_connection_loop env 0 30
                (record_call Call_wifi_setup st)) as [ret st'].
    cbn [snd state_of] in *. rewrite H1, H2, H3, H4.
    destruct st; repeat split; cbn;
      rewrite ?publishes_in_app, ?app_nil_r; reflexivity.
  - destruct st; repeat split; cbn;
      rewrite ?publishes_in_app, ?app_nil_r; reflexivity.
Qed.

Lemma create_tasks_frame (env : init_env) (st : sys) :
  same_flag_and_publishes st (snd (create_tasks env st))
  /\ s_mqtt_connected (snd (create_tasks env st)) = s_mqtt_connected st
  /\ s_mqtt_client (snd (create_tasks env st)) = s_mqtt_client st
  /\ (fst (create_tasks env st) = ESP_OK ->
      s_task_telemetry (snd (create_tasks env st)) = true
      /\ s_task_health (snd (create_tasks env st)) = true
      /\ s_task_ac_monitor (snd (create_tasks env st)) = true
      /\ s_task_wifi_watchdog (snd (create_tasks env st))
         = (if CONFIG_QEMU_MODE env then s_task_wifi_watchdog st else true)).
Proof.
  unfold create_tasks, same_flag_and_publishes. cbv zeta.
  repeat break_if; destruct st; cbn;
    rewrite ?publishes_in_app, ?app_nil_r;
    repeat split; try reflexivity; discriminate.
Qed.

Section InitPhaseFacts.
Context `{client_lib : mqtt_client_lib}.

(** What a publish leaves alone. *)
Lemma publish_frame (topic data : string) (len qos : Z) (retain : bool)
  (st : sys) :
  s_system_initialized (snd (mqtt_publish_data topic data len qos retain st))
  = s_system_initialized st
  /\ s_mqtt_client (snd (mqtt_publish_data topic data len qos retain st))
     = s_mqtt_client st
  /\ s_mqtt_connected (snd (mqtt_publish_data topic data len qos retain st))
     = s_mqtt_connected st
  /\ s_task_telemetry (snd (mqtt_publish_data topic data len qos retain st))
     = s_task_telemetry st
  /\ s_task_health (snd (mqtt_publish_data topic data len qos retain st))
     = s_task_health st
  /\ s_task_wifi_watchdog
       (snd (mqtt_publish_data topic data len qos retain st))
     = s_task_wifi_watchdog st
  /\ s_task_ac_monitor (snd (mqtt_publish_data topic data len qos retain st))
     = s_task_ac_monitor st.
Proof.
  unfold mqtt_publish_data. cbv zeta.
  destruct (s_mqtt_client st) eqn:Hc; [|destruct st; cbn in *; auto 10].
  repeat break_if; destruct st; cbn in *; auto 10.
Qed.

(** The call log of a publish: one call when the session is up, none
    otherwise. *)
Lemma publish_log (topic data : string) (len qos : Z) (retain : bool)
  (st : sys) :
  publishes_in (calls (snd (mqtt_publish_data topic data len qos retain st)))
  = publishes_in (calls st)
    ++ (if s_mqtt_connected st then
          match s_mqtt_client st with
          | Some _ => [(topic, data)]
          | None => []
          end
        else []).
Proof.
  unfold mqtt_publish_data. cbv zeta.
  destruct (s_mqtt_client st) eqn:Hc.
  - destruct (s_mqtt_connected st) eqn:Hk; cbn [negb].
    + break_if; destruct st; cbn; rewrite publishes_in_app; reflexivity.
    + destruct st; cbn. rewrite app_nil_r. reflexivity.
  - destruct (s_mqtt_connected st); destruct st; cbn; rewrite app_nil_r;
      reflexivity.
Qed.

Lemma init_mqtt_frame (env : init_env) (st : sys) :
  same_flag_and_publishes st (snd (init_mqtt env st))
  /\ (fst (init_mqtt env st) = ESP_OK ->
      exists client : handle,
        env_esp_mqtt_client_init env = Some client
        /\ s_mqtt_client (snd (init_mqtt env st)) = Some client
        /\ calls (snd (init_mqtt env st))
           = calls st
             ++ [Call_esp_mqtt_client_init;
                 Call_esp_mqtt_client_register_event client;
                 Call_esp_mqtt_client_start client])
  /\ (fst (init_mqtt env st) <> ESP_OK ->
      s_mqtt_client (snd (init_mqtt env st)) = None
      /\ forall client : handle,
           env_esp_mqtt_client_init env = Some client ->
           exists l : list call,
             calls (snd (init_mqtt env st))
             = calls st ++ l ++ [Call_esp_mqtt_client_destroy client]).
Proof.
  unfold init_mqtt, same_flag_and_publishes. cbv zeta.
  destruct st as [s c k r t t1 t2 t3 t4 i g18 g19 clk l m18 m19].
  cbn [set_s_mqtt_client record_call set_calls s_mqtt_client calls s_stats
       s_mqtt_connected s_wifi_retry_num s_temp_low_start_time_ms
       s_task_telemetry s_task_health s_task_wifi_watchdog s_task_ac_monitor
       s_system_initialized gpio_18 gpio_19 time_us].
  destruct (env_esp_mqtt_client_init env) as [client|].
  - destruct (is_ESP_OK (env_esp_mqtt_client_register_event env)) eqn:Er;
      cbn [negb].
    + destruct (is_ESP_OK (env_esp_mqtt_client_start env)) eqn:Es;
        cbn.
      * rewrite ?publishes_in_app; cbn [publishes_in app];
          rewrite ?app_nil_r. split; [split; reflexivity|]. split.
        -- intros _. exists client. rewrite <- !app_assoc.
           repeat split; reflexivity.
        -- intros H. congruence.
      * rewrite ?publishes_in_app; cbn [publishes_in app];
          rewrite ?app_nil_r. split; [split; reflexivity|]. split.
        -- intros H. rewrite H in Es. discriminate.
        -- intros _. split; [reflexivity|]. intros c' E. injection E as <-.
           exists [Call_esp_mqtt_client_init;
                   Call_esp_mqtt_client_register_event client;
                   Call_esp_mqtt_client_start client].
           rewrite <- !app_assoc. reflexivity.
    + cbn.
      rewrite ?publishes_in_app; cbn [publishes_in app];
        rewrite ?app_nil_r. split; [split; reflexivity|]. split.
      * intros H. rewrite H in Er. discriminate.
      * intros _. split; [reflexivity|]. intros c' E. injection E as <-.
        exists [Call_esp_mqtt_client_init;
                Call_esp_mqtt_client_register_event client].
        rewrite <- !app_assoc. reflexivity.
  - cbn.
    rewrite ?publishes_in_app; cbn [publishes_in app]; rewrite ?app_nil_r.
    split; [split; reflexivity|]. split; [discriminate|].
    intros _. split; [reflexivity|]. discriminate.
Qed.

End InitPhaseFacts.

Section InitWholeFacts.
Context `{client_lib : mqtt_client_lib}.

Lemma init_phase_mqtt_frame (env : init_env) (st : sys) :
  same_flag_and_publishes st (snd (init_phase_mqtt env st))
  /\ (fst (init_phase_mqtt env st) = ESP_OK ->
      CONFIG_QEMU_MODE env = false ->
      exists client : handle,
        env_esp_mqtt_client_init env = Some client
        /\ s_mqtt_client (snd (init_phase_mqtt env st)) = Some client)
  /\ (CONFIG_QEMU_MODE env = true -> init_phase_mqtt env st = (ESP_OK, st)).
Proof.
  unfold init_phase_mqtt.
  destruct (CONFIG_QEMU_MODE env).
  { split; [apply same_fp_refl|]. split; [discriminate | reflexivity]. }
  destruct (init_mqtt_frame env st) as (Hfp & Hok & _).
  destruct (init_mqtt env st) as [ret st1]. cbn [fst snd] in *.
  destruct (is_ESP_OK ret) eqn:Er; cbn [negb fst snd].
  - apply is_ESP_OK_eq in Er. subst ret.
    destruct (Hok eq_refl) as (client & Hc & Hc1 & _).
    unfold wait_for_mqtt_connection. cbv zeta.
    destruct (wait_mqtt_loop env 20 0 st1) as (_ & _ & _ & Hi & Hcl & Hp).
    assert (Hsnd : forall (b : bool) (x : sys),
               snd (let (_, s) := if b then (ESP_OK, x)
                                  else (ESP_ERR_TIMEOUT, x) in (ESP_OK, s))
               = x) by (intros [] x; reflexivity).
    rewrite Hsnd. split; [|split; [|discriminate]].
    + destruct Hfp as [F1 F2]. split; congruence.
    + intros _ _. exists client. split; [exact Hc | congruence].
  - split; [exact Hfp|]. split; [|discriminate].
    intros H. subst ret. discriminate.
Qed.

(** A successful initialisation went through every phase. *)
Lemma init_success_inv (env : init_env) (st st1 : sys) :
  s_system_initialized st = false ->
  mqtt_system_init env st = Returned ESP_OK st1 ->
  exists st2 st3 st4 st5 : sys,
    init_nvs env (snd (init_gpio st)) = Returned ESP_OK st2
    /\ init_phase_wifi env
         (set_s_stats stats_zero
            (record_call Call_esp_event_loop_create_default
               (record_call Call_esp_netif_init st2)))
       = Returned ESP_OK st3
    /\ init_phase_mqtt env st3 = (ESP_OK, st4)
    /\ create_tasks env st4 = (ESP_OK, st5)
    /\ st1
       = set_s_system_initialized true
           (if s_mqtt_connected st5 then
              snd (mqtt_publish_data MQTT_TOPIC_BOOT (env_boot_info env) 0 1
                     false (snd (mqtt_publish_status true st5)))
            else st5).
Proof.
  intros Hinit. unfold mqtt_system_init. rewrite Hinit.
  destruct (init_gpio st) as [ret0 stg] eqn:Eg. cbn [snd].
  destruct (negb (is_ESP_OK ret0)) eqn:E0;
    [intros E; destruct (not_ok_returned _ _ _ E0 E)|].
  destruct (init_nvs env stg) as [ret1 st2|st2]; cbn [bind]; [|discriminate].
  destruct (negb (is_ESP_OK ret1)) eqn:E1;
    [intros E; destruct (not_ok_returned _ _ _ E1 E)|].
  unfold ESP_ERROR_CHECK.
  destruct (is_ESP_OK (env_esp_netif_init env)); cbn [bind]; [|discriminate].
  destruct (is_ESP_OK (env_esp_event_loop_create_default env)); cbn [bind];
    [|discriminate].
  match goal with
  | |- context [init_phase_wifi env ?s] =>
      destruct (init_phase_wifi env s) as [ret2 st3|st3] eqn:Ew
  end; cbn [bind]; [|discriminate].
  destruct (negb (is_ESP_OK ret2)) eqn:E2;
    [intros E; destruct (not_ok_returned _ _ _ E2 E)|].
  destruct (init_phase_mqtt env st3) as [ret3 st4] eqn:Em.
  destruct (negb (is_ESP_OK ret3)) eqn:E3;
    [intros E; destruct (not_ok_returned _ _ _ E3 E)|].
  destruct (create_tasks env st4) as [ret4 st5] eqn:Ec.
  destruct (negb (is_ESP_OK ret4)) eqn:E4;
    [intros E; destruct (not_ok_returned _ _ _ E4 E)|].
  intros E. inversion E; subst.
  apply negb_false_iff in E1, E2, E3, E4.
  apply is_ESP_OK_eq in E1, E2, E3, E4. subst.
  exists st2, st3, st4, st5. auto.
Qed.

(** An initialisation that does not return ESP_OK leaves the flag down and
    has published nothing. *)
Lemma init_failure_frame (env : init_env) (st : sys) :
  s_system_initialized st = false ->
  (forall st1 : sys, mqtt_system_init env st <> Returned ESP_OK st1) ->
  same_flag_and_publishes st (state_of (mqtt_system_init env st)).
Proof.
  intros Hinit. unfold mqtt_system_init. rewrite Hinit.
  destruct (init_gpio_frame st) as (Hg0 & Hgf & _).
  destruct (init_gpio st) as [ret0 stg]. cbn [fst snd] in *. subst ret0.
  cbn [is_ESP_OK negb].
  pose proof (init_nvs_frame env stg) as Hn.
  destruct (init_nvs env stg) as [ret1 st2|st2]; cbn [bind state_of] in *;
    [|intros _; eapply same_fp_trans; eassumption].
  assert (H2 : same_flag_and_publishes st st2)
    by (eapply same_fp_trans; eassumption).
  destruct (negb (is_ESP_OK ret1)); [intros _; exact H2|].
  unfold ESP_ERROR_CHECK.
  assert (H3 : same_flag_and_publishes st
                 (record_call Call_esp_netif_init st2))
    by (eapply same_fp_trans;
        [exact H2 | apply same_fp_record_call; reflexivity]).
  destruct (is_ESP_OK (env_esp_netif_init env)); cbn [bind state_of];
    [|intros _; exact H3].
  assert (H4 : same_flag_and_publishes st
                 (record_call Call_esp_event_loop_create_default
                    (record_call Call_esp_netif_init st2)))
    by (eapply same_fp_trans;
        [exact H3 | apply same_fp_record_call; reflexivity]).
  destruct (is_ESP_OK (env_esp_event_loop_create_default env));
    cbn [bind state_of]; [|intros _; exact H4].
  set (sta := set_s_stats stats_zero
                (record_call Call_esp_event_loop_create_default
                   (record_call Call_esp_netif_init st2))).
  assert (H5 : same_flag_and_publishes st sta).
  { eapply same_fp_trans; [exact H4|]. unfold sta.
    destruct (record_call Call_esp_event_loop_create_default
                (record_call Call_esp_netif_init st2)).
    split; reflexivity. }
  destruct (init_phase_wifi_frame env sta) as (Hw & _).
  destruct (init_phase_wifi env sta) as [ret2 st3|st3];
    cbn [bind state_of] in *;
    [|intros _; eapply same_fp_trans; eassumption].
  assert (H6 : same_flag_and_publishes st st3)
    by (eapply same_fp_trans; eassumption).
  destruct (negb (is_ESP_OK ret2)); [intros _; exact H6|].
  destruct (init_phase_mqtt_frame env st3) as (Hm & _).
  destruct (init_phase_mqtt env st3) as [ret3 st4]. cbn [snd] in Hm.
  assert (H7 : same_flag_and_publishes st st4)
    by (eapply same_fp_trans; eassumption).
  destruct (negb (is_ESP_OK ret3)); [intros _; exact H7|].
  destruct (create_tasks_frame env st4) as (Hc & _).
  destruct (create_tasks env st4) as [ret4 st5]. cbn [snd] in Hc.
  destruct (negb (is_ESP_OK ret4));
    [intros _; eapply same_fp_trans; eassumption|].
  intros Hno. exfalso. eapply Hno. reflexivity.
Qed.

(** X12: [mqtt_system_init] marks the system initialised exactly when it
    returns ESP_OK.  Started on a system that is not initialised, a run that
    returns an error, or that stops in ESP_ERROR_CHECK, leaves
    [s_system_initialized] false, so that a later call runs the phases
    again, and it has not published anything. *)
Theorem init_flag_iff_success (env : init_env) (st : sys) :
  s_system_initialized st = false ->
  (s_system_initialized (state_of (mqtt_system_init env st)) = true
   <-> exists st1 : sys, mqtt_system_init env st = Returned ESP_OK st1)
  /\ ((forall st1 : sys, mqtt_system_init env st <> Returned ESP_OK st1) ->
      publishes_in (calls (state_of (mqtt_system_init env st)))
      = publishes_in (calls st)).
Proof.
  intros Hinit. split; [split|].
  - intros Hflag.
    destruct (mqtt_system_init env st) as [ret st1|st1] eqn:E.
    + destruct (is_ESP_OK ret) eqn:Er.
      * apply is_ESP_OK_eq in Er. subst ret. exists st1. reflexivity.
      * exfalso.
        assert (Hno : forall s1, mqtt_system_init env st <> Returned ESP_OK s1)
          by (intros s1 E'; rewrite E in E'; inversion E'; subst;
              discriminate Er).
        destruct (init_failure_frame env st Hinit Hno) as [Hf _].
        rewrite E in Hf. cbn [state_of] in *. congruence.
    + exfalso.
      assert (Hno : forall s1, mqtt_system_init env st <> Returned ESP_OK s1)
        by (intros s1 E'; rewrite E in E'; discriminate E').
      destruct (init_failure_frame env st Hinit Hno) as [Hf _].
      rewrite E in Hf. cbn [state_of] in *. congruence.
  - intros [st1 E]. rewrite E. cbn [state_of].
    eapply init_success_sets_flag. exact E.
  - intros Hno. apply (init_failure_frame env st Hinit Hno).
Qed.

End InitWholeFacts.

Section InitOutcomeFacts.
Context `{client_lib : mqtt_client_lib}.

Lemma final_publishes_frame (env : init_env) (st5 : sys) :
  let st6 :=
    if s_mqtt_connected st5 then
      snd (mqtt_publish_data MQTT_TOPIC_BOOT (env_boot_info env) 0 1 false
             (snd (mqtt_publish_status true st5)))
    else st5 in
  s_mqtt_client st6 = s_mqtt_client st5
  /\ s_mqtt_connected st6 = s_mqtt_connected st5
  /\ s_task_telemetry st6 = s_task_telemetry st5
  /\ s_task_health st6 = s_task_health st5
  /\ s_task_wifi_watchdog st6 = s_task_wifi_watchdog st5
  /\ s_task_ac_monitor st6 = s_task_ac_monitor st5
  /\ publishes_in (calls st6)
     = publishes_in (calls st5)
       ++ (if s_mqtt_connected st5 then
             match s_mqtt_client st5 with
             | Some _ =>
                 [("demo/central/status", "online");
                  ("demo/central/boot", env_boot_info env)]
             | None => []
             end
           else []).
Proof.
  cbv zeta. destruct (s_mqtt_connected st5) eqn:Hk;
    [|rewrite app_nil_r; auto 10].
  unfold mqtt_publish_status.
  set (sta := snd (mqtt_publish_data MQTT_TOPIC_STATUS "online" 0 1 true st5)).
  destruct (publish_frame MQTT_TOPIC_STATUS "online" 0 1 true st5)
    as (_ & A2 & A3 & A4 & A5 & A6 & A7).
  pose proof (publish_log MQTT_TOPIC_STATUS "online" 0 1 true st5) as A8.
  fold sta in A2, A3, A4, A5, A6, A7, A8.
  destruct (publish_frame MQTT_TOPIC_BOOT (env_boot_info env) 0 1 false sta)
    as (_ & B2 & B3 & B4 & B5 & B6 & B7).
  pose proof (publish_log MQTT_TOPIC_BOOT (env_boot_info env) 0 1 false sta)
    as B8.
  rewrite B2, B3, B4, B5, B6, B7, B8, A2, A3, A4, A5, A6, A7, A8, Hk.
  repeat split.
  destruct (s_mqtt_client st5); rewrite <- app_assoc; reflexivity.
Qed.

(** X13: what a successful initialisation leaves behind.  When
    [mqtt_system_init], started on a system that is not initialised,
    returns ESP_OK, the telemetry, health and monitor tasks exist; outside
    CONFIG_QEMU_MODE the watchdog task exists too and [s_mqtt_client] holds
    the handle [esp_mqtt_client_init] returned.  This holds also in degraded
    mode, when the broker did not answer within the wait. *)
Theorem init_success_state (env : init_env) (st st1 : sys) :
  s_system_initialized st = false ->
  mqtt_system_init env st = Returned ESP_OK st1 ->
  s_task_telemetry st1 = true
  /\ s_task_health st1 = true
  /\ s_task_ac_monitor st1 = true
  /\ (CONFIG_QEMU_MODE env = false ->
      s_task_wifi_watchdog st1 = true
      /\ exists client : handle,
           env_esp_mqtt_client_init env = Some client
           /\ s_mqtt_client st1 = Some client).
Proof.
  intros Hinit E.
  destruct (init_success_inv env st st1 Hinit E)
    as (st2 & st3 & st4 & st5 & _ & _ & Em & Ec & ->).
  destruct (final_publishes_frame env st5) as (F1 & _ & F3 & F4 & F5 & F6 & _).
  cbv zeta in *.
  destruct (create_tasks_frame env st4) as (_ & _ & Hcl & Ht).
  rewrite Ec in Hcl, Ht. cbn [fst snd] in *.
  destruct (Ht eq_refl) as (T1 & T2 & T3 & T4).
  destruct (init_phase_mqtt_frame env st3) as (_ & Hm & _).
  rewrite Em in Hm. cbn [fst snd] in Hm.
  unfold set_s_system_initialized.
  cbn [s_task_telemetry s_task_health s_task_ac_monitor s_task_wifi_watchdog
       s_mqtt_client].
  rewrite F1, F3, F4, F5, F6, T1, T2, T3, T4, Hcl.
  split; [reflexivity|]. split; [reflexivity|]. split; [reflexivity|].
  intros Hq. rewrite Hq. split; [reflexivity|].
  destruct (Hm eq_refl Hq) as (client & Hc & Hc4).
  exists client. split; assumption.
Qed.

(** X14: what the initialisation publishes.  A run of [mqtt_system_init]
    that returns ESP_OK publishes, as its last step and only if the session
    is up at that point, the retained status "online" and then the boot
    report, in this order and nothing else; in degraded mode (session not
    up when the tasks have been created) it publishes nothing. *)
Theorem init_publishes (env : init_env) (st st1 : sys) :
  s_system_initialized st = false ->
  mqtt_system_init env st = Returned ESP_OK st1 ->
  publishes_in (calls st1)
  = publishes_in (calls st)
    ++ (if s_mqtt_connected st1 then
          match s_mqtt_client st1 with
          | Some _ =>
              [("demo/central/status", "online");
               ("demo/central/boot", env_boot_info env)]
          | None => []
          end
        else []).
Proof.
  intros Hinit E.
  destruct (init_success_inv env st st1 Hinit E)
    as (st2 & st3 & st4 & st5 & En & Ew & Em & Ec & ->).
  destruct (final_publishes_frame env st5) as (F1 & F2 & _ & _ & _ & _ & F7).
  cbv zeta in *.
  assert (Hchain : publishes_in (calls st5) = publishes_in (calls st)).
  { destruct (init_gpio_frame st) as (_ & [_ G] & _).
    destruct (init_nvs_frame env (snd (init_gpio st))) as [_ N].
    rewrite En in N. cbn [state_of] in N.
    destruct (init_phase_wifi_frame env
                (set_s_stats stats_zero
                   (record_call Call_esp_event_loop_create_default
                      (record_call Call_esp_netif_init st2))))
      as ([_ W] & _).
    rewrite Ew in W. cbn [state_of] in W.
    destruct (init_phase_mqtt_frame env st3) as ([_ M] & _).
    rewrite Em in M. cbn [snd] in M.
    destruct (create_tasks_frame env st4) as ([_ C] & _).
    rewrite Ec in C. cbn [snd] in C.
    rewrite C, M, W.
    assert (Hmid : publishes_in
                     (calls (set_s_stats stats_zero
                               (record_call Call_esp_event_loop_create_default
                                  (record_call Call_esp_netif_init st2))))
                   = publishes_in (calls st2)).
    { destruct st2; cbn. rewrite !publishes_in_app, !app_nil_r.
      reflexivity. }
    rewrite Hmid, N, G. reflexivity. }
  unfold set_s_system_initialized.
  cbn [calls s_mqtt_connected s_mqtt_client].
  rewrite F7, F1, F2, Hchain. reflexivity.
Qed.

End InitOutcomeFacts.

Lemma init_nvs_returned (env : init_env) (st st2 : sys) (ret : esp_err_t) :
  init_nvs env st = Returned ret st2 ->
  st2 = set_calls (calls st ++ nvs_calls (env_nvs_flash_init env)) st
  /\ (asks_for_erase (env_nvs_flash_init env) ->
      env_nvs_flash_erase env = ESP_OK /\ ret = env_nvs_flash_init_again env)
  /\ (~ asks_for_erase (env_nvs_flash_init env) ->
      ret = env_nvs_flash_init env).
Proof.
  unfold init_nvs, ESP_ERROR_CHECK, asks_for_erase, nvs_calls. cbv zeta.
  assert (Hrec : forall a b c : call,
             record_call c (record_call b (record_call a st))
             = set_calls (calls st ++ [a; b; c]) st)
    by (intros a b c; destruct st; unfold record_call, set_calls; cbn;
        rewrite <- !app_assoc; reflexivity).
  assert (Hrec1 : forall a : call,
             record_call a st = set_calls (calls st ++ [a]) st)
    by (intros a; destruct st; reflexivity).
  destruct (env_nvs_flash_init env) eqn:E0; cbn [bind].
  1-5, 8: intros E; inversion E; subst; split; [apply Hrec1|];
    split; [intros [H | H]; discriminate H | reflexivity].
  all: destruct (is_ESP_OK (env_nvs_flash_erase env)) eqn:Ee; cbn [bind];
    [|discriminate];
    intros E; inversion E; subst; split; [apply Hrec|];
    split; [intros _; split; [apply is_ESP_OK_eq; exact Ee | reflexivity]
           | intros H; exfalso; apply H; auto].
Qed.

Section InitEnvironmentFacts.
Context `{client_lib : mqtt_client_lib}.

(** X15: under CONFIG_QEMU_MODE the initialisation stays off the network.
    Started on a system that is neither initialised nor connected, a run
    that returns ESP_OK has called only NVS, netif, the event loop and
    [xTaskCreate] for the telemetry, health and monitor tasks: no WiFi
    setup, no MQTT client, no watchdog task, no wait (the clock has not
    moved) and no publish; the client handle is what it was. *)
Theorem qemu_init_offline (env : init_env) (st st1 : sys) :
  CONFIG_QEMU_MODE env = true ->
  s_system_initialized st = false ->
  s_mqtt_connected st = false ->
  mqtt_system_init env st = Returned ESP_OK st1 ->
  calls st1
  = calls st ++ nvs_calls (env_nvs_flash_init env)
    ++ [Call_esp_netif_init; Call_esp_event_loop_create_default;
        Call_xTaskCreate "Telemetry"; Call_xTaskCreate "HealthMon";
        Call_xTaskCreate "ACMonitor"]
  /\ s_mqtt_client st1 = s_mqtt_client st
  /\ s_mqtt_connected st1 = false
  /\ s_task_wifi_watchdog st1 = s_task_wifi_watchdog st
  /\ time_us st1 = time_us st.
Proof.
  intros Hq Hinit Hk E.
  destruct (init_success_inv env st st1 Hinit E)
    as (st2 & st3 & st4 & st5 & En & Ew & Em & Ec & ->).
  apply init_nvs_returned in En. destruct En as (-> & _).
  unfold init_phase_wifi in Ew. rewrite Hq in Ew. inversion Ew; subst st3.
  unfold init_phase_mqtt in Em. rewrite Hq in Em. inversion Em; subst st4.
  clear Ew Em. revert Ec. unfold create_tasks. cbv zeta. rewrite Hq.
  destruct st as [s c k r t t1 t2 t3 t4 i g18 g19 clk l m18 m19].
  cbn in Hinit, Hk. subst i k.
  destruct (env_xTaskCreate env "Telemetry"); cbn [negb]; [|discriminate].
  destruct (env_xTaskCreate env "HealthMon"); cbn [negb]; [|discriminate].
  destruct (env_xTaskCreate env "ACMonitor"); cbn [negb]; [|discriminate].
  intros Ec. inversion Ec; subst st5. cbn.
  rewrite <- !app_assoc. repeat split.
Qed.

(** X16: how a failing NVS stops the initialisation.  On a system that is
    not initialised: an error of [nvs_flash_init] other than the two that
    ask for an erase is returned as it is, after that single call and with
    the flash not erased; when the partition must be erased and the erase
    fails, the run stops in ESP_ERROR_CHECK; when the erase succeeds, the
    error of the second [nvs_flash_init] is returned.  In all three cases
    both output pins have been driven low, nothing was asked of WiFi or
    MQTT, and the system is not marked initialised. *)
Theorem nvs_failure_stops_init (env : init_env) (st : sys) :
  s_system_initialized st = false ->
  (env_nvs_flash_init env <> ESP_OK ->
   ~ asks_for_erase (env_nvs_flash_init env) ->
   mqtt_system_init env st
   = Returned (env_nvs_flash_init env)
       (record_call Call_nvs_flash_init (snd (init_gpio st))))
  /\ (asks_for_erase (env_nvs_flash_init env) ->
      env_nvs_flash_erase env <> ESP_OK ->
      mqtt_system_init env st
      = Aborted
          (record_call Call_nvs_flash_erase
             (record_call Call_nvs_flash_init (snd (init_gpio st)))))
  /\ (asks_for_erase (env_nvs_flash_init env) ->
      env_nvs_flash_erase env = ESP_OK ->
      env_nvs_flash_init_again env <> ESP_OK ->
      mqtt_system_init env st
      = Returned (env_nvs_flash_init_again env)
          (record_call Call_nvs_flash_init
             (record_call Call_nvs_flash_erase
                (record_call Call_nvs_flash_init (snd (init_gpio st))))))
  /\ gpio_18 (snd (init_gpio st)) = 0
  /\ gpio_19 (snd (init_gpio st)) = 0
  /\ calls (snd (init_gpio st)) = calls st
  /\ s_system_initialized (snd (init_gpio st)) = false.
Proof.
  intros Hinit.
  assert (Hnok : forall e, e <> ESP_OK -> negb (is_ESP_OK e) = true)
    by (intros e; destruct e; try reflexivity; congruence).
  unfold mqtt_system_init, init_nvs, ESP_ERROR_CHECK, asks_for_erase.
  rewrite Hinit. cbv zeta.
  destruct (init_gpio_frame st) as (Hg0 & [Hgf _] & G18 & G19 & Gc).
  destruct (init_gpio st) as [ret0 stg]. cbn [fst snd] in *. subst ret0.
  cbn [is_ESP_OK negb].
  split; [|split; [|split]].
  - intros Hne Hna.
    destruct (env_nvs_flash_init env) eqn:E0; cbn [bind is_ESP_OK negb];
      try reflexivity; try congruence; exfalso; apply Hna; auto.
  - intros [Ha | Ha] Hne; rewrite Ha;
      destruct (env_nvs_flash_erase env) eqn:Ee; cbn [bind is_ESP_OK];
      try reflexivity; congruence.
  - intros [Ha | Ha] He Hne; rewrite Ha, He; cbn [bind is_ESP_OK];
      rewrite (Hnok _ Hne); reflexivity.
  - repeat split; try assumption. congruence.
Qed.

(** X17: [init_mqtt] never leaves a handle behind when it fails.  It
    returns ESP_OK only with the handle of a created, registered and started
    client in [s_mqtt_client]; when the creation, the registration of the
    event handler or the start fails, [s_mqtt_client] is NULL on return and
    a client that had been created has been destroyed as the last thing
    done. *)
Theorem init_mqtt_no_dangling_handle (env : init_env) (st : sys) :
  (fst (init_mqtt env st) = ESP_OK ->
   exists client : handle,
     env_esp_mqtt_client_init env = Some client
     /\ s_mqtt_client (snd (init_mqtt env st)) = Some client
     /\ calls (snd (init_mqtt env st))
        = calls st
          ++ [Call_esp_mqtt_client_init;
              Call_esp_mqtt_client_register_event client;
              Call_esp_mqtt_client_start client])
  /\ (fst (init_mqtt env st) <> ESP_OK ->
      s_mqtt_client (snd (init_mqtt env st)) = None
      /\ forall client : handle,
           env_esp_mqtt_client_init env = Some client ->
           exists l : list call,
             calls (snd (init_mqtt env st))
             = calls st ++ l ++ [Call_esp_mqtt_client_destroy client]).
Proof. apply init_mqtt_frame. Qed.

End InitEnvironmentFacts.

(** ** Formatted payloads *)

Ltac digit_cases d :=
  let H := fresh "Hd" in
  assert (H : d = 0 \/ d = 1 \/ d = 2 \/ d = 3 \/ d = 4 \/ d = 5 \/ d = 6
              \/ d = 7 \/ d = 8 \/ d = 9) by lia;
  destruct H as [H | [H | [H | [H | [H | [H | [H | [H | [H | H]]]]]]]]];
  rewrite H.

Lemma digit_char_facts (d : Z) :
  0 <= d <= 9 ->
  digit_of (digit_char d) = Some d
  /\ Ascii.eqb (digit_char d) zero = false
  /\ isspace (digit_char d) = false
  /\ (forall r : string,
        match String (digit_char d) r with
        | String "-" t => - atoi_digits t 0
        | String "+" t => atoi_digits t 0
        | t => atoi_digits t 0
        end = atoi_digits (String (digit_char d) r) 0).
Proof. intros H. digit_cases d; repeat split. Qed.

Lemma append_assoc (a b c : string) :
  ((a ++ b) ++ c = a ++ (b ++ c))%string.
Proof. induction a as [|x a IH]; cbn; [|rewrite IH]; reflexivity. Qed.

Lemma append_nil_r (a : string) : (a ++ "")%string = a.
Proof. induction a as [|x a IH]; cbn; [|rewrite IH]; reflexivity. Qed.

Lemma append_length (a b : string) :
  String.length (a ++ b) = (String.length a + String.length b)%nat.
Proof. induction a as [|x a IH]; cbn; [|rewrite IH]; reflexivity. Qed.

(** A string without NUL is its own C string, and so is a concatenation of
    such strings. *)
Lemma c_str_append (a b : string) :
  c_str a = a -> c_str b = b -> c_str (a ++ b) = (a ++ b)%string.
Proof.
  intros Ha Hb. induction a as [|x a IH]; cbn in *; [exact Hb|].
  destruct (Ascii.eqb x zero); [discriminate|].
  injection Ha as Ha. rewrite (IH Ha). reflexivity.
Qed.

Lemma utoa_c_str (more : nat) (n : Z) : c_str (utoa more n) = utoa more n.
Proof.
  assert (Hdig : forall d, 0 <= d <= 9 ->
                           c_str (String (digit_char d) "")
                           = String (digit_char d) "").
  { intros d Hd. cbn [c_str]. destruct (digit_char_facts d Hd) as (_ & -> & _).
    reflexivity. }
  revert n. induction more as [|more IH]; intros n; cbn [utoa].
  - apply Hdig. pose proof (Z.mod_pos_bound n 10). lia.
  - destruct (Z.ltb_spec n 10) as [Hlt | Hge].
    + destruct (Z.lt_ge_cases n 0) as [Hneg | Hpos].
      * destruct n as [|p|p]; try lia. reflexivity.
      * apply Hdig. lia.
    + apply c_str_append; [apply IH|]. apply Hdig.
      pose proof (Z.mod_pos_bound n 10). lia.
Qed.

Lemma utoa_length (more : nat) (n : Z) :
  (1 <= String.length (utoa more n) <= S more)%nat.
Proof.
  revert n. induction more as [|more IH]; intros n; cbn [utoa].
  - cbn. lia.
  - destruct (n <? 10); [cbn; lia|].
    rewrite append_length. cbn [String.length]. specialize (IH (n / 10)).
    lia.
Qed.

Lemma utoa_first (more : nat) (n : Z) :
  0 <= n ->
  exists (d : Z) (r : string),
    0 <= d <= 9 /\ utoa more n = String (digit_char d) r.
Proof.
  revert n. induction more as [|more IH]; intros n Hn; cbn [utoa].
  - exists (n mod 10), EmptyString. split; [|reflexivity].
    pose proof (Z.mod_pos_bound n 10). lia.
  - destruct (Z.ltb_spec n 10) as [Hlt | Hge].
    + exists n, EmptyString. split; [lia | reflexivity].
    + destruct (IH (n / 10)) as (d & r & Hd & E).
      { apply Z.div_pos; lia. }
      rewrite E. eexists d, _. split; [exact Hd | reflexivity].
Qed.

(** Reading back the digits of [n]: the accumulator is shifted left by
    the number of digits and [n] is added. *)
Lemma atoi_digits_utoa (more : nat) (n a : Z) (rest : string) :
  0 <= n < 10 ^ Z.of_nat (S more) ->
  exists m : Z,
    atoi_digits (utoa more n ++ rest) a = atoi_digits rest (a * m + n).
Proof.
  revert n a rest. induction more as [|more IH]; intros n a rest Hn.
  - change (10 ^ Z.of_nat 1) with 10 in Hn. cbn [utoa].
    rewrite Z.mod_small by lia. exists 10. cbn [append atoi_digits].
    destruct (digit_char_facts n) as (-> & _); [lia|]. reflexivity.
  - cbn [utoa]. destruct (Z.ltb_spec n 10) as [Hlt | Hge].
    + exists 10. cbn [append atoi_digits].
      destruct (digit_char_facts n) as (-> & _); [lia|]. reflexivity.
    + rewrite append_assoc.
      destruct (IH (n / 10) a (String (digit_char (n mod 10)) "" ++ rest)%string)
        as (m & Hm).
      { split; [apply Z.div_pos; lia|].
        apply Z.div_lt_upper_bound; [lia|].
        rewrite Nat2Z.inj_succ, Z.pow_succ_r in Hn by lia. lia. }
      rewrite Hm. exists (m * 10). cbn [append atoi_digits].
      pose proof (Z.mod_pos_bound n 10 ltac:(lia)) as Hmod.
      destruct (digit_char_facts (n mod 10)) as (-> & _); [lia|].
      f_equal. pose proof (Z.div_mod n 10 ltac:(lia)). lia.
Qed.

Lemma atoi_digits_format_u (n : Z) :
  0 <= n < 10 ^ 20 -> atoi_digits (utoa 19 n) 0 = n.
Proof.
  intros Hn. destruct (atoi_digits_utoa 19 n 0 EmptyString Hn) as (m & Hm).
  rewrite append_nil_r in Hm. rewrite Hm. cbn [atoi_digits]. lia.
Qed.

Lemma atoi_minus (x : string) :
  c_str x = x ->
  atoi (String "-" x) = Z.max INT_MIN (Z.min INT_MAX (- atoi_digits x 0)).
Proof. intros H. unfold atoi. cbn -[Z.max Z.min]. rewrite H. reflexivity. Qed.

Lemma atoi_digit_first (d : Z) (r : string) :
  0 <= d <= 9 ->
  c_str (String (digit_char d) r) = String (digit_char d) r ->
  atoi (String (digit_char d) r)
  = Z.max INT_MIN (Z.min INT_MAX (atoi_digits (String (digit_char d) r) 0)).
Proof.
  intros Hd. unfold atoi.
  digit_cases d; intros Hc; rewrite Hc; reflexivity.
Qed.

(** The text [%d] prints for an [int] is read back by [atoi] as the same
    [int]. *)
Lemma atoi_format_d (v : Z) : INT_MIN <= v <= INT_MAX -> atoi (format_d v) = v.
Proof.
  intros Hv. unfold format_d.
  assert (Hpow : 10 ^ 20 = 100000000000000000000) by reflexivity.
  unfold INT_MIN, INT_MAX in Hv.
  destruct (Z.ltb_spec v 0) as [Hneg | Hpos].
  - rewrite atoi_minus by apply utoa_c_str.
    rewrite atoi_digits_format_u by lia.
    unfold INT_MIN, INT_MAX. lia.
  - destruct (utoa_first 19 v Hpos) as (d & r & Hd & E).
    pose proof (utoa_c_str 19 v) as Hc. rewrite E in Hc.
    pose proof (atoi_digit_first d r Hd Hc) as Ha.
    rewrite <- E in Ha. rewrite Ha.
    rewrite atoi_digits_format_u by lia.
    unfold INT_MIN, INT_MAX. lia.
Qed.

Lemma substring_all (s : string) (n : nat) :
  (String.length s <= n)%nat -> substring 0 n s = s.
Proof.
  revert n. induction s as [|c s IH]; intros n H.
  - destruct n; reflexivity.
  - destruct n as [|n]; cbn in H; [lia|]. cbn. rewrite IH by lia. reflexivity.
Qed.

Lemma snprintf_fits (size : nat) (s : string) :
  (String.length s < size)%nat -> snprintf size s = s.
Proof. intros H. unfold snprintf. apply substring_all. lia. Qed.

Lemma format_d_c_str (v : Z) : c_str (format_d v) = format_d v.
Proof.
  unfold format_d. destruct (v <? 0); [|apply utoa_c_str].
  change (String "-" (utoa 19 (- v))) with ("-" ++ utoa 19 (- v))%string.
  apply c_str_append; [reflexivity | apply utoa_c_str].
Qed.

Lemma format_d_length (v : Z) : (String.length (format_d v) <= 21)%nat.
Proof.
  unfold format_d. destruct (v <? 0); cbn [String.length].
  - pose proof (utoa_length 19 (- v)). lia.
  - pose proof (utoa_length 19 v). lia.
Qed.

(** An [int] between -9 and 99 prints in at most two characters. *)
Lemma format_d_short (v : Z) :
  -9 <= v <= 99 -> (String.length (format_d v) <= 2)%nat.
Proof.
  intros Hv. unfold format_d, utoa.
  destruct (Z.ltb_spec v 0).
  - destruct (Z.ltb_spec (- v) 10); [cbn; lia | lia].
  - destruct (Z.ltb_spec v 10); [cbn; lia|]. fold utoa.
    destruct (Z.ltb_spec (v / 10) 10) as [Hq | Hq]; [cbn; lia|].
    assert (v / 10 < 10) by (apply Z.div_lt_upper_bound; lia). lia.
Qed.

Lemma random_luminosidade_range (r : Z) :
  random_luminosidade r = to_uint32 r mod 11
  /\ 0 <= random_luminosidade r <= 10.
Proof.
  unfold random_luminosidade, to_int32. cbv zeta.
  pose proof (Z.mod_pos_bound (to_uint32 r) 11 ltac:(lia)) as Hm.
  rewrite !(to_uint32_small (to_uint32 r mod 11)) by lia.
  destruct (Z.ltb_spec (to_uint32 r mod 11) 2147483648); lia.
Qed.

Lemma random_temperatura_range (r : Z) :
  random_temperatura r = to_uint32 r mod 49 - 3
  /\ -3 <= random_temperatura r <= 45.
Proof.
  unfold random_temperatura, to_int32. cbv zeta.
  pose proof (Z.mod_pos_bound (to_uint32 r) 49 ltac:(lia)) as Hm.
  destruct (Z.lt_ge_cases (to_uint32 r mod 49) 3) as [Hlow | Hhigh].
  - assert (E : to_uint32 (to_uint32 r mod 49 - 3)
                = to_uint32 r mod 49 - 3 + 4294967296).
    { unfold to_uint32 at 1.
      rewrite <- (Z.mod_add (to_uint32 r mod 49 - 3) 1 4294967296) by lia.
      apply Z.mod_small. lia. }
    rewrite E.
    rewrite (to_uint32_small (to_uint32 r mod 49 - 3 + 4294967296)) by lia.
    destruct (Z.ltb_spec (to_uint32 r mod 49 - 3 + 4294967296) 2147483648);
      lia.
  - rewrite !(to_uint32_small (to_uint32 r mod 49 - 3)) by lia.
    destruct (Z.ltb_spec (to_uint32 r mod 49 - 3) 2147483648); lia.
Qed.

Lemma strlen_no_nul (s : string) :
  c_str s = s -> strlen s = Z.of_nat (String.length s).
Proof. intros H. unfold strlen. rewrite H. reflexivity. Qed.

Lemma custom_json_c_str (n : Z) : c_str (custom_json n) = custom_json n.
Proof.
  unfold custom_json, format_u.
  repeat (apply c_str_append; [first [reflexivity | apply utoa_c_str]|]).
  reflexivity.
Qed.

Lemma custom_json_length (n : Z) : (String.length (custom_json n) <= 71)%nat.
Proof.
  unfold custom_json, format_u. rewrite !append_length.
  pose proof (utoa_length 19 n) as H.
  change (String.length "{") with 1%nat.
  change (String.length (json_key "publish_count")) with 16%nat.
  change (String.length ",") with 1%nat.
  change (String.length (json_key "status")) with 9%nat.
  change (String.length QUOTE) with 1%nat.
  change (String.length "operational") with 11%nat.
  change (String.length "}") with 1%nat. lia.
Qed.

Lemma health_json_c_str (h : health_status_t) (s : mqtt_statistics_t) :
  c_str (health_json h s) = health_json h s.
Proof.
  unfold health_json, format_u.
  repeat (apply c_str_append;
          [first [reflexivity | apply utoa_c_str | apply format_d_c_str]|]).
  reflexivity.
Qed.

Lemma health_json_length (h : health_status_t) (s : mqtt_statistics_t) :
  (String.length (health_json h s) <= 340)%nat.
Proof.
  unfold health_json, format_u. rewrite !append_length.
  pose proof (utoa_length 19 (free_heap h)).
  pose proof (utoa_length 19 (min_free_heap h)).
  pose proof (format_d_length (wifi_rssi h)).
  pose proof (utoa_length 19 (uptime_sec h)).
  pose proof (format_d_length (if mqtt_connected h then 1 else 0)).
  pose proof (utoa_length 19 (total_publicadas s)).
  pose proof (utoa_length 19 (total_recebidas s)).
  pose proof (utoa_length 19 (falhas_publicacao s)).
  pose proof (utoa_length 19 (desconexoes s)).
  change (String.length "{") with 1%nat.
  change (String.length ",") with 1%nat.
  change (String.length "}") with 1%nat.
  change (String.length (json_key "free_heap")) with 12%nat.
  change (String.length (json_key "min_free_heap")) with 16%nat.
  change (String.length (json_key "wifi_rssi")) with 12%nat.
  change (String.length (json_key "uptime_sec")) with 13%nat.
  change (String.length (json_key "mqtt_connected")) with 17%nat.
  change (String.length (json_key "msgs_sent")) with 12%nat.
  change (String.length (json_key "msgs_received")) with 16%nat.
  change (String.length (json_key "mqtt_failures")) with 16%nat.
  change (String.length (json_key "disconnects")) with 14%nat.
  lia.
Qed.

Section PayloadFacts.
Context `{client_lib : mqtt_client_lib}.

(** A publish on a session that is up. *)
Lemma publish_up (topic data : string) (len qos : Z) (retain : bool)
  (st : sys) (client : handle) :
  s_mqtt_client st = Some client ->
  s_mqtt_connected st = true ->
  calls (snd (mqtt_publish_data topic data len qos retain st))
  = calls st
    ++ [Call_esp_mqtt_client_publish client topic data
          (if len =? 0 then strlen data else len) qos
          (if retain then 1 else 0)]
  /\ s_mqtt_client (snd (mqtt_publish_data topic data len qos retain st))
     = Some client
  /\ s_mqtt_connected (snd (mqtt_publish_data topic data len qos retain st))
     = true.
Proof.
  intros Hc Hk.
  destruct (publish_frame topic data len qos retain st) as (_ & F1 & F2 & _).
  rewrite F1, F2, Hc, Hk. split; [|auto].
  unfold mqtt_publish_data. rewrite Hc, Hk. cbn [negb]. cbv zeta.
  break_if; destruct st; reflexivity.
Qed.

(** X18: one turn of [custom_publish_task].  With the session down the
    turn does nothing: no publish is attempted, the failure counter and the
    task's own counter stay as they are.  With the session up it hands
    exactly three messages to the client, in this order: the illumination
    sample (a value in 0..10) and the temperature sample (a value in
    -3..45), both at QoS 1, and the JSON with the incremented publish count
    at QoS 0, none retained; none of the three is cut by its buffer (4, 4
    and 128 bytes), and the length passed is the length of the text. *)
Theorem custom_task_turn (r_lum r_temp publish_count : Z) (st : sys) :
  (s_mqtt_connected st = false ->
   custom_publish_task_body r_lum r_temp publish_count st
   = (publish_count, st))
  /\ (forall client : handle,
        s_mqtt_client st = Some client ->
        s_mqtt_connected st = true ->
        fst (custom_publish_task_body r_lum r_temp publish_count st)
        = to_uint32 (publish_count + 1)
        /\ calls (snd (custom_publish_task_body r_lum r_temp publish_count st))
           = calls st
             ++ [Call_esp_mqtt_client_publish client
                   "casa/externo/luminosidade"
                   (format_d (random_luminosidade r_lum))
                   (Z.of_nat
                      (String.length (format_d (random_luminosidade r_lum))))
                   1 0;
                 Call_esp_mqtt_client_publish client "casa/sala/temperatura"
                   (format_d (random_temperatura r_temp))
                   (Z.of_nat
                      (String.length (format_d (random_temperatura r_temp))))
                   1 0;
                 Call_esp_mqtt_client_publish client "demo/central/custom"
                   (custom_json (to_uint32 (publish_count + 1)))
                   (Z.of_nat
                      (String.length
                         (custom_json (to_uint32 (publish_count + 1)))))
                   0 0]).
Proof.
  unfold custom_publish_task_body, mqtt_system_is_connected. split.
  - intros Hk. rewrite Hk. reflexivity.
  - intros client Hc Hk. rewrite Hk. cbv zeta. cbn [fst snd].
    split; [reflexivity|].
    destruct (random_luminosidade_range r_lum) as [_ Hl].
    destruct (random_temperatura_range r_temp) as [_ Ht].
    rewrite (snprintf_fits 4 (format_d (random_luminosidade r_lum)))
      by (pose proof (format_d_short (random_luminosidade r_lum)); lia).
    rewrite (snprintf_fits 4 (format_d (random_temperatura r_temp)))
      by (pose proof (format_d_short (random_temperatura r_temp)); lia).
    rewrite (snprintf_fits 128 (custom_json (to_uint32 (publish_count + 1))))
      by (pose proof (custom_json_length (to_uint32 (publish_count + 1)));
          lia).
    destruct (publish_up "casa/externo/luminosidade"
                (format_d (random_luminosidade r_lum)) 0 1 false st client
                Hc Hk) as (L1 & C1 & K1).
    set (st1 := snd (mqtt_publish_data "casa/externo/luminosidade"
                       (format_d (random_luminosidade r_lum)) 0 1 false st))
      in *.
    destruct (publish_up "casa/sala/temperatura"
                (format_d (random_temperatura r_temp)) 0 1 false st1 client
                C1 K1) as (L2 & C2 & K2).
    set (st2 := snd (mqtt_publish_data "casa/sala/temperatura"
                       (format_d (random_temperatura r_temp)) 0 1 false st1))
      in *.
    destruct (publish_up CUSTOM_PUBLISH_TOPIC
                (custom_json (to_uint32 (publish_count + 1))) 0 0 false st2
                client C2 K2) as (L3 & _).
    rewrite L3, L2, L1. cbn [Z.eqb].
    rewrite !strlen_no_nul
      by first [apply format_d_c_str | apply custom_json_c_str].
    rewrite <- !app_assoc. reflexivity.
Qed.

(** X19: the samples [custom_publish_task] publishes are read back by the
    event handler as the integers that were drawn.  For every value [r] of
    [esp_random], the text put in the 4-byte buffer parses with [atoi] to
    [r mod 11] for the illumination and to [(r mod 49) - 3] for the
    temperature; so when the broker delivers the sample back, the lights go
    on exactly when [r mod 11 < 3], and the air conditioner is switched on
    exactly when [(r mod 49) - 3 > 23]. *)
Theorem custom_samples_read_back (r : Z) (st : sys) :
  atoi (snprintf 4 (format_d (random_luminosidade r))) = to_uint32 r mod 11
  /\ atoi (snprintf 4 (format_d (random_temperatura r)))
     = to_uint32 r mod 49 - 3
  /\ gpio_18
       (mqtt_event_handler MQTT_EVENT_DATA
          (luminosidade_event (snprintf 4 (format_d (random_luminosidade r))))
          st)
     = (if to_uint32 r mod 11 <? 3 then 1 else 0)
  /\ gpio_19
       (mqtt_event_handler MQTT_EVENT_DATA
          (temperatura_event (snprintf 4 (format_d (random_temperatura r))))
          st)
     = (if to_uint32 r mod 49 - 3 >? 23 then 1 else gpio_19 st).
Proof.
  destruct (random_luminosidade_range r) as [El Hl].
  destruct (random_temperatura_range r) as [Et Ht].
  assert (Al : atoi (snprintf 4 (format_d (random_luminosidade r)))
               = to_uint32 r mod 11).
  { rewrite snprintf_fits
      by (pose proof (format_d_short (random_luminosidade r)); lia).
    rewrite atoi_format_d by (unfold INT_MIN, INT_MAX; lia). exact El. }
  assert (At : atoi (snprintf 4 (format_d (random_temperatura r)))
               = to_uint32 r mod 49 - 3).
  { rewrite snprintf_fits
      by (pose proof (format_d_short (random_temperatura r)); lia).
    rewrite atoi_format_d by (unfold INT_MIN, INT_MAX; lia). exact Et. }
  split; [exact Al|]. split; [exact At|]. split.
  - rewrite data_luminosidade by reflexivity.
    cbn [data luminosidade_event]. rewrite Al.
    destruct (to_uint32 r mod 11 <? 3); destruct st; reflexivity.
  - destruct (data_temperatura
                (temperatura_event
                   (snprintf 4 (format_d (random_temperatura r)))) st eq_refl)
      as (Hg & _).
    cbn [data temperatura_event] in Hg. rewrite Hg, At. reflexivity.
Qed.

(** X20: the health report always fits its buffer.  Whatever the heap
    sizes, the signal strength, the uptime and the counters, the JSON that
    [mqtt_publish_health_check] formats has at most 340 characters, so the
    512-byte buffer never cuts it: with the session up the complete object
    is handed to the client on demo/central/health at QoS 0, not retained,
    with its own length.  With the session down the check is refused like
    any publish, and [health_monitoring_task] does not even attempt it. *)
Theorem health_report_fits (henv : health_env) (st : sys) :
  exists health : health_status_t,
    mqtt_get_health_status henv (Some health_local) st
    = (ESP_OK, Some health)
    /\ (String.length (health_json health (s_stats st)) <= 340)%nat
    /\ (forall client : handle,
          s_mqtt_client st = Some client ->
          s_mqtt_connected st = true ->
          calls (snd (mqtt_publish_health_check henv st))
          = calls st
            ++ [Call_esp_mqtt_client_publish client "demo/central/health"
                  (health_json health (s_stats st))
                  (Z.of_nat (String.length (health_json health (s_stats st))))
                  0 0])
    /\ (session_down st ->
        mqtt_publish_health_check henv st = (-1, inc_falhas_publicacao st))
    /\ (s_mqtt_connected st = false ->
        health_monitoring_task_body henv st = st).
Proof.
  eexists. split; [reflexivity|].
  split; [apply health_json_length|]. split; [|split].
  - intros client Hc Hk. unfold mqtt_publish_health_check.
    cbn [mqtt_get_health_status].
    match goal with
    | |- context [snprintf 512 ?j] =>
        rewrite (snprintf_fits 512 j)
          by (eapply Nat.le_lt_trans; [apply health_json_length | lia])
    end.
    match goal with
    | |- context [mqtt_publish_data ?t ?j 0 0 false st] =>
        destruct (publish_up t j 0 0 false st client Hc Hk) as (L & _)
    end.
    rewrite L. cbn [Z.eqb]. rewrite strlen_no_nul by apply health_json_c_str.
    reflexivity.
  - intros Hd. unfold mqtt_publish_health_check.
    cbn [mqtt_get_health_status]. apply publish_refused. exact Hd.
  - intros Hk. unfold health_monitoring_task_body. rewrite Hk. reflexivity.
Qed.

(** X21: subscribing and unsubscribing change nothing but the call log.
    Whether refused or handed to the client, [mqtt_subscribe_topic] and
    [mqtt_unsubscribe_topic] leave the statistics, the session, the pins,
    the timer and every flag as they are; an unsubscribe on a session that
    is down returns -1 without reaching the client, and on a session that
    is up it makes exactly one client call and returns its answer. *)
Theorem subscriptions_leave_state (topic : string) (qos : Z) (st : sys) :
  set_calls (calls st) (snd (mqtt_subscribe_topic topic qos st)) = st
  /\ set_calls (calls st) (snd (mqtt_unsubscribe_topic topic st)) = st
  /\ (session_down st -> mqtt_unsubscribe_topic topic st = (-1, st))
  /\ (forall client : handle,
        s_mqtt_client st = Some client ->
        s_mqtt_connected st = true ->
        mqtt_unsubscribe_topic topic st
        = (esp_mqtt_client_unsubscribe (calls st) client topic,
           record_call (Call_esp_mqtt_client_unsubscribe client topic) st)).
Proof.
  split; [|split; [|split]].
  - unfold mqtt_subscribe_topic. cbv zeta.
    destruct (s_mqtt_client st); [|destruct st; reflexivity].
    break_if; destruct st; reflexivity.
  - unfold mqtt_unsubscribe_topic. cbv zeta.
    destruct (s_mqtt_client st); [|destruct st; reflexivity].
    break_if; destruct st; reflexivity.
  - intros [H | H]; unfold mqtt_unsubscribe_topic; rewrite H; [reflexivity|].
    destruct (s_mqtt_client st); reflexivity.
  - intros client Hc Hk. unfold mqtt_unsubscribe_topic. rewrite Hc, Hk.
    reflexivity.
Qed.

End PayloadFacts.

(** ** The configuration of the pins

    [init_gpio] is the only place where the pins are configured: whatever
    the initialisation meets afterwards, and whatever the running system
    does, both pins stay in GPIO_MODE_OUTPUT. *)

Lemma same_modes_refl (a : sys) : same_modes a a.
Proof. split; reflexivity. Qed.

Lemma same_modes_trans (a b c : sys) :
  same_modes a b -> same_modes b c -> same_modes a c.
Proof. intros [H1 H2] [H3 H4]. split; congruence. Qed.

Lemma record_call_modes (c : call) (st : sys) :
  same_modes st (record_call c st).
Proof. destruct st; split; reflexivity. Qed.

Lemma vTaskDelay_modes (ms : Z) (st : sys) : same_modes st (vTaskDelay ms st).
Proof. destruct st; split; reflexivity. Qed.

Lemma wifi_event_modes (ev : wifi_event_t) (st : sys) :
  same_modes st (wifi_event_handler ev st).
Proof.
  destruct ev; unfold wifi_event_handler; repeat break_if; destruct st;
    split; reflexivity.
Qed.

Lemma deliver_wifi_modes (evs : list wifi_event_t) (st : sys) :
  same_modes st (deliver_wifi evs st).
Proof.
  revert st. induction evs as [|ev evs IH]; intros st;
    [apply same_modes_refl|].
  cbn [deliver_wifi]. eapply same_modes_trans;
    [apply wifi_event_modes | apply IH].
Qed.

Lemma wait_wifi_modes (env : init_env) (remaining count : nat) (st : sys) :
  same_modes st (snd (wait_for_wifi_connection_loop env count remaining st)).
Proof.
  revert count st. induction remaining as [|remaining IH]; intros count st.
  - apply same_modes_refl.
  - cbn [wait_for_wifi_connection_loop].
    destruct (is_ESP_OK (env_ap_info env count)); [apply same_modes_refl|].
    eapply same_modes_trans; [apply vTaskDelay_modes|].
    eapply same_modes_trans; [apply deliver_wifi_modes | apply IH].
Qed.

Lemma init_gpio_modes (st : sys) :
  gpio_18_mode (snd (init_gpio st)) = GPIO_MODE_OUTPUT
  /\ gpio_19_mode (snd (init_gpio st)) = GPIO_MODE_OUTPUT.
Proof. destruct st; split; reflexivity. Qed.

Lemma init_nvs_modes (env : init_env) (st : sys) :
  same_modes st (state_of (init_nvs env st)).
Proof.
  unfold init_nvs, ESP_ERROR_CHECK. cbv zeta.
  destruct (env_nvs_flash_init env); cbn [state_of bind];
    try apply record_call_modes;
    destruct (is_ESP_OK (env_nvs_flash_erase env)); cbn [state_of bind];
    destruct st; split; reflexivity.
Qed.

Lemma init_phase_wifi_modes (env : init_env) (st : sys) :
  same_modes st (state_of (init_phase_wifi env st)).
Proof.
  unfold init_phase_wifi, init_wifi, ESP_ERROR_CHECK. cbv zeta.
  destruct (CONFIG_QEMU_MODE env); [apply same_modes_refl|].
  destruct (is_ESP_OK (env_wifi_setup env));
    cbn [bind state_of negb is_ESP_OK]; [|apply record_call_modes].
  unfold wait_for_wifi_connection.
  pose proof (wait_wifi_modes env 30 0 (record_call Call_wifi_setup st)) as H.
  destruct (wait_for_wifi_connection_loop env 0 30
              (record_call Call_wifi_setup st)) as [ret st'].
  cbn [snd state_of] in *.
  eapply same_modes_trans; [apply record_call_modes | exact H].
Qed.

Lemma create_tasks_modes (env : init_env) (st : sys) :
  same_modes st (snd (create_tasks env st)).
Proof.
  unfold create_tasks. cbv zeta.
  repeat break_if; destruct st; split; reflexivity.
Qed.

Lemma init_mqtt_modes (env : init_env) (st : sys) :
  same_modes st (snd (init_mqtt env st)).
Proof.
  unfold init_mqtt. cbv zeta.
  destruct st as [s c k r t t1 t2 t3 t4 i g18 g19 clk l m18 m19].
  cbn [set_s_mqtt_client record_call set_calls s_mqtt_client calls s_stats
       s_mqtt_connected s_wifi_retry_num s_temp_low_start_time_ms
       s_task_telemetry s_task_health s_task_wifi_watchdog s_task_ac_monitor
       s_system_initialized gpio_18 gpio_19 time_us gpio_18_mode
       gpio_19_mode].
  destruct (env_esp_mqtt_client_init env) as [client|];
    [|split; reflexivity].
  repeat break_if; split; reflexivity.
Qed.

Section PinFacts.
Context `{client_lib : mqtt_client_lib}.

Lemma publish_modes (topic data : string) (len qos : Z) (retain : bool)
  (st : sys) :
  same_modes st (snd (mqtt_publish_data topic data len qos retain st)).
Proof.
  unfold mqtt_publish_data. cbv zeta.
  destruct (s_mqtt_client st); [|destruct st; split; reflexivity].
  repeat break_if; destruct st; split; reflexivity.
Qed.

Lemma sys_step_modes (ev : sys_event) (st : sys) :
  same_modes st (sys_step ev st).
Proof.
  destruct ev as [us|id e|w| |ap|tp pl len qos rt|tp qos|tp| ];
    cbn [sys_step].
  - destruct st; split; reflexivity.
  - exact (mqtt_event_modes id e st).
  - apply wifi_event_modes.
  - exact (ac_monitor_modes st).
  - unfold wifi_watchdog_task_body. break_if; destruct st; split;
      reflexivity.
  - apply publish_modes.
  - unfold mqtt_subscribe_topic. cbv zeta.
    destruct (s_mqtt_client st); [|apply same_modes_refl].
    repeat break_if; destruct st; split; reflexivity.
  - unfold mqtt_unsubscribe_topic. cbv zeta.
    destruct (s_mqtt_client st); [|apply same_modes_refl].
    repeat break_if; destruct st; split; reflexivity.
  - destruct st; split; reflexivity.
Qed.

(** Nothing the running system does configures a pin. *)
Lemma run_modes (evs : list sys_event) (st : sys) :
  same_modes st (run evs st).
Proof.
  revert st. induction evs as [|ev evs IH]; intros st;
    [apply same_modes_refl|].
  rewrite run_cons. eapply same_modes_trans;
    [apply sys_step_modes | apply IH].
Qed.

Lemma deliver_mqtt_modes
  (evs : list (esp_mqtt_event_id_t * esp_mqtt_event_t)) (st : sys) :
  same_modes st (deliver_mqtt evs st).
Proof.
  revert st. induction evs as [|[id ev] evs IH]; intros st;
    [apply same_modes_refl|].
  rewrite deliver_mqtt_cons. eapply same_modes_trans;
    [exact (mqtt_event_modes id ev st) | apply IH].
Qed.

Lemma wait_mqtt_modes (env : init_env) (remaining count : nat) (st : sys) :
  same_modes st (wait_for_mqtt_connection_loop env count remaining st).
Proof.
  revert count st. induction remaining as [|remaining IH]; intros count st.
  - apply same_modes_refl.
  - cbn [wait_for_mqtt_connection_loop].
    destruct (s_mqtt_connected st); [apply same_modes_refl|].
    eapply same_modes_trans; [apply vTaskDelay_modes|].
    eapply same_modes_trans; [apply deliver_mqtt_modes | apply IH].
Qed.

Lemma init_phase_mqtt_modes (env : init_env) (st : sys) :
  same_modes st (snd (init_phase_mqtt env st)).
Proof.
  unfold init_phase_mqtt.
  destruct (CONFIG_QEMU_MODE env); [apply same_modes_refl|].
  pose proof (init_mqtt_modes env st) as Hm.
  destruct (init_mqtt env st) as [ret st1]. cbn [snd] in Hm.
  destruct (negb (is_ESP_OK ret)); [exact Hm|].
  unfold wait_for_mqtt_connection. cbv zeta.
  pose proof (wait_mqtt_modes env 20 0 st1) as Hw.
  destruct (s_mqtt_connected (wait_for_mqtt_connection_loop env 0 20 st1));
    cbn [snd]; eapply same_modes_trans; eassumption.
Qed.

(** Every run of [mqtt_system_init] that goes through its phases, to the
    end or not, leaves both pins in GPIO_MODE_OUTPUT. *)
Lemma init_configures_pins (env : init_env) (st : sys) :
  s_system_initialized st = false ->
  gpio_18_mode (state_of (mqtt_system_init env st)) = GPIO_MODE_OUTPUT
  /\ gpio_19_mode (state_of (mqtt_system_init env st)) = GPIO_MODE_OUTPUT.
Proof.
  intros Hinit.
  enough (H : same_modes (snd (init_gpio st))
                (state_of (mqtt_system_init env st))).
  { destruct H as [H18 H19]. destruct (init_gpio_modes st) as [G18 G19].
    split; congruence. }
  unfold mqtt_system_init. rewrite Hinit.
  destruct (init_gpio_frame st) as (Hg0 & _).
  destruct (init_gpio st) as [ret0 stg]. cbn [fst snd] in *. subst ret0.
  cbn [is_ESP_OK negb].
  pose proof (init_nvs_modes env stg) as H2.
  destruct (init_nvs env stg) as [ret1 st2|st2]; cbn [bind state_of] in *;
    [|exact H2].
  destruct (negb (is_ESP_OK ret1)); [exact H2|].
  unfold ESP_ERROR_CHECK.
  assert (H3 : same_modes stg (record_call Call_esp_netif_init st2))
    by (eapply same_modes_trans; [exact H2 | apply record_call_modes]).
  destruct (is_ESP_OK (env_esp_netif_init env)); cbn [bind state_of];
    [|exact H3].
  assert (H4 : same_modes stg
                 (record_call Call_esp_event_loop_create_default
                    (record_call Call_esp_netif_init st2)))
    by (eapply same_modes_trans; [exact H3 | apply record_call_modes]).
  destruct (is_ESP_OK (env_esp_event_loop_create_default env));
    cbn [bind state_of]; [|exact H4].
  set (sta := set_s_stats stats_zero
                (record_call Call_esp_event_loop_create_default
                   (record_call Call_esp_netif_init st2))).
  assert (H5 : same_modes stg sta).
  { eapply same_modes_trans; [exact H4|]. unfold sta.
    destruct (record_call Call_esp_event_loop_create_default
                (record_call Call_esp_netif_init st2)).
    split; reflexivity. }
  pose proof (init_phase_wifi_modes env sta) as Hw.
  destruct (init_phase_wifi env sta) as [ret2 st3|st3];
    cbn [bind state_of] in *;
    [|eapply same_modes_trans; eassumption].
  assert (H6 : same_modes stg st3)
    by (eapply same_modes_trans; eassumption).
  destruct (negb (is_ESP_OK ret2)); [exact H6|].
  pose proof (init_phase_mqtt_modes env st3) as Hm.
  destruct (init_phase_mqtt env st3) as [ret3 st4]. cbn [snd] in Hm.
  assert (H7 : same_modes stg st4)
    by (eapply same_modes_trans; eassumption).
  destruct (negb (is_ESP_OK ret3)); [exact H7|].
  pose proof (create_tasks_modes env st4) as Hc.
  destruct (create_tasks env st4) as [ret4 st5]. cbn [snd] in Hc.
  assert (H8 : same_modes stg st5)
    by (eapply same_modes_trans; eassumption).
  destruct (negb (is_ESP_OK ret4)); [exact H8|].
  cbn [state_of].
  eapply same_modes_trans; [exact H8|].
  assert (Hflag : forall x : sys,
             same_modes x (set_s_system_initialized true x))
    by (intros x; destruct x; split; reflexivity).
  eapply same_modes_trans; [|apply Hflag].
  destruct (s_mqtt_connected st5); [|apply same_modes_refl].
  eapply same_modes_trans; [|apply publish_modes].
  unfold mqtt_publish_status. apply publish_modes.
Qed.

End PinFacts.

(** * Worked instances *)

Lemma steady_19_all_low : all_low steady_19.
Proof.
  intros s payload E. injection E as <-. vm_compute. reflexivity.
Defined.

(** C1, instance: with the client started and the broker not yet
    connected, a publish and a subscribe are both refused with -1. *)
Lemma session_not_ready_witness :
  session_down client_started_state
  /\ fst (@mqtt_publish_data accepting_client MQTT_TOPIC_STATUS "online" 0 1
            true client_started_state) = -1
  /\ @mqtt_subscribe_topic accepting_client "casa/sala/temperatura" 1
       client_started_state = (-1, client_started_state).
Proof.
  assert (H : session_down client_started_state) by (right; reflexivity).
  split; [exact H|].
  destruct (@session_not_ready accepting_client MQTT_TOPIC_STATUS "online" 0 1
              true client_started_state H) as [(Hp & _) Hs].
  split; assumption.
Defined.

(** C1 as stated fails for the subscribe operation: refused at boot, it
    returns -1 and [falhas_publicacao] is still 0, not 1. *)
Lemma refused_subscribe_not_counted :
  session_down boot_state
  /\ fst (@mqtt_subscribe_topic accepting_client "casa/sala/temperatura" 1
            boot_state) = -1
  /\ falhas_publicacao
       (s_stats (snd (@mqtt_subscribe_topic accepting_client
                        "casa/sala/temperatura" 1 boot_state)))
     = falhas_publicacao (s_stats boot_state)
  /\ falhas_publicacao
       (s_stats (snd (@mqtt_subscribe_topic accepting_client
                        "casa/sala/temperatura" 1 boot_state)))
     <> to_uint32 (falhas_publicacao (s_stats boot_state) + 1).
Proof.
  split; [left; reflexivity|]. split; [reflexivity|]. split; [reflexivity|].
  vm_compute. discriminate.
Qed.

(** C2, instance: the batch issued when the broker answers the started
    client. *)
Lemma subscription_batch_once_witness :
  s_mqtt_client client_started_state = Some 1
  /\ calls (@mqtt_event_handler accepting_client MQTT_EVENT_CONNECTED
              (mk_event "" "") client_started_state)
     = [Call_esp_mqtt_client_subscribe 1 "casa/externo/luminosidade" 1;
        Call_esp_mqtt_client_subscribe 1 "casa/sala/temperatura" 1;
        Call_esp_mqtt_client_subscribe 1 "demo/central/comandos" 1;
        Call_esp_mqtt_client_subscribe 1 "demo/config/#" 0].
Proof.
  split; [reflexivity|].
  exact (proj1 (@subscription_batch_once accepting_client (mk_event "" "")
                  client_started_state 1 eq_refl)).
Defined.

(** C2 as stated fails on the size of the batch: the session-established
    event issues 4 subscriptions, not 6. *)
Lemma subscription_batch_has_four_topics :
  subscriptions_in
    (calls (@mqtt_event_handler accepting_client MQTT_EVENT_CONNECTED
              (mk_event "" "") client_started_state))
  = [("casa/externo/luminosidade", 1); ("casa/sala/temperatura", 1);
     ("demo/central/comandos", 1); ("demo/config/#", 0)]
  /\ List.length
       (subscriptions_in
          (calls (@mqtt_event_handler accepting_client MQTT_EVENT_CONNECTED
                    (mk_event "" "") client_started_state)))
     <> 6%nat.
Proof. split; [reflexivity | vm_compute; discriminate]. Qed.

(** C3, instance: the system initialised by [happy_env], the air
    conditioner switched on by a reading of 25, then 19 read in every
    second with the checker taking its turns every 10 s.  After 600 s, and
    after 700 s, the output is still on and the timer still unarmed. *)
Lemma shutoff_never_fires_witness :
  gpio_19_mode ac_on_state = GPIO_MODE_OUTPUT
  /\ gpio_19 ac_on_state = 1
  /\ s_temp_low_start_time_ms ac_on_state = 0
  /\ all_low steady_19
  /\ gpio_19 (@ac_run accepting_client steady_19 10 600 ac_on_state) = 1
  /\ gpio_19 (@ac_run accepting_client steady_19 10 700 ac_on_state) = 1
  /\ s_temp_low_start_time_ms
       (@ac_run accepting_client steady_19 10 700 ac_on_state) = 0.
Proof.
  assert (Hm : gpio_19_mode ac_on_state = GPIO_MODE_OUTPUT) by reflexivity.
  assert (Hg : gpio_19 ac_on_state = 1) by reflexivity.
  assert (Hs : s_temp_low_start_time_ms ac_on_state = 0) by reflexivity.
  split; [exact Hm|]. split; [exact Hg|]. split; [exact Hs|].
  split; [exact steady_19_all_low|].
  destruct (@shutoff_never_fires accepting_client steady_19 10 600
              ac_on_state Hm Hg Hs) as (H600 & _).
  destruct (@shutoff_never_fires accepting_client steady_19 10 700
              ac_on_state Hm Hg Hs) as (H700 & Hs700 & _).
  split; [exact H600|]. split; [exact H700 | exact Hs700].
Defined.

(** C4, instance: the first link-lost event after boot. *)
Lemma link_retry_bounded_witness :
  s_wifi_retry_num boot_state < WIFI_MAX_RETRY
  /\ s_wifi_retry_num
       (wifi_event_handler WIFI_EVENT_STA_DISCONNECTED boot_state) = 1
  /\ calls (wifi_event_handler WIFI_EVENT_STA_DISCONNECTED boot_state)
     = [Call_esp_wifi_connect].
Proof.
  assert (H : s_wifi_retry_num boot_state < WIFI_MAX_RETRY)
    by (vm_compute; reflexivity).
  split; [exact H|].
  exact (proj1 (link_retry_bounded boot_state) H).
Defined.

(** C4 as stated fails on the watchdog: six link-lost events after boot
    exhaust the 5 retries, and the next turn of the watchdog that finds the
    link down issues a sixth connect attempt and rearms the retries. *)
Lemma watchdog_reconnects_after_max_retries :
  s_wifi_retry_num (link_lost 6 boot_state) = WIFI_MAX_RETRY
  /\ connects_in (calls (link_lost 6 boot_state)) = 5%nat
  /\ connects_in
       (calls (wifi_watchdog_task_body ESP_FAIL (link_lost 6 boot_state)))
     = 6%nat
  /\ s_wifi_retry_num
       (wifi_watchdog_task_body ESP_FAIL (link_lost 6 boot_state)) = 0
  /\ connects_in
       (calls (wifi_event_handler WIFI_EVENT_STA_DISCONNECTED
                 (wifi_watchdog_task_body ESP_FAIL (link_lost 6 boot_state))))
     = 7%nat.
Proof. repeat split. Qed.

(** C5, instance: the invariant across a low reading and a turn of the
    checker. *)
Lemma ac_invariant_holds_witness :
  ac_invariant ac_on_state
  /\ ac_invariant
       (@mqtt_event_handler accepting_client MQTT_EVENT_DATA
          (temperatura_event "19") ac_on_state)
  /\ ac_invariant
       (ac_monitor_task_body
          (@mqtt_event_handler accepting_client MQTT_EVENT_DATA
             (temperatura_event "19") ac_on_state)).
Proof.
  assert (H : ac_invariant ac_on_state)
    by (intros Harmed; exfalso; apply Harmed; reflexivity).
  destruct (@ac_invariant_holds accepting_client) as (_ & Hev & Htick).
  split; [exact H|]. split.
  - apply Hev. exact H.
  - apply Htick. apply Hev. exact H.
Defined.

(** C6, instance: the system initialised by [happy_env] and the air
    conditioner switched on by a reading of 25.  A first reading of 18 one
    minute later leaves the timer at 0 instead of setting the start
    timestamp; on the same system with a start timestamp of 5000 ms in the
    timer, the reading of 18 erases it. *)
Lemma low_reading_never_arms_witness :
  gpio_19_mode (elapse 60000000 ac_on_state) = GPIO_MODE_OUTPUT
  /\ gpio_19 (elapse 60000000 ac_on_state) = 1
  /\ atoi "18" < 20
  /\ s_temp_low_start_time_ms
       (@mqtt_event_handler accepting_client MQTT_EVENT_DATA
          (temperatura_event "18") (elapse 60000000 ac_on_state))
     = 0
  /\ s_temp_low_start_time_ms ac_armed_state = 5000
  /\ s_temp_low_start_time_ms
       (@mqtt_event_handler accepting_client MQTT_EVENT_DATA
          (temperatura_event "18") ac_armed_state)
     = 0.
Proof.
  assert (Hv : atoi "18" < 20) by (vm_compute; reflexivity).
  split; [reflexivity|]. split; [reflexivity|]. split; [exact Hv|].
  split; [|split; [reflexivity|]].
  - exact (proj1 (@low_reading_never_arms accepting_client
                    (temperatura_event "18") (elapse 60000000 ac_on_state)
                    eq_refl eq_refl Hv)).
  - exact (proj1 (@low_reading_never_arms accepting_client
                    (temperatura_event "18") ac_armed_state
                    eq_refl eq_refl Hv)).
Defined.

(** C7, instance: a reading of 2 switches the lights on, whatever came
    before. *)
Lemma luminosidade_rule_witness :
  strcmp_eq0 (topic (luminosidade_event "2")) "casa/externo/luminosidade"
  = true
  /\ atoi (data (luminosidade_event "2")) < 3
  /\ gpio_18
       (@mqtt_event_handler accepting_client MQTT_EVENT_DATA
          (luminosidade_event "2") boot_state) = 1.
Proof.
  assert (Hv : atoi (data (luminosidade_event "2")) < 3)
    by (vm_compute; reflexivity).
  split; [reflexivity|]. split; [exact Hv|].
  exact (proj1 (@luminosidade_rule accepting_client (luminosidade_event "2")
                  boot_state eq_refl) Hv).
Defined.

(** C8, instance: three accepted publishes from zeroed counters. *)
Lemma publish_attempts_counted_witness :
  total_publicadas (s_stats session_up_state) = 0
  /\ falhas_publicacao (s_stats session_up_state) = 0
  /\ total_publicadas
       (s_stats (@publish_all accepting_client
                   [status_online; status_online; status_online]
                   session_up_state))
     + falhas_publicacao
         (s_stats (@publish_all accepting_client
                     [status_online; status_online; status_online]
                     session_up_state))
     = 3.
Proof.
  assert (Hn : Z.of_nat
                 (List.length [status_online; status_online; status_online])
               < 4294967296) by (vm_compute; reflexivity).
  split; [reflexivity|]. split; [reflexivity|].
  exact (proj2 (proj2 (@publish_attempts_counted accepting_client
                         [status_online; status_online; status_online]
                         session_up_state))
           eq_refl eq_refl Hn).
Defined.

(** C8 as stated fails at n = 2^32: after 4294967296 refused publishes from
    the zeroed counters of boot, both 32-bit counters read 0 again. *)
Lemma publish_counters_wrap :
  Z.of_nat (List.length (repeat status_online (Z.to_nat 4294967296)))
  = 4294967296
  /\ total_publicadas
       (s_stats (@publish_all accepting_client
                   (repeat status_online (Z.to_nat 4294967296)) boot_state))
     + falhas_publicacao
         (s_stats (@publish_all accepting_client
                     (repeat status_online (Z.to_nat 4294967296)) boot_state))
     = 0.
Proof.
  split.
  - rewrite repeat_length. apply Z2Nat.id. discriminate.
  - destruct (@publish_all_refused accepting_client (Z.to_nat 4294967296)
                status_online boot_state eq_refl)
      as [Hp Hf]; [split; [discriminate | reflexivity]|].
    rewrite Hp, Hf, Z2Nat.id by discriminate. reflexivity.
Qed.

(** C10, instance: after the initialisation of [happy_env] from boot, a
    second call answers ESP_OK without asking any collaborator, even one
    that would fail. *)
Lemma init_idempotent_witness :
  @mqtt_system_init accepting_client happy_env boot_state
  = Returned ESP_OK initialized_state
  /\ @mqtt_system_init accepting_client broken_env initialized_state
     = Returned ESP_OK initialized_state.
Proof.
  assert (H : @mqtt_system_init accepting_client happy_env boot_state
              = Returned ESP_OK initialized_state)
    by (vm_compute; reflexivity).
  split; [exact H|].
  exact (proj1 (@init_idempotent accepting_client happy_env broken_env []
                  boot_state initialized_state H)).
Defined.

(** ** Instances of the further properties *)

(** X2, instance: the shutdown of the system initialised by [happy_env]. *)
Lemma shutdown_teardown_witness :
  s_system_initialized initialized_state = true
  /\ fst (@mqtt_system_shutdown accepting_client initialized_state) = ESP_OK
  /\ s_mqtt_client
       (snd (@mqtt_system_shutdown accepting_client initialized_state)) = None
  /\ fst (@mqtt_publish_data accepting_client MQTT_TOPIC_STATUS "online" 0 1
            true
            (snd (@mqtt_system_shutdown accepting_client initialized_state)))
     = -1.
Proof.
  assert (H : s_system_initialized initialized_state = true) by reflexivity.
  destruct (@shutdown_teardown accepting_client initialized_state H)
    as (H1 & _ & H3 & _ & _ & _ & _ & _ & H9 & _).
  split; [exact H|]. split; [exact H1|]. split; [exact H3|]. apply H9.
Defined.

(** X3, instance: the calls of that shutdown, the "offline" status first. *)
Lemma shutdown_offline_first_witness :
  s_system_initialized initialized_state = true
  /\ s_mqtt_client initialized_state = Some 1
  /\ s_mqtt_connected initialized_state = true
  /\ calls (snd (@mqtt_system_shutdown accepting_client initialized_state))
     = calls initialized_state
       ++ [Call_esp_mqtt_client_publish 1 "demo/central/status" "offline" 7 1
             1;
           Call_vTaskDelete "Telemetry"; Call_vTaskDelete "HealthMon";
           Call_vTaskDelete "WiFiWatchdog"; Call_vTaskDelete "ACMonitor";
           Call_esp_mqtt_client_stop 1; Call_esp_mqtt_client_destroy 1].
Proof.
  split; [reflexivity|]. split; [reflexivity|]. split; [reflexivity|].
  exact (@shutdown_offline_first accepting_client initialized_state 1
           eq_refl eq_refl eq_refl).
Defined.

(** X4, instance: a timer left armed while the pin was forced low is
    unarmed by the next turn of the checker. *)
Lemma checker_restores_invariant_witness :
  gpio_get_level GPIO_NUM_19 (set_gpio_19 0 ac_armed_state) <> 1
  /\ s_temp_low_start_time_ms (set_gpio_19 0 ac_armed_state) = 5000
  /\ s_temp_low_start_time_ms
       (ac_monitor_task_body (set_gpio_19 0 ac_armed_state)) = 0.
Proof.
  assert (H : gpio_get_level GPIO_NUM_19 (set_gpio_19 0 ac_armed_state) <> 1)
    by (vm_compute; discriminate).
  split; [exact H|]. split; [reflexivity|].
  exact (proj1 (proj2 (checker_restores_invariant
                         (set_gpio_19 0 ac_armed_state)) H)).
Defined.

(** X5, instance: a reading of 25 is what switches the output on at boot. *)
Lemma ac_switching_roles_witness :
  gpio_19 (@mqtt_event_handler accepting_client MQTT_EVENT_DATA
             (temperatura_event "25") boot_state)
  <> gpio_19 boot_state
  /\ 23 < atoi (data (temperatura_event "25"))
  /\ gpio_19 (@mqtt_event_handler accepting_client MQTT_EVENT_DATA
                (temperatura_event "25") boot_state) = 1.
Proof.
  assert (H : gpio_19 (@mqtt_event_handler accepting_client MQTT_EVENT_DATA
                         (temperatura_event "25") boot_state)
              <> gpio_19 boot_state) by (vm_compute; discriminate).
  destruct (proj1 (@ac_switching_roles accepting_client boot_state)
              MQTT_EVENT_DATA (temperatura_event "25") H)
    as (_ & _ & Hv & Hon & _).
  split; [exact H|]. split; [exact Hv | exact Hon].
Defined.

(** X6, instance: a light sample leaves an armed air conditioner alone. *)
Lemma data_event_touches_own_actuator_witness :
  strcmp_eq0 (topic (luminosidade_event "2")) "casa/externo/luminosidade"
  = true
  /\ gpio_19 (@mqtt_event_handler accepting_client MQTT_EVENT_DATA
                (luminosidade_event "2") ac_armed_state) = 1
  /\ s_temp_low_start_time_ms
       (@mqtt_event_handler accepting_client MQTT_EVENT_DATA
          (luminosidade_event "2") ac_armed_state) = 5000.
Proof.
  split; [reflexivity|].
  exact (proj1 (@data_event_touches_own_actuator accepting_client
                  (luminosidade_event "2") ac_armed_state) eq_refl).
Defined.

(** X7, instance: three messages and one session loss after boot. *)
Lemma events_counted_witness :
  0 <= total_recebidas (s_stats boot_state) < 4294967296
  /\ 0 <= desconexoes (s_stats boot_state) < 4294967296
  /\ total_recebidas
       (s_stats (@deliver_mqtt accepting_client sample_delivery boot_state))
     = 3
  /\ desconexoes
       (s_stats (@deliver_mqtt accepting_client sample_delivery boot_state))
     = 1.
Proof.
  assert (Hr : 0 <= total_recebidas (s_stats boot_state) < 4294967296)
    by (split; [discriminate | reflexivity]).
  assert (Hd : 0 <= desconexoes (s_stats boot_state) < 4294967296)
    by (split; [discriminate | reflexivity]).
  destruct (@events_counted accepting_client sample_delivery boot_state Hr Hd)
    as (H1 & H2 & _).
  split; [exact Hr|]. split; [exact Hd|]. split; [exact H1 | exact H2].
Defined.

(** X8, instance: once the broker has answered the started client, a
    publish reaches the client. *)
Lemma session_events_gate_publish_witness :
  s_mqtt_client client_started_state = Some 1
  /\ calls
       (snd (@mqtt_publish_data accepting_client MQTT_TOPIC_STATUS "online" 0
               1 true
               (@mqtt_event_handler accepting_client MQTT_EVENT_CONNECTED
                  (mk_event "" "") client_started_state)))
     = calls (@mqtt_event_handler accepting_client MQTT_EVENT_CONNECTED
                (mk_event "" "") client_started_state)
       ++ [Call_esp_mqtt_client_publish 1 "demo/central/status" "online" 6 1
             1].
Proof.
  split; [reflexivity|].
  exact (proj2 (proj2 (@session_events_gate_publish accepting_client
                         (mk_event "" "") MQTT_TOPIC_STATUS "online" 0 1 true
                         client_started_state) 1 eq_refl)).
Defined.

(** X9, instance: seven link losses and a watchdog turn after boot. *)
Lemma retry_counter_bounded_witness :
  retry_in_range boot_state
  /\ retry_in_range
       (@run accepting_client
          [Ev_wifi WIFI_EVENT_STA_DISCONNECTED;
           Ev_wifi WIFI_EVENT_STA_DISCONNECTED;
           Ev_wifi WIFI_EVENT_STA_DISCONNECTED;
           Ev_wifi WIFI_EVENT_STA_DISCONNECTED;
           Ev_wifi WIFI_EVENT_STA_DISCONNECTED;
           Ev_wifi WIFI_EVENT_STA_DISCONNECTED;
           Ev_wifi WIFI_EVENT_STA_DISCONNECTED;
           Ev_wifi_watchdog ESP_FAIL] boot_state).
Proof.
  assert (H : retry_in_range boot_state)
    by (split; [reflexivity | discriminate]).
  split; [exact H|].
  exact (@retry_counter_bounded accepting_client _ boot_state H).
Defined.

(** X10, instance: on a session that is up the wait returns at once. *)
Lemma mqtt_wait_bounded_witness :
  s_mqtt_connected session_up_state = true
  /\ @wait_for_mqtt_connection accepting_client happy_env 20 session_up_state
     = (ESP_OK, session_up_state).
Proof.
  split; [reflexivity|].
  exact (proj2 (proj2 (@mqtt_wait_bounded accepting_client happy_env 20
                         session_up_state)) eq_refl).
Defined.

(** X11, instance: with [happy_env] the third poll finds the link, two
    seconds after the start. *)
Lemma wifi_wait_first_poll_witness :
  (2 < 30)%nat
  /\ is_ESP_OK (env_ap_info happy_env 2) = true
  /\ fst (wait_for_wifi_connection happy_env 30 boot_state) = ESP_OK
  /\ time_us (snd (wait_for_wifi_connection happy_env 30 boot_state))
     = 2000000.
Proof.
  assert (Hk : (2 < 30)%nat) by lia.
  assert (Hbefore : forall j : nat,
             (j < 2)%nat -> is_ESP_OK (env_ap_info happy_env j) = false).
  { intros j Hj. destruct j as [|[|j]]; [reflexivity | reflexivity | lia]. }
  split; [exact Hk|]. split; [reflexivity|].
  exact (proj1 (wifi_wait_first_poll happy_env 30 boot_state) 2%nat Hk
           eq_refl Hbefore).
Defined.

(** X12, instance: with a failing NVS the system stays uninitialised and
    nothing is published. *)
Lemma init_flag_iff_success_witness :
  s_system_initialized boot_state = false
  /\ (forall st1 : sys,
        @mqtt_system_init accepting_client broken_env boot_state
        <> Returned ESP_OK st1)
  /\ publishes_in
       (calls (state_of (@mqtt_system_init accepting_client broken_env
                           boot_state)))
     = [].
Proof.
  assert (Hno : forall st1 : sys,
             @mqtt_system_init accepting_client broken_env boot_state
             <> Returned ESP_OK st1)
    by (intros st1; vm_compute; discriminate).
  split; [reflexivity|]. split; [exact Hno|].
  exact (proj2 (@init_flag_iff_success accepting_client broken_env boot_state
                  eq_refl) Hno).
Defined.

Lemma happy_init_returns :
  @mqtt_system_init accepting_client happy_env boot_state
  = Returned ESP_OK initialized_state.
Proof. vm_compute. reflexivity. Defined.

(** X13, instance: the tasks and the handle after [happy_env]. *)
Lemma init_success_state_witness :
  s_system_initialized boot_state = false
  /\ @mqtt_system_init accepting_client happy_env boot_state
     = Returned ESP_OK initialized_state
  /\ s_task_telemetry initialized_state = true
  /\ s_task_health initialized_state = true
  /\ s_task_ac_monitor initialized_state = true.
Proof.
  split; [reflexivity|]. split; [exact happy_init_returns|].
  destruct (@init_success_state accepting_client happy_env boot_state
              initialized_state eq_refl happy_init_returns)
    as (H1 & H2 & H3 & _).
  split; [exact H1|]. split; [exact H2 | exact H3].
Defined.

(** X14, instance: with [happy_env] the status and the boot report are the
    two publishes of the initialisation. *)
Lemma init_publishes_witness :
  s_system_initialized boot_state = false
  /\ @mqtt_system_init accepting_client happy_env boot_state
     = Returned ESP_OK initialized_state
  /\ publishes_in (calls initialized_state)
     = [("demo/central/status", "online"); ("demo/central/boot", "{}")].
Proof.
  split; [reflexivity|]. split; [exact happy_init_returns|].
  exact (@init_publishes accepting_client happy_env boot_state
           initialized_state eq_refl happy_init_returns).
Defined.

(** X15, instance: the calls of an initialisation under CONFIG_QEMU_MODE
    whose NVS partition had to be erased. *)
Lemma qemu_init_offline_witness :
  CONFIG_QEMU_MODE qemu_env = true
  /\ @mqtt_system_init accepting_client qemu_env boot_state
     = Returned ESP_OK
         (state_of (@mqtt_system_init accepting_client qemu_env boot_state))
  /\ calls (state_of (@mqtt_system_init accepting_client qemu_env boot_state))
     = [Call_nvs_flash_init; Call_nvs_flash_erase; Call_nvs_flash_init;
        Call_esp_netif_init; Call_esp_event_loop_create_default;
        Call_xTaskCreate "Telemetry"; Call_xTaskCreate "HealthMon";
        Call_xTaskCreate "ACMonitor"].
Proof.
  assert (H : @mqtt_system_init accepting_client qemu_env boot_state
              = Returned ESP_OK
                  (state_of (@mqtt_system_init accepting_client qemu_env
                               boot_state)))
    by (vm_compute; reflexivity).
  split; [reflexivity|]. split; [exact H|].
  exact (proj1 (@qemu_init_offline accepting_client qemu_env boot_state _
                  eq_refl eq_refl eq_refl H)).
Defined.

(** X16, instance: ESP_FAIL from [nvs_flash_init] is what the
    initialisation returns. *)
Lemma nvs_failure_stops_init_witness :
  s_system_initialized boot_state = false
  /\ env_nvs_flash_init broken_env <> ESP_OK
  /\ ~ asks_for_erase (env_nvs_flash_init broken_env)
  /\ @mqtt_system_init accepting_client broken_env boot_state
     = Returned ESP_FAIL
         (record_call Call_nvs_flash_init (snd (init_gpio boot_state))).
Proof.
  assert (H1 : env_nvs_flash_init broken_env <> ESP_OK) by discriminate.
  assert (H2 : ~ asks_for_erase (env_nvs_flash_init broken_env))
    by (intros [H | H]; discriminate H).
  split; [reflexivity|]. split; [exact H1|]. split; [exact H2|].
  exact (proj1 (@nvs_failure_stops_init accepting_client broken_env boot_state
                  eq_refl) H1 H2).
Defined.

(** X17, instance: a client that does not start is destroyed and the
    handle is cleared. *)
Lemma init_mqtt_no_dangling_handle_witness :
  fst (init_mqtt start_fails_env boot_state) <> ESP_OK
  /\ s_mqtt_client (snd (init_mqtt start_fails_env boot_state)) = None.
Proof.
  assert (H : fst (init_mqtt start_fails_env boot_state) <> ESP_OK)
    by (vm_compute; discriminate).
  split; [exact H|].
  exact (proj1 (proj2 (init_mqtt_no_dangling_handle start_fails_env
                         boot_state) H)).
Defined.

(** X18, instance: a turn of the custom task that draws 13 and 1. *)
Lemma custom_task_turn_witness :
  s_mqtt_client session_up_state = Some 1
  /\ s_mqtt_connected session_up_state = true
  /\ publishes_in
       (calls (snd (@custom_publish_task_body accepting_client 13 1 0
                      session_up_state)))
     = [("casa/externo/luminosidade", "2"); ("casa/sala/temperatura", "-2");
        ("demo/central/custom", custom_json 1)].
Proof.
  split; [reflexivity|]. split; [reflexivity|].
  rewrite (proj2 (proj2 (@custom_task_turn accepting_client 13 1 0
                           session_up_state) 1 eq_refl eq_refl)).
  reflexivity.
Defined.

(** X20, instance: the report of [sample_health_env] is refused while the
    session is down. *)
Lemma health_report_fits_witness :
  session_down boot_state
  /\ @mqtt_publish_health_check accepting_client sample_health_env boot_state
     = (-1, inc_falhas_publicacao boot_state).
Proof.
  assert (H : session_down boot_state) by (left; reflexivity).
  split; [exact H|].
  destruct (@health_report_fits accepting_client sample_health_env boot_state)
    as (health & _ & _ & _ & Hdown & _).
  exact (Hdown H).
Defined.

(** X21, instance: an unsubscribe on the session that is up. *)
Lemma subscriptions_leave_state_witness :
  s_mqtt_client session_up_state = Some 1
  /\ s_mqtt_connected session_up_state = true
  /\ calls (snd (@mqtt_unsubscribe_topic accepting_client "demo/config/#"
                   session_up_state))
     = [Call_esp_mqtt_client_unsubscribe 1 "demo/config/#"].
Proof.
  split; [reflexivity|]. split; [reflexivity|].
  rewrite (proj2 (proj2 (proj2 (@subscriptions_leave_state accepting_client
                                  "demo/config/#" 0 session_up_state)))
             1 eq_refl eq_refl).
  reflexivity.
Defined.
